(** * Wavy AI: Stock Guard, Review Shield and the WhatsApp webhook

    A shallow embedding of [app.py] and [review_monitor.py].

    - The Supabase tables are lists of records kept in insertion order;
      [select ... .execute().data] is the list of matching rows in that
      order, so [data[0]] is the first matching row.  Fresh row ids come
      from a counter.
    - Time is a [Z] number of seconds; each function receives one clock
      reading [now] for its whole run ([datetime.now()]).  ISO timestamps
      are compared as times.
    - Python floats are rationals ([Q]); [!=] on floats is [Qeq_bool].
    - Text is Rocq [string] (bytes); [.lower()] and [.strip()] act on ASCII.
    - The external services (Google Sheets, Google Places, the Anthropic
      API) are arguments of the functions that call them, so a theorem
      holds for every answer they may give.  The Python host functions
      [str(float)] and [float(str)] and the Twilio configuration are
      Section variables. *)

From Stdlib Require Import String Ascii ZArith QArith Qround Qabs List Bool Lia Lqa.
Import ListNotations.
Open Scope string_scope.
Open Scope Z_scope.

(** ** Python string helpers *)

Definition ascii_lower (c : ascii) : ascii :=
  let n := nat_of_ascii c in
  if andb (Nat.leb 65 n) (Nat.leb n 90) then ascii_of_nat (n + 32) else c.

(** [str.lower()] *)
Fixpoint py_lower (s : string) : string :=
  match s with
  | EmptyString => EmptyString
  | String c s' => String (ascii_lower c) (py_lower s')
  end.

(** The ASCII characters of [str.isspace()]: space, [\t\n\x0b\x0c\r] and
    the separators [\x1c]-[\x1f].  The non-ASCII white space of Python
    (U+00A0 and the like), several bytes in UTF-8, is not covered. *)
Definition is_py_space (c : ascii) : bool :=
  let n := nat_of_ascii c in
  Nat.eqb n 32 || (Nat.leb 9 n && Nat.leb n 13) || (Nat.leb 28 n && Nat.leb n 31).

Fixpoint lstrip (s : string) : string :=
  match s with
  | EmptyString => EmptyString
  | String c s' => if is_py_space c then lstrip s' else s
  end.

Fixpoint rev_string (s : string) : string :=
  match s with
  | EmptyString => EmptyString
  | String c s' => rev_string s' ++ String c EmptyString
  end.

(** [str.strip()] *)
Definition py_strip (s : string) : string :=
  rev_string (lstrip (rev_string (lstrip s))).

(** [s.startswith(p)] *)
Definition startswith (s p : string) : bool := String.prefix p s.

(** [needle in hay] *)
Fixpoint py_in (needle hay : string) : bool :=
  if String.prefix needle hay then true
  else match hay with
       | EmptyString => false
       | String _ hay' => py_in needle hay'
       end.

Fixpoint replace_go (fuel : nat) (pat s : string) : string :=
  match fuel with
  | O => s
  | S fuel' =>
      match s with
      | EmptyString => EmptyString
      | String c s' =>
          if String.prefix pat s
          then replace_go fuel' pat (substring (String.length pat) (String.length s) s)
          else String c (replace_go fuel' pat s')
      end
  end.

(** [s.replace(pat, "")] for a non-empty [pat] *)
Definition remove_all (pat s : string) : string :=
  replace_go (S (String.length s)) pat s.

(** [s[:n]] and [s[n:]] *)
Definition take (n : nat) (s : string) : string := substring 0 n s.
Definition drop (n : nat) (s : string) : string :=
  substring n (String.length s - n) s.

(** Truthiness of an optional string ([x or y] on [str | None]). *)
Definition truthy_str (o : option string) : bool :=
  match o with
  | Some s => negb (String.eqb s "")
  | None => false
  end.

Definition py_or_str (a b : option string) : option string :=
  if truthy_str a then a else b.

Definition get_default (o : option string) (d : string) : string :=
  match o with Some s => s | None => d end.

Fixpoint repeat_string (n : nat) (s : string) : string :=
  match n with O => "" | S n' => s ++ repeat_string n' s end.

(** [str(n)] for a Python [int] *)
Fixpoint digits_go (fuel : nat) (n : N) (acc : string) : string :=
  match fuel with
  | O => acc
  | S fuel' =>
      let d := N.modulo n 10 in
      let acc' := String (ascii_of_N (48 + d)) acc in
      if N.ltb n 10 then acc' else digits_go fuel' (N.div n 10) acc'
  end.

Definition show_N (n : N) : string := digits_go (S (N.to_nat (N.log2 n))) n "".

Definition show_Z (z : Z) : string :=
  if z <? 0 then "-" ++ show_N (Z.to_N (- z)) else show_N (Z.to_N z).

(** [round(x, 1)]: round half to even at one decimal place. *)
Definition round_half_even (y : Q) : Z :=
  let f := Qfloor y in
  let r := (y - inject_Z f)%Q in
  if Qlt_le_dec r (1 # 2) then f
  else if Qeq_bool r (1 # 2) then (if Z.even f then f else f + 1)
  else f + 1.

Definition round1 (x : Q) : Q := (inject_Z (round_half_even (x * 10)) / 10)%Q.

Definition qsum (l : list Q) : Q := fold_left Qplus l 0%Q.

(** ** Data model: the Supabase rows *)

Record Business := {
  biz_id : Z;
  biz_name : string;
  biz_owner_phone : string;
  biz_place_id : option string;
  biz_google_place_id : option string;
}.

Record StockItem := {
  si_id : Z;
  si_business_id : Z;
  si_name : string;
  si_current_quantity : Q;
  si_unit : string;
  si_reorder_threshold : Q;
  si_reorder_quantity : Q;
  si_supplier_name : string;
  si_supplier_whatsapp : string;
  si_last_updated : Z;
}.

Record StockMovement := {
  mv_business_id : Z;
  mv_item_name : string;
  mv_quantity_change : Q;
  mv_new_quantity : Q;
  mv_type : string;
  mv_recorded_at : Z;
}.

(** The alert dict built by [check_stock_levels]. *)
Record Alert := {
  al_name : string;
  al_qty : Q;
  al_unit : string;
  al_threshold : Q;
  al_reorder : Q;
  al_supplier_name : string;
  al_supplier_wa : string;
  al_days_left : option Q;
}.

(** [item_data] holds [json.dumps] of a stock_items row (purchase orders)
    or of an alert dict (stock alerts). *)
Inductive ItemData :=
| ItemRow (it : StockItem)
| ItemAlert (a : Alert).

Record PendingAction := {
  pa_id : Z;
  pa_business_id : Z;
  pa_owner_phone : string;
  pa_action_type : string;
  pa_item_name : option string;
  pa_item_data : option ItemData;
  pa_review_id : option string;
  pa_draft_reply : option string;
  pa_status : string;
  pa_created_at : Z;
}.

Record SeenReview := {
  sr_id : Z;
  sr_review_id : string;
  sr_business_id : Z;
  sr_reviewer_name : string;
  sr_rating : Z;
  sr_review_text : string;
  sr_reply_draft : option string;
  sr_replied : bool;
}.

(** The five tables, the id counter, and the WhatsApp messages delivered
    by Twilio as (to, body) pairs. *)
Record World := {
  businesses : list Business;
  stock_items : list StockItem;
  stock_movements : list StockMovement;
  pending_actions : list PendingAction;
  seen_reviews : list SeenReview;
  next_id : Z;
  outbox : list (string * string);
}.

Definition set_stock_items (w : World) l : World :=
  {| businesses := businesses w; stock_items := l;
     stock_movements := stock_movements w; pending_actions := pending_actions w;
     seen_reviews := seen_reviews w; next_id := next_id w; outbox := outbox w |}.

Definition set_stock_movements (w : World) l : World :=
  {| businesses := businesses w; stock_items := stock_items w;
     stock_movements := l; pending_actions := pending_actions w;
     seen_reviews := seen_reviews w; next_id := next_id w; outbox := outbox w |}.

Definition set_pending_actions (w : World) l : World :=
  {| businesses := businesses w; stock_items := stock_items w;
     stock_movements := stock_movements w; pending_actions := l;
     seen_reviews := seen_reviews w; next_id := next_id w; outbox := outbox w |}.

Definition set_seen_reviews (w : World) l : World :=
  {| businesses := businesses w; stock_items := stock_items w;
     stock_movements := stock_movements w; pending_actions := pending_actions w;
     seen_reviews := l; next_id := next_id w; outbox := outbox w |}.

Definition set_outbox (w : World) l : World :=
  {| businesses := businesses w; stock_items := stock_items w;
     stock_movements := stock_movements w; pending_actions := pending_actions w;
     seen_reviews := seen_reviews w; next_id := next_id w; outbox := l |}.

Definition bump_id (w : World) : World :=
  {| businesses := businesses w; stock_items := stock_items w;
     stock_movements := stock_movements w; pending_actions := pending_actions w;
     seen_reviews := seen_reviews w; next_id := next_id w + 1; outbox := outbox w |}.

(** Inserts: the row gets the next id, and is appended to its table. *)
Definition insert_stock_item (mk : Z -> StockItem) (w : World) : World :=
  bump_id (set_stock_items w (stock_items w ++ [mk (next_id w)])).

Definition insert_movement (m : StockMovement) (w : World) : World :=
  set_stock_movements w (stock_movements w ++ [m]).

Definition insert_pending_action (mk : Z -> PendingAction) (w : World) : World :=
  bump_id (set_pending_actions w (pending_actions w ++ [mk (next_id w)])).

Definition insert_seen_review (mk : Z -> SeenReview) (w : World) : World :=
  bump_id (set_seen_reviews w (seen_reviews w ++ [mk (next_id w)])).

(** Inbound sheet rows: [dict(zip(headers, row))], values are cell text. *)
Definition Row := list (string * string).

Definition row_get (r : Row) (k : string) : option string :=
  match find (fun kv => String.eqb (fst kv) k) r with
  | Some kv => Some (snd kv)
  | None => None
  end.

(** A Google Places review (legacy API shape, as used in [app.py]). *)
Record Review := {
  rv_author_name : option string;
  rv_rating : option Z;
  rv_text : option string;
  rv_time : option Z;
}.

Record PlaceData := {
  pd_rating : option Q;
  pd_user_ratings_total : option Z;
  pd_reviews : list Review;
}.

(** Requests to the Anthropic messages API, and its outcome: the text of
    [response.content[0]] or the raised exception's message. *)
Inductive LlmReq :=
| DraftReview (business_name reviewer : string) (rating : Z) (text : string)
| Chat (system user : string).

Inductive LlmResult :=
| LlmOk (text : string)
| LlmError (err : string).

Definition nl : string := String (ascii_of_nat 10) EmptyString.
(** The double-quote character. *)
Definition dq : string := String (ascii_of_nat 34) EmptyString.

Definition show_opt (o : option string) : string := get_default o "None".

Definition show_opt_Z (o : option Z) : string :=
  match o with Some z => show_Z z | None => "None" end.

Definition opt_str_eqb (a b : option string) : bool :=
  match a, b with
  | Some x, Some y => String.eqb x y
  | None, None => true
  | _, _ => false
  end.

(** The gateways of the app: [read_stock_sheet], [get_reviews] and the
    Anthropic client.  Each is an arbitrary function of its input. *)
Record Gateways := {
  gw_read_stock_sheet : Business -> list Row;
  gw_get_reviews : string -> option PlaceData;
  gw_llm : LlmReq -> LlmResult;
}.

Section App.

(** [str(x)] of a Python float. *)
Variable repr_float : Q -> string.
(** [float(s)] of a non-empty string; [None] when it raises [ValueError]. *)
Variable py_float : string -> option Q.
(** [twilio_client] and [TWILIO_WHATSAPP_NUMBER] are both set. *)
Variable twilio_ready : bool.

(** ** Helpers *)

(** [send_whatsapp(to, message)] *)
Definition send_whatsapp (to message : string) (w : World) : World :=
  if negb twilio_ready then w
  else
    let to' := if startswith to "whatsapp:" then to else "whatsapp:" ++ to in
    set_outbox w (outbox w ++ [(to', message)]).

(** [get_business(sender)] *)
Definition get_business (sender : string) (w : World) : option Business :=
  let phone := py_strip (remove_all "whatsapp:" sender) in
  if String.eqb phone "" then None
  else find (fun b => String.eqb (biz_owner_phone b) phone) (businesses w).

(** ** Stock Guard *)

(** [float(row.get(k) or 0)] *)
Definition float_field (r : Row) (k : string) : option Q :=
  match row_get r k with
  | None => Some 0%Q
  | Some s => if String.eqb s "" then Some 0%Q else py_float s
  end.

(** The parsing prefix shared by [sync_stock_to_supabase] and
    [check_stock_levels]: the stripped item name and the three numbers,
    or [None] when the row is skipped ([continue]). *)
Definition parse_row (r : Row) : option (string * Q * Q * Q) :=
  let name := py_strip (get_default (row_get r "Item Name") "") in
  if String.eqb name "" then None
  else match float_field r "Current Quantity", float_field r "Reorder Threshold",
             float_field r "Reorder Quantity" with
       | Some qty, Some threshold, Some reorder => Some (name, qty, threshold, reorder)
       | _, _, _ => None
       end.

Definition update_stock_item (id : Z) (f : StockItem -> StockItem) (w : World) : World :=
  set_stock_items w
    (map (fun it => if si_id it =? id then f it else it) (stock_items w)).

(** One iteration of the loop of [sync_stock_to_supabase]. *)
Definition sync_row (business : Business) (now : Z) (w : World) (r : Row) : World :=
  match parse_row r with
  | None => w
  | Some (name, qty, threshold, reorder) =>
      let unit := get_default (row_get r "Unit") "" in
      let supplier_name := get_default (row_get r "Supplier Name") "" in
      let supplier_wa := get_default (row_get r "Supplier WhatsApp") "" in
      let existing :=
        filter (fun it => (si_business_id it =? biz_id business) && String.eqb (si_name it) name)
               (stock_items w) in
      match existing with
      | e :: _ =>
          let old_qty := si_current_quantity e in
          let w1 := update_stock_item (si_id e)
            (fun it => {| si_id := si_id it; si_business_id := si_business_id it;
                          si_name := si_name it; si_current_quantity := qty;
                          si_unit := unit; si_reorder_threshold := threshold;
                          si_reorder_quantity := reorder;
                          si_supplier_name := si_supplier_name it;
                          si_supplier_whatsapp := si_supplier_whatsapp it;
                          si_last_updated := now |}) w in
          if negb (Qeq_bool qty old_qty) then
            insert_movement
              {| mv_business_id := biz_id business; mv_item_name := name;
                 mv_quantity_change := (qty - old_qty)%Q; mv_new_quantity := qty;
                 mv_type := "sheet_update"; mv_recorded_at := now |} w1
          else w1
      | [] =>
          insert_stock_item
            (fun id => {| si_id := id; si_business_id := biz_id business; si_name := name;
                          si_current_quantity := qty; si_unit := unit;
                          si_reorder_threshold := threshold; si_reorder_quantity := reorder;
                          si_supplier_name := supplier_name;
                          si_supplier_whatsapp := supplier_wa; si_last_updated := now |}) w
      end
  end.

(** [sync_stock_to_supabase(business, rows)] *)
Definition sync_stock_to_supabase (business : Business) (rows : list Row) (now : Z)
  (w : World) : World :=
  fold_left (sync_row business now) rows w.

(** The movements selected by the query of [predict_stockout]. *)
Definition window_movements (w : World) (business_id : Z) (item_name : string) (now : Z)
  : list StockMovement :=
  let week_ago := now - 7 * 86400 in
  filter (fun m => (mv_business_id m =? business_id) && String.eqb (mv_item_name m) item_name
                   && negb (Qle_bool 0 (mv_quantity_change m))
                   && (week_ago <=? mv_recorded_at m))
         (stock_movements w).

(** [predict_stockout(business_id, item_name, current_qty)] *)
Definition predict_stockout (w : World) (business_id : Z) (item_name : string)
  (current_qty : Q) (now : Z) : option Q :=
  match window_movements w business_id item_name now with
  | [] => None
  | ms =>
      let total_used := qsum (map (fun m => Qabs (mv_quantity_change m)) ms) in
      let daily_usage := (total_used / 7)%Q in
      if negb (Qle_bool daily_usage 0) then Some (round1 (current_qty / daily_usage))
      else None
  end.

(** [check_stock_levels(business, rows)] *)
Definition check_stock_levels (business : Business) (rows : list Row) (now : Z)
  (w : World) : list Alert :=
  flat_map (fun r =>
    match parse_row r with
    | None => []
    | Some (name, qty, threshold, reorder) =>
        if Qle_bool qty threshold then
          [{| al_name := name; al_qty := qty;
              al_unit := get_default (row_get r "Unit") "";
              al_threshold := threshold; al_reorder := reorder;
              al_supplier_name := get_default (row_get r "Supplier Name") "";
              al_supplier_wa := get_default (row_get r "Supplier WhatsApp") "";
              al_days_left := predict_stockout w (biz_id business) name qty now |}]
        else []
    end) rows.

(** Python truthiness of [item.get("days_left")]: [None] and [0.0] are false. *)
Definition truthy_days (o : option Q) : bool :=
  match o with Some d => negb (Qeq_bool d 0) | None => false end.

Definition days_str (item : Alert) : string :=
  if truthy_days (al_days_left item) then
    match al_days_left item with
    | Some d => nl ++ "⏰ Estimated stockout in *" ++ repr_float d ++ " days*"
    | None => ""
    end
  else "".

Definition stock_alert_msg (item : Alert) : string :=
  "📦 *Stock Alert — " ++ al_name item ++ "*" ++ nl ++ nl
  ++ "Current: *" ++ repr_float (al_qty item) ++ " " ++ al_unit item ++ "*" ++ nl
  ++ "Reorder point: " ++ repr_float (al_threshold item) ++ " " ++ al_unit item
  ++ days_str item ++ nl
  ++ "Supplier: " ++ al_supplier_name item ++ nl ++ nl
  ++ "Reply *ORDER " ++ al_name item ++ "* to draft a purchase order" ++ nl
  ++ "Reply *IGNORE " ++ al_name item ++ "* to snooze".

(** The cool-down query: stock_alert actions of the business created at or
    after [now - 4h]. *)
Definition recent_stock_alerts (business : Business) (now : Z) (w : World)
  : list PendingAction :=
  filter (fun pa => (pa_business_id pa =? biz_id business)
                    && String.eqb (pa_action_type pa) "stock_alert"
                    && (now - 4 * 3600 <=? pa_created_at pa))
         (pending_actions w).

(** One iteration of the loop of [send_stock_alerts]. *)
Definition send_stock_alert (business : Business) (now : Z) (w : World) (item : Alert)
  : World :=
  let recent := recent_stock_alerts business now w in
  if existsb (fun r => opt_str_eqb (pa_item_name r) (Some (al_name item))) recent then w
  else
    let w1 := send_whatsapp (biz_owner_phone business) (stock_alert_msg item) w in
    insert_pending_action
      (fun id => {| pa_id := id; pa_business_id := biz_id business;
                    pa_owner_phone := biz_owner_phone business;
                    pa_action_type := "stock_alert"; pa_item_name := Some (al_name item);
                    pa_item_data := Some (ItemAlert item); pa_review_id := None;
                    pa_draft_reply := None; pa_status := "pending";
                    pa_created_at := now |}) w1.

(** [send_stock_alerts(business, alerts)] *)
Definition send_stock_alerts (business : Business) (alerts : list Alert) (now : Z)
  (w : World) : World :=
  fold_left (send_stock_alert business now) alerts w.

(** The body of the [try] in the loop of [run_stock_monitor]: one stock
    reconciliation of one business. *)
Definition reconcile_business (gw : Gateways) (now : Z) (w : World) (b : Business) : World :=
  let rows := gw_read_stock_sheet gw b in
  match rows with
  | [] => w
  | _ =>
      let w1 := sync_stock_to_supabase b rows now w in
      let alerts := check_stock_levels b rows now w1 in
      match alerts with
      | [] => w1
      | _ => send_stock_alerts b alerts now w1
      end
  end.

(** [run_stock_monitor()] *)
Definition run_stock_monitor (gw : Gateways) (now : Z) (w : World) : World :=
  fold_left (reconcile_business gw now) (businesses w) w.

(** ** Conversational Action Router *)

(** PostgreSQL [LIKE] on a pattern: [%] matches any text, [_] any one
    character, a backslash escapes the next character.  (A pattern ending
    in a lone backslash is rejected by PostgreSQL; the patterns built here
    always end in [%].) *)
Fixpoint like_match (p s : string) : bool :=
  match p with
  | EmptyString => String.eqb s ""
  | String c p' =>
      if Ascii.eqb c "%"%char || Ascii.eqb c "*"%char then
        (fix any (t : string) : bool :=
           like_match p' t || match t with
                              | EmptyString => false
                              | String _ t' => any t'
                              end) s
      else if Ascii.eqb c "_"%char then
        match s with EmptyString => false | String _ s' => like_match p' s' end
      else if Ascii.eqb c "\"%char then
        match p' with
        | EmptyString => false
        | String e p'' =>
            match s with
            | EmptyString => false
            | String d s' => Ascii.eqb e d && like_match p'' s'
            end
        end
      else
        match s with
        | EmptyString => false
        | String d s' => Ascii.eqb c d && like_match p' s'
        end
  end.

(** [.ilike(column, pattern)]: PostgREST reads [*] as [%], and PostgreSQL
    [ILIKE] compares the lowered strings. *)
Definition ilike (column pattern : string) : bool :=
  like_match (py_lower pattern) (py_lower column).

Definition order_msg (business : Business) (item : StockItem) : string :=
  "Hi " ++ si_supplier_name item ++ "," ++ nl ++ nl
  ++ "We'd like to place an order:" ++ nl
  ++ "• " ++ si_name item ++ ": " ++ repr_float (si_reorder_quantity item) ++ " "
  ++ si_unit item ++ nl ++ nl
  ++ "Please confirm availability and delivery time." ++ nl ++ nl
  ++ "Thanks," ++ nl ++ biz_name business.

(** [handle_order_command(business, item_name)]: the reply and the new state. *)
Definition handle_order_command (business : Business) (item_name : string) (now : Z)
  (w : World) : string * World :=
  let items := filter (fun it => (si_business_id it =? biz_id business)
                                 && ilike (si_name it) ("%" ++ item_name ++ "%"))
                      (stock_items w) in
  match items with
  | [] => ("I couldn't find '" ++ item_name ++ "' in your stock list.", w)
  | item :: _ =>
      let msg := order_msg business item in
      let w1 := insert_pending_action
        (fun id => {| pa_id := id; pa_business_id := biz_id business;
                      pa_owner_phone := biz_owner_phone business;
                      pa_action_type := "purchase_order"; pa_item_name := Some (si_name item);
                      pa_item_data := Some (ItemRow item); pa_review_id := None;
                      pa_draft_reply := Some msg; pa_status := "pending";
                      pa_created_at := now |}) w in
      ("📋 *Purchase Order Draft*" ++ nl
       ++ "Item: " ++ si_name item ++ " — " ++ repr_float (si_reorder_quantity item) ++ " "
       ++ si_unit item ++ nl
       ++ "Supplier: " ++ si_supplier_name item ++ nl ++ nl
       ++ "Message:" ++ nl
       ++ dq ++ msg ++ dq ++ nl ++ nl
       ++ "Reply *SEND ORDER* to send to supplier via WhatsApp", w1)
  end.

(** [json.loads(action.get("item_data") or "{}").get("supplier_whatsapp", "")] *)
Definition item_supplier_whatsapp (d : option ItemData) : string :=
  match d with
  | Some (ItemRow it) => si_supplier_whatsapp it
  | Some (ItemAlert _) => ""
  | None => ""
  end.

(** [item.get("supplier_name")] *)
Definition item_supplier_name (d : option ItemData) : option string :=
  match d with
  | Some (ItemRow it) => Some (si_supplier_name it)
  | Some (ItemAlert a) => Some (al_supplier_name a)
  | None => None
  end.

Definition set_status (id : Z) (status : string) (w : World) : World :=
  set_pending_actions w
    (map (fun pa => if pa_id pa =? id then
                      {| pa_id := pa_id pa; pa_business_id := pa_business_id pa;
                         pa_owner_phone := pa_owner_phone pa;
                         pa_action_type := pa_action_type pa; pa_item_name := pa_item_name pa;
                         pa_item_data := pa_item_data pa; pa_review_id := pa_review_id pa;
                         pa_draft_reply := pa_draft_reply pa; pa_status := status;
                         pa_created_at := pa_created_at pa |}
                    else pa) (pending_actions w)).

Definition pending_of (business : Business) (action_type : string) (w : World)
  : list PendingAction :=
  filter (fun pa => (pa_business_id pa =? biz_id business)
                    && String.eqb (pa_action_type pa) action_type
                    && String.eqb (pa_status pa) "pending")
         (pending_actions w).

(** [handle_send_order(business)] *)
Definition handle_send_order (business : Business) (w : World) : string * World :=
  match pending_of business "purchase_order" w with
  | [] => ("No pending purchase orders found.", w)
  | action :: _ =>
      let supplier_wa := item_supplier_whatsapp (pa_item_data action) in
      let sname := show_opt (item_supplier_name (pa_item_data action)) in
      if String.eqb supplier_wa "" then
        ("No WhatsApp number for " ++ sname ++ ". Add it to your Google Sheet.", w)
      else
        let supplier_wa' := if startswith supplier_wa "whatsapp:" then supplier_wa
                            else "whatsapp:" ++ supplier_wa in
        let w1 := send_whatsapp supplier_wa' (get_default (pa_draft_reply action) "") w in
        let w2 := set_status (pa_id action) "completed" w1 in
        ("✅ Order sent to " ++ sname ++ "!", w2)
  end.

Definition stock_line (i : StockItem) : string :=
  "• " ++ si_name i ++ ": " ++ repr_float (si_current_quantity i) ++ " " ++ si_unit i ++ nl.

(** [handle_check_stock(business)] *)
Definition handle_check_stock (business : Business) (w : World) : string :=
  let items := filter (fun i => si_business_id i =? biz_id business) (stock_items w) in
  match items with
  | [] => "No stock items yet. Type *sync stock* to load from your Google Sheet."
  | _ =>
      let low := filter (fun i => Qle_bool (si_current_quantity i) (si_reorder_threshold i)) items in
      let ok := filter (fun i => negb (Qle_bool (si_current_quantity i) (si_reorder_threshold i))) items in
      let msg := "📦 *Stock — " ++ biz_name business ++ "*" ++ nl ++ nl in
      let msg := match low with
                 | [] => msg
                 | _ => msg ++ "🔴 *Needs Reordering:*" ++ nl
                        ++ String.concat "" (map stock_line low) ++ nl
                 end in
      match ok with
      | [] => msg
      | _ => msg ++ "✅ *OK:*" ++ nl ++ String.concat "" (map stock_line ok)
      end
  end.

(** ** Review Shield ([app.py]) *)

(** [draft_review_reply(...)]: the model's text, or the fixed
    acknowledgment when the call raises. *)
Definition draft_review_reply (gw : Gateways) (business_name reviewer_name : string)
  (rating : Z) (review_text : string) : string :=
  match gw_llm gw (DraftReview business_name reviewer_name rating review_text) with
  | LlmOk t => t
  | LlmError _ => "Thank you for your feedback. We appreciate you taking the time to share your experience."
  end.

Definition stars (n : Z) : string := repeat_string (Z.to_nat n) "⭐".

(** [f"{place_id}_{review.get('time')}"] *)
Definition app_review_id (place_id : string) (review : Review) : string :=
  place_id ++ "_" ++ show_opt_Z (rv_time review).

Definition seen (review_id : string) (w : World) : bool :=
  existsb (fun s => String.eqb (sr_review_id s) review_id) (seen_reviews w).

(** One iteration of the inner loop of [check_reviews_for_all_businesses]. *)
Definition review_step (gw : Gateways) (business : Business) (place_id : string) (now : Z)
  (w : World) (review : Review) : World :=
  let review_id := app_review_id place_id review in
  if seen review_id w then w
  else
    let reviewer := get_default (rv_author_name review) "Someone" in
    let rating := match rv_rating review with Some r => r | None => 0 end in
    let text := get_default (rv_text review) "" in
    let reply_draft := draft_review_reply gw (biz_name business) reviewer rating text in
    let w1 := insert_seen_review
      (fun id => {| sr_id := id; sr_review_id := review_id; sr_business_id := biz_id business;
                    sr_reviewer_name := reviewer; sr_rating := rating;
                    sr_review_text := text; sr_reply_draft := Some reply_draft;
                    sr_replied := false |}) w in
    let urgent := if rating <=? 3 then "🚨 *URGENT*" ++ nl ++ nl
                  else "⭐ *New Review*" ++ nl ++ nl in
    let w2 := send_whatsapp (biz_owner_phone business)
      (urgent ++ "*" ++ reviewer ++ "* " ++ stars rating ++ nl ++ dq ++ take 300 text ++ dq
       ++ nl ++ nl ++ "*Suggested reply:*" ++ nl ++ dq ++ reply_draft ++ dq ++ nl ++ nl
       ++ "Reply *YES* to approve.") w1 in
    insert_pending_action
      (fun id => {| pa_id := id; pa_business_id := biz_id business;
                    pa_owner_phone := biz_owner_phone business;
                    pa_action_type := "review_reply"; pa_item_name := None;
                    pa_item_data := None; pa_review_id := Some review_id;
                    pa_draft_reply := Some reply_draft; pa_status := "pending";
                    pa_created_at := now |}) w2.

(** [business.get("place_id") or business.get("google_place_id")] *)
Definition business_place_id (b : Business) : option string :=
  py_or_str (biz_place_id b) (biz_google_place_id b).

(** One iteration of the outer loop of [check_reviews_for_all_businesses]. *)
Definition check_business_reviews (gw : Gateways) (now : Z) (w : World) (b : Business)
  : World :=
  match business_place_id b with
  | Some place_id =>
      if String.eqb place_id "" then w
      else match gw_get_reviews gw place_id with
           | None => w
           | Some place_data => fold_left (review_step gw b place_id now) (pd_reviews place_data) w
           end
  | None => w
  end.

(** [check_reviews_for_all_businesses()] *)
Definition check_reviews_for_all_businesses (gw : Gateways) (now : Z) (w : World) : World :=
  fold_left (check_business_reviews gw now) (businesses w) w.

(** ** The webhook *)

Definition show_opt_float (o : option Q) : string :=
  match o with Some q => repr_float q | None => "None" end.

Definition review_line (r : Review) : string :=
  "*" ++ show_opt (rv_author_name r) ++ "* "
  ++ stars (match rv_rating r with Some n => n | None => 0 end) ++ nl
  ++ dq ++ take 100 (get_default (rv_text r) "") ++ dq ++ nl ++ nl.

(** The manual [check reviews] branch. *)
Definition check_reviews_reply (gw : Gateways) (b : Business) : string :=
  let place_id := business_place_id b in
  let place_data := if truthy_str place_id then gw_get_reviews gw (get_default place_id "")
                    else None in
  match place_data with
  | Some pd =>
      "⭐ " ++ show_opt_float (pd_rating pd) ++ "/5 ("
      ++ show_opt_Z (pd_user_ratings_total pd) ++ " total)" ++ nl ++ nl
      ++ String.concat "" (map review_line (firstn 5 (pd_reviews pd)))
  | None => "Google Reviews not connected (set place_id on your business)."
  end.

Definition in_strings (s : string) (l : list string) : bool :=
  existsb (String.eqb s) l.

(** The command branches of [webhook]; [None] is [reply = None]. *)
Definition route (gw : Gateways) (b : Business) (incoming_msg msg_lower : string) (now : Z)
  (w : World) : option string * World :=
  if startswith msg_lower "order " then
    let '(r, w1) := handle_order_command b (py_strip (drop 6 incoming_msg)) now w in
    (Some r, w1)
  else if in_strings msg_lower ["send order"; "yes send"; "send it"] then
    let '(r, w1) := handle_send_order b w in (Some r, w1)
  else if existsb (fun x => py_in x msg_lower)
                  ["check stock"; "stock levels"; "my stock"; "show stock"] then
    (Some (handle_check_stock b w), w)
  else if String.eqb msg_lower "sync stock" then
    let rows := gw_read_stock_sheet gw b in
    let w1 := sync_stock_to_supabase b rows now w in
    (Some (match rows with
           | [] => "Couldn't read sheet. Add sheets_url to your business or set SHEET_URL."
           | _ => "✅ Synced " ++ show_Z (Z.of_nat (length rows)) ++ " items from your Google Sheet."
           end), w1)
  else if existsb (fun x => py_in x msg_lower) ["check reviews"; "my reviews"] then
    (Some (check_reviews_reply gw b), w)
  else if in_strings msg_lower ["yes"; "approve"; "post it"] then
    match pending_of b "review_reply" w with
    | action :: _ =>
        (Some ("✅ Reply saved:" ++ nl ++ dq ++ show_opt (pa_draft_reply action) ++ dq
               ++ nl ++ nl ++ "Paste this into Google Reviews."),
         set_status (pa_id action) "completed" w)
    | [] => (None, w)
    end
  else (None, w).

(** The free-form chat fallback ([reply is None]). *)
Definition chat_system (b : Business) : string :=
  "You are Wavy AI for " ++ biz_name b ++ "." ++ nl
  ++ "Commands: " ++ dq ++ "check stock" ++ dq ++ ", " ++ dq ++ "sync stock" ++ dq ++ ", "
  ++ dq ++ "order [item]" ++ dq ++ ", " ++ dq ++ "send order" ++ dq ++ ", "
  ++ dq ++ "check reviews" ++ dq ++ nl
  ++ "Be concise, under 150 words.".

Definition chat_reply (gw : Gateways) (b : Business) (incoming_msg : string) : string :=
  match gw_llm gw (Chat (chat_system b) incoming_msg) with
  | LlmOk t => t
  | LlmError e => "Sorry, I couldn't reach the AI: " ++ e
  end.

(** The TwiML [MessagingResponse]: the bodies of its [<Message>] elements. *)
Definition Envelope := list string.

(** [webhook()] on the form fields [Body] and [From]. *)
Definition webhook (gw : Gateways) (body sender : string) (now : Z) (w : World)
  : Envelope * World :=
  let incoming_msg := py_strip body in
  let msg_lower := py_lower incoming_msg in
  match get_business sender w with
  | None => (["Welcome to Wavy AI! You're not registered yet."], w)
  | Some business =>
      let '(reply, w1) := route gw business incoming_msg msg_lower now w in
      let reply' := match reply with
                    | Some r => r
                    | None => chat_reply gw business incoming_msg
                    end in
      ([reply'], w1)
  end.

End App.

(** ** [review_monitor.py] *)

Module ReviewMonitor.

(** The [text] field: a string (legacy API) or an object [{"text": ...}]
    (Places API New). *)
Inductive RawText :=
| TextStr (s : option string)
| TextDict (t : option string).

(** A review in either API shape. *)
Record MReview := {
  mr_author_display_name : option string;  (* authorAttribution.displayName *)
  mr_author_name : option string;
  mr_rating : option Z;
  mr_text : RawText;
}.

(** [resolve_to_chij_place_id(place_id, business_name)] and
    [get_place_reviews(place_id)], which returns [(reviews, err)]. *)
Record MonitorGateways := {
  mg_resolve : string -> string -> string;
  mg_get_place_reviews : string -> option (list MReview) * option string;
}.

Section Monitor.

(** [TWILIO_ACCOUNT_SID], [TWILIO_AUTH_TOKEN] and [TWILIO_WHATSAPP_FROM] are set. *)
Variable monitor_twilio : bool.

Definition review_author (rev : MReview) : string :=
  get_default (py_or_str (mr_author_display_name rev)
                         (py_or_str (mr_author_name rev) (Some "Someone"))) "Someone".

Definition review_text (rev : MReview) : string :=
  match mr_text rev with
  | TextDict t => get_default t ""
  | TextStr s => get_default s ""
  end.

(** [f"{resolved_id}|{author}|{text[:50]}"] *)
Definition monitor_review_id (resolved_id : string) (rev : MReview) : string :=
  resolved_id ++ "|" ++ review_author rev ++ "|" ++ take 50 (review_text rev).

(** One iteration of [for rev in reviews]. *)
Definition monitor_step (biz : Business) (resolved_id : string) (is_backfill : bool)
  (w : World) (rev : MReview) : World :=
  let author := review_author rev in
  let rating := match mr_rating rev with Some r => r | None => 0 end in
  let text := review_text rev in
  let review_id := monitor_review_id resolved_id rev in
  if seen review_id w then w
  else
    let w1 := insert_seen_review
      (fun id => {| sr_id := id; sr_review_id := review_id; sr_business_id := biz_id biz;
                    sr_reviewer_name := author; sr_rating := rating;
                    sr_review_text := text; sr_reply_draft := None;
                    sr_replied := false |}) w in
    if is_backfill then w1
    else
      let to_phone := biz_owner_phone biz in
      let to_phone := if negb (String.eqb to_phone "") && negb (startswith to_phone "whatsapp:")
                      then "whatsapp:" ++ to_phone else to_phone in
      if monitor_twilio && negb (String.eqb to_phone "") then
        let urgent := if negb (rating =? 0) && (rating <=? 3) then "⚠️ Low rating – " else "" in
        let body := urgent ++ "New review for " ++ biz_name biz ++ nl ++ nl ++ author ++ " – "
                    ++ show_Z rating ++ " stars" ++ nl ++ take 300 text in
        set_outbox w1 (outbox w1 ++ [(to_phone, body)])
      else w1.

(** One iteration of [for biz in businesses.data]. *)
Definition monitor_business (mg : MonitorGateways) (w : World) (biz : Business) : World :=
  match biz_place_id biz with
  | None => w
  | Some place_id =>
      if String.eqb place_id "" then w
      else
        let resolved_id := mg_resolve mg place_id (biz_name biz) in
        let '(reviews, err) := mg_get_place_reviews mg resolved_id in
        if truthy_str err then w
        else match reviews with
             | None | Some [] => w
             | Some revs =>
                 let is_backfill :=
                   negb (existsb (fun s => sr_business_id s =? biz_id biz) (seen_reviews w)) in
                 fold_left (monitor_step biz resolved_id is_backfill) revs w
             end
  end.

(** [run_review_check()] *)
Definition run_review_check (mg : MonitorGateways) (w : World) : World :=
  let bs := filter (fun b => match biz_place_id b with Some _ => true | None => false end)
                   (businesses w) in
  fold_left (monitor_business mg) bs w.

End Monitor.

End ReviewMonitor.

(** ** The Sheets reader and the weekly summary of [app.py] *)

(** [s.index(pat)]: the position of the first occurrence ([None] raises). *)
Fixpoint str_index (pat s : string) : option nat :=
  if String.prefix pat s then Some O
  else match s with
       | EmptyString => None
       | String _ s' => option_map S (str_index pat s')
       end.

(** [s.split(sep)[0]] for a one-character separator. *)
Fixpoint split_first (sep : ascii) (s : string) : string :=
  match s with
  | EmptyString => EmptyString
  | String c s' => if Ascii.eqb c sep then EmptyString else String c (split_first sep s')
  end.

(** [_sheet_id_from_url(url)].  Both [index] calls are guarded by an [in]
    test, so the [except] branch is not reached. *)
Definition sheet_id_from_url (url : string) : option string :=
  if String.eqb url "" || negb (py_in "/d/" url) then None
  else match str_index "/d/" url with
       | None => None
       | Some i =>
           let start := (i + 3)%nat in
           let end_ := if py_in "/" (drop start url)
                       then match str_index "/" (drop start url) with
                            | Some j => (start + j)%nat
                            | None => String.length url
                            end
                       else String.length url in
           Some (py_strip (split_first "?"%char (substring start (end_ - start) url)))
       end.

(** [d[k] = v] on a dict kept as an association list in insertion order. *)
Definition dict_set (d : Row) (k v : string) : Row :=
  if existsb (fun kv => String.eqb (fst kv) k) d
  then map (fun kv => if String.eqb (fst kv) k then (k, v) else kv) d
  else (d ++ [(k, v)])%list.

(** [dict(pairs)] *)
Definition py_dict (pairs : list (string * string)) : Row :=
  fold_left (fun d kv => dict_set d (fst kv) (snd kv)) pairs [].

(** The records that [read_stock_sheet] builds from the [values] of the
    Sheets API answer: the first line holds the headers, every later line
    is padded with empty cells (or cut) to the headers' length. *)
Definition sheet_records (values : list (list string)) : list Row :=
  if (length values <? 2)%nat then []
  else
    let headers_row := map py_strip (hd [] values) in
    map (fun row =>
           let row := (row ++ repeat "" (length headers_row - length row))%list in
           py_dict (combine headers_row (firstn (length headers_row) row)))
        (tl values).

(** [read_stock_sheet(business)].  [sheets_url] is [business.get("sheets_url")];
    [creds] says that [get_google_creds()] returned credentials and
    [google.auth] is installed; [fetch sid] is [Some values] when the
    credentials refresh and the values request answer 200 (with
    [data.get("values") or []]), and [None] when the status differs or an
    exception is raised on the way. *)
Definition read_stock_sheet (sheets_url : option string) (default_sheet_url : string)
  (creds : bool) (fetch : string -> option (list (list string))) : list Row :=
  let sheet_url := get_default (py_or_str sheets_url (Some default_sheet_url)) "" in
  match sheet_id_from_url sheet_url with
  | None => []
  | Some sid =>
      if String.eqb sid "" then []
      else if negb creds then []
      else match fetch sid with
           | None => []
           | Some values => sheet_records values
           end
  end.

(** [monday_stock_summary()]: the stock report of each business to its owner. *)
Definition monday_stock_summary (repr_float : Q -> string) (twilio_ready : bool) (w : World)
  : World :=
  fold_left (fun w b => send_whatsapp twilio_ready (biz_owner_phone b)
                          (handle_check_stock repr_float b w) w)
            (businesses w) w.

(** ** The Google Places calls of [review_monitor.py] *)

Module MonitorFetch.

Import ReviewMonitor.

(** [s.replace(old, new)] for a non-empty [old]. *)
Fixpoint py_replace_go (fuel : nat) (old new s : string) : string :=
  match fuel with
  | O => s
  | S fuel' =>
      match s with
      | EmptyString => EmptyString
      | String c s' =>
          if String.prefix old s
          then new ++ py_replace_go fuel' old new
                        (substring (String.length old) (String.length s) s)
          else String c (py_replace_go fuel' old new s')
      end
  end.

Definition py_replace (old new s : string) : string :=
  py_replace_go (S (String.length s)) old new s.

(** [s.replace(old, new, 1)] *)
Definition py_replace1 (old new s : string) : string :=
  match str_index old s with
  | Some i => take i s ++ new ++ drop (i + String.length old) s
  | None => s
  end.

(** The answer of the Places [searchText] request: a status other than 200,
    the ids of [data.get("places") or []] ([places[i].get("id")]), or an
    exception. *)
Inductive SearchResp :=
| SearchHttpError (code : Z)
| SearchOk (place_ids : list (option string))
| SearchExc.

(** [resolve_to_chij_place_id(place_id, business_name)]; [api_key] is
    [GOOGLE_PLACES_API_KEY]. *)
Definition resolve_to_chij_place_id (api_key : string) (search : string -> SearchResp)
  (place_id business_name : string) : string :=
  if startswith place_id "ChIJ" then place_id
  else if String.eqb api_key "" || String.eqb business_name "" then place_id
  else match search business_name with
       | SearchHttpError _ | SearchExc => place_id
       | SearchOk [] => place_id
       | SearchOk (p :: _) =>
           let raw_id := py_strip (get_default p "") in
           if startswith raw_id "places/" then py_replace1 "places/" "" raw_id
           else if String.eqb raw_id "" then place_id else raw_id
       end.

(** A result that is a value or a raised exception with its message. *)
Inductive PyResult (A : Type) :=
| PyOk (a : A)
| PyExc (msg : string).
Arguments PyOk {A} a.
Arguments PyExc {A} msg.

(** The answer of the Places API (New) details request: status 200 with the
    message of [data["error"]] when present and [data.get("reviews")]; another
    status with the error message or body prefix; or an exception. *)
Inductive NewApiResp :=
| NewApiOk (error_msg : option string) (reviews : option (list MReview))
| NewApiHttp (code : Z) (msg : string)
| NewApiExc (msg : string).

(** [_fetch_reviews_new_api(place_id, key)]; [new_api] receives the
    encoded place id of the URL path. *)
Definition fetch_reviews_new_api (new_api : string -> NewApiResp) (place_id : string)
  : PyResult (option (list MReview) * option string) :=
  match new_api (py_replace ":" "%3A" place_id) with
  | NewApiOk (Some msg) _ => PyOk (None, Some ("New API error: " ++ msg))
  | NewApiOk None reviews =>
      PyOk (Some (match reviews with Some l => l | None => [] end), None)
  | NewApiHttp code msg =>
      PyOk (None, Some ("HTTP " ++ show_Z code
                        ++ (if String.eqb msg "" then "" else " – " ++ msg)))
  | NewApiExc m => PyExc m
  end.

(** The answer of the legacy Place Details request: the status code with,
    for the parsed JSON, [j.get("status")] and [j["result"].get("reviews")]
    when ["result"] is in [j]; or an exception. *)
Inductive LegacyResp :=
| LegacyHttp (code : Z) (status : option string) (result : option (option (list MReview)))
| LegacyExc (msg : string).

(** [get_place_reviews(place_id)]: [(reviews, err)]. *)
Definition get_place_reviews (api_key : string) (legacy : string -> LegacyResp)
  (new_api : string -> NewApiResp) (place_id : string)
  : option (list MReview) * option string :=
  if String.eqb api_key "" then (None, Some "No GOOGLE_PLACES_API_KEY")
  else
    let is_hex := py_in "0x" place_id && py_in ":" place_id in
    let fallback (otherwise : option (list MReview) * option string) :=
      match fetch_reviews_new_api new_api place_id with
      | PyExc m => (None, Some m)
      | PyOk (reviews, None) => (reviews, None)
      | PyOk (_, Some _) => otherwise
      end in
    match legacy place_id with
    | LegacyExc m => (None, Some m)
    | LegacyHttp code status result =>
        if code =? 200 then
          match opt_str_eqb status (Some "OK"), result with
          | true, Some reviews => (Some (match reviews with Some l => l | None => [] end), None)
          | _, _ =>
              let st := get_default status "unknown" in
              if is_hex && (String.eqb st "INVALID_REQUEST" || String.eqb st "ZERO_RESULTS")
              then fallback (Some [], Some st)
              else (Some [], Some st)
          end
        else if is_hex then fallback (None, Some ("HTTP " ++ show_Z code))
        else (None, Some ("HTTP " ++ show_Z code))
    end.

(** The gateways of [run_review_check] built from these functions. *)
Definition places_gateways (api_key : string) (search : string -> SearchResp)
  (legacy : string -> LegacyResp) (new_api : string -> NewApiResp) : MonitorGateways :=
  {| mg_resolve := resolve_to_chij_place_id api_key search;
     mg_get_place_reviews := get_place_reviews api_key legacy new_api |}.

End MonitorFetch.

(** ** Twilio failures

    [twilio_client.messages.create] raises when Twilio refuses a message,
    for example when the [To] address is not a valid WhatsApp number.
    [twilio_error to body] is [Some e] when that call for the address [to]
    and the body [body] raises with the message [e], and [None] when
    Twilio accepts the message.  [Raises A] is the outcome of a Python call
    that returns an [A] or raises; both carry the tables at that point,
    since the Supabase writes done before a raise are kept. *)
Inductive Raises (A : Type) : Type :=
| Ret (a : A) (w : World)
| Exc (e : string) (w : World).

Arguments Ret {A} a w.
Arguments Exc {A} e w.

(** The tables after a call, whether it returned or raised: a [try] whose
    [except] only prints. *)
Definition final_world {A : Type} (r : Raises A) : World :=
  match r with Ret _ w => w | Exc _ w => w end.

(** A [for] loop whose body may raise: the first raise leaves the loop. *)
Fixpoint fold_raises {B : Type} (f : World -> B -> Raises unit) (l : list B) (w : World)
  : Raises unit :=
  match l with
  | [] => Ret tt w
  | x :: l' =>
      match f w x with
      | Ret _ w1 => fold_raises f l' w1
      | Exc e w1 => Exc e w1
      end
  end.

(** The HTTP answer of a Flask view: [200] with the TwiML envelope, or the
    [500 Internal Server Error] of an exception the view does not catch. *)
Inductive Http :=
| Http200 (env : Envelope)
| Http500.

Section Fallible.

Variable repr_float : Q -> string.
Variable py_float : string -> option Q.
Variable twilio_ready : bool.
Variable twilio_error : string -> string -> option string.

(** [send_whatsapp(to, message)]; the call of line 46 raises when Twilio
    refuses the message. *)
Definition send_whatsapp_r (to message : string) (w : World) : Raises unit :=
  if negb twilio_ready then Ret tt w
  else
    let to' := if startswith to "whatsapp:" then to else "whatsapp:" ++ to in
    match twilio_error to' message with
    | Some e => Exc e w
    | None => Ret tt (set_outbox w (outbox w ++ [(to', message)]))
    end.

(** [handle_send_order(business)]: a raise of the send at line 327 leaves
    the function before the status update of line 328. *)
Definition handle_send_order_r (business : Business) (w : World) : Raises string :=
  match pending_of business "purchase_order" w with
  | [] => Ret "No pending purchase orders found." w
  | action :: _ =>
      let supplier_wa := item_supplier_whatsapp (pa_item_data action) in
      let sname := show_opt (item_supplier_name (pa_item_data action)) in
      if String.eqb supplier_wa "" then
        Ret ("No WhatsApp number for " ++ sname ++ ". Add it to your Google Sheet.") w
      else
        let supplier_wa' := if startswith supplier_wa "whatsapp:" then supplier_wa
                            else "whatsapp:" ++ supplier_wa in
        match send_whatsapp_r supplier_wa' (get_default (pa_draft_reply action) "") w with
        | Exc e w1 => Exc e w1
        | Ret _ w1 => Ret ("✅ Order sent to " ++ sname ++ "!")
                          (set_status (pa_id action) "completed" w1)
        end
  end.

(** The command branches of [webhook].  Of them only [send order] calls
    Twilio; the others are those of [route], which call no Twilio. *)
Definition route_r (gw : Gateways) (b : Business) (incoming_msg msg_lower : string)
  (now : Z) (w : World) : Raises (option string) :=
  if negb (startswith msg_lower "order ")
     && in_strings msg_lower ["send order"; "yes send"; "send it"] then
    match handle_send_order_r b w with
    | Ret r w1 => Ret (Some r) w1
    | Exc e w1 => Exc e w1
    end
  else
    let '(r, w1) := route repr_float py_float twilio_ready gw b incoming_msg msg_lower now w in
    Ret r w1.

(** [webhook()]: nothing in the view catches an exception of a command
    handler, so Flask answers it with a [500]. *)
Definition webhook_r (gw : Gateways) (body sender : string) (now : Z) (w : World)
  : Http * World :=
  let incoming_msg := py_strip body in
  let msg_lower := py_lower incoming_msg in
  match get_business sender w with
  | None => (Http200 ["Welcome to Wavy AI! You're not registered yet."], w)
  | Some business =>
      match route_r gw business incoming_msg msg_lower now w with
      | Exc _ w1 => (Http500, w1)
      | Ret reply w1 =>
          let reply' := match reply with
                        | Some r => r
                        | None => chat_reply gw business incoming_msg
                        end in
          (Http200 [reply'], w1)
      end
  end.

(** [monday_stock_summary()]: the [try] of lines 426-430 catches a raise
    of one business's send, and the loop goes on with the next business. *)
Definition monday_stock_summary_r (w : World) : World :=
  fold_left (fun w b => final_world (send_whatsapp_r (biz_owner_phone b)
                                       (handle_check_stock repr_float b w) w))
            (businesses w) w.

(** One iteration of the inner loop of [check_reviews_for_all_businesses]:
    the seen review is stored (line 398) before the send (line 408), the
    action after it (line 412). *)
Definition review_step_r (gw : Gateways) (business : Business) (place_id : string) (now : Z)
  (w : World) (review : Review) : Raises unit :=
  let review_id := app_review_id place_id review in
  if seen review_id w then Ret tt w
  else
    let reviewer := get_default (rv_author_name review) "Someone" in
    let rating := match rv_rating review with Some r => r | None => 0 end in
    let text := get_default (rv_text review) "" in
    let reply_draft := draft_review_reply gw (biz_name business) reviewer rating text in
    let w1 := insert_seen_review
      (fun id => {| sr_id := id; sr_review_id := review_id; sr_business_id := biz_id business;
                    sr_reviewer_name := reviewer; sr_rating := rating;
                    sr_review_text := text; sr_reply_draft := Some reply_draft;
                    sr_replied := false |}) w in
    let urgent := if rating <=? 3 then "🚨 *URGENT*" ++ nl ++ nl
                  else "⭐ *New Review*" ++ nl ++ nl in
    match send_whatsapp_r (biz_owner_phone business)
      (urgent ++ "*" ++ reviewer ++ "* " ++ stars rating ++ nl ++ dq ++ take 300 text ++ dq
       ++ nl ++ nl ++ "*Suggested reply:*" ++ nl ++ dq ++ reply_draft ++ dq ++ nl ++ nl
       ++ "Reply *YES* to approve.") w1 with
    | Exc e w2 => Exc e w2
    | Ret _ w2 =>
        Ret tt (insert_pending_action
          (fun id => {| pa_id := id; pa_business_id := biz_id business;
                        pa_owner_phone := biz_owner_phone business;
                        pa_action_type := "review_reply"; pa_item_name := None;
                        pa_item_data := None; pa_review_id := Some review_id;
                        pa_draft_reply := Some reply_draft; pa_status := "pending";
                        pa_created_at := now |}) w2)
    end.

(** One iteration of the outer loop of [check_reviews_for_all_businesses]. *)
Definition check_business_reviews_r (gw : Gateways) (now : Z) (w : World) (b : Business)
  : Raises unit :=
  match business_place_id b with
  | Some place_id =>
      if String.eqb place_id "" then Ret tt w
      else match gw_get_reviews gw place_id with
           | None => Ret tt w
           | Some place_data =>
               fold_raises (review_step_r gw b place_id now) (pd_reviews place_data) w
           end
  | None => Ret tt w
  end.

(** [check_reviews_for_all_businesses()]: no [try] in it, so a raise ends
    the whole run. *)
Definition check_reviews_for_all_businesses_r (gw : Gateways) (now : Z) (w : World)
  : Raises unit :=
  fold_raises (check_business_reviews_r gw now) (businesses w) w.

(** One iteration of the loop of [send_stock_alerts]: the send (line 242)
    comes before the insert of the action (line 243). *)
Definition send_stock_alert_r (business : Business) (now : Z) (w : World) (item : Alert)
  : Raises unit :=
  let recent := recent_stock_alerts business now w in
  if existsb (fun r => opt_str_eqb (pa_item_name r) (Some (al_name item))) recent then Ret tt w
  else
    match send_whatsapp_r (biz_owner_phone business) (stock_alert_msg repr_float item) w with
    | Exc e w1 => Exc e w1
    | Ret _ w1 =>
        Ret tt (insert_pending_action
          (fun id => {| pa_id := id; pa_business_id := biz_id business;
                        pa_owner_phone := biz_owner_phone business;
                        pa_action_type := "stock_alert"; pa_item_name := Some (al_name item);
                        pa_item_data := Some (ItemAlert item); pa_review_id := None;
                        pa_draft_reply := None; pa_status := "pending";
                        pa_created_at := now |}) w1)
    end.

(** [send_stock_alerts(business, alerts)] *)
Definition send_stock_alerts_r (business : Business) (alerts : list Alert) (now : Z)
  (w : World) : Raises unit :=
  fold_raises (send_stock_alert_r business now) alerts w.

(** The body of the [try] in the loop of [run_stock_monitor]. *)
Definition reconcile_business_r (gw : Gateways) (now : Z) (w : World) (b : Business)
  : Raises unit :=
  let rows := gw_read_stock_sheet gw b in
  match rows with
  | [] => Ret tt w
  | _ =>
      let w1 := sync_stock_to_supabase py_float b rows now w in
      let alerts := check_stock_levels py_float b rows now w1 in
      match alerts with
      | [] => Ret tt w1
      | _ => send_stock_alerts_r b alerts now w1
      end
  end.

(** [run_stock_monitor()]: the [except] of line 265 catches a raise of one
    business and the loop goes on. *)
Definition run_stock_monitor_r (gw : Gateways) (now : Z) (w : World) : World :=
  fold_left (fun w b => final_world (reconcile_business_r gw now w b)) (businesses w) w.

End Fallible.

(** ** Binary64 arithmetic

    The numbers of [predict_stockout] are Python floats.  A finite float is
    kept as the rational it denotes ([-0.0] is identified with [0.0]);
    every operation rounds its exact result to the nearest double, ties to
    even, with subnormals below [2^-1022] and overflow to infinity. *)
Inductive PyFloat :=
| Fin (q : Q)
| Inf (positive : bool)
| NaN.

(** [2^k] for an integer [k]. *)
Definition pow2 (k : Z) : Q :=
  if 0 <=? k then inject_Z (2 ^ k) else (1 # Z.to_pos (2 ^ (- k)))%Q.

(** [floor(log2 x)] for [x > 0]. *)
Definition qlog2 (x : Q) : Z :=
  let k := Z.log2 (Qnum x) - Z.log2 (Zpos (Qden x)) in
  if Qle_bool (pow2 k) x then k else k - 1.

(** The double nearest to [x]: the significand has 53 bits, the least
    exponent of its last bit is -1074, and a value of [2^1024] or more
    after rounding is an infinity. *)
Definition round_binary64 (x : Q) : PyFloat :=
  if Qeq_bool x 0 then Fin 0
  else
    let ax := Qabs x in
    let e := Z.max (qlog2 ax - 52) (-1074) in
    let r := (inject_Z (round_half_even (ax / pow2 e)) * pow2 e)%Q in
    if Qle_bool (pow2 1024) r then Inf (Qle_bool 0 x)
    else Fin (if Qle_bool 0 x then r else - r)%Q.

(** [abs(x)] *)
Definition f_abs (x : PyFloat) : PyFloat :=
  match x with
  | Fin q => Fin (Qabs q)
  | Inf _ => Inf true
  | NaN => NaN
  end.

(** [x + y] *)
Definition f_add (x y : PyFloat) : PyFloat :=
  match x, y with
  | Fin a, Fin b => round_binary64 (a + b)
  | Inf s, Inf t => if Bool.eqb s t then Inf s else NaN
  | Inf s, Fin _ | Fin _, Inf s => Inf s
  | _, _ => NaN
  end.

(** [x / y]; [None] is the [ZeroDivisionError] Python raises for a zero
    divisor. *)
Definition f_div (x y : PyFloat) : option PyFloat :=
  match y with
  | Fin b =>
      if Qeq_bool b 0 then None
      else match x with
           | Fin a => Some (round_binary64 (a / b))
           | Inf s => Some (Inf (Bool.eqb s (Qle_bool 0 b)))
           | NaN => Some NaN
           end
  | Inf _ =>
      match x with
      | Fin _ => Some (Fin 0)
      | _ => Some NaN
      end
  | NaN => Some NaN
  end.

(** [x > 0] *)
Definition f_gt0 (x : PyFloat) : bool :=
  match x with
  | Fin q => negb (Qle_bool q 0)
  | Inf s => s
  | NaN => false
  end.

(** [round(x, 1)]: the exact value of [x] rounded half to even at one
    decimal, then converted to the nearest double; infinities and NaN are
    returned as they are. *)
Definition py_round1 (x : PyFloat) : PyFloat :=
  match x with
  | Fin q => round_binary64 (inject_Z (round_half_even (q * 10)) / 10)
  | _ => x
  end.

(** [predict_stockout(business_id, item_name, current_qty)] in float
    arithmetic.  The quantities stored in the model are the values of the
    doubles Supabase returns; [sum] starts from the integer [0], and
    [0 + x] is [x].  A [ZeroDivisionError] is caught by the [except] and
    gives [None]. *)
Definition predict_stockout_f (w : World) (business_id : Z) (item_name : string)
  (current_qty : Q) (now : Z) : option PyFloat :=
  match window_movements w business_id item_name now with
  | [] => None
  | ms =>
      let total_used :=
        fold_left (fun acc m => f_add acc (f_abs (Fin (mv_quantity_change m)))) ms (Fin 0) in
      match f_div total_used (Fin 7) with
      | None => None
      | Some daily_usage =>
          if f_gt0 daily_usage then
            match f_div (Fin current_qty) daily_usage with
            | Some x => Some (py_round1 x)
            | None => None
            end
          else None
      end
  end.

(** ** Observations used by the statements *)

(** Number of stock_alert actions of business [bid] for item [x]. *)
Definition stock_alert_count (bid : Z) (x : string) (w : World) : nat :=
  length (filter (fun pa => (pa_business_id pa =? bid)
                            && String.eqb (pa_action_type pa) "stock_alert"
                            && opt_str_eqb (pa_item_name pa) (Some x))
                 (pending_actions w)).

(** Number of SeenReview rows with the given review_id. *)
Definition seen_count (rid : string) (w : World) : nat :=
  length (filter (fun s => String.eqb (sr_review_id s) rid) (seen_reviews w)).

(** The first stock_items row of a business with a given name
    ([existing.data[0]]). *)
Definition first_item (bid : Z) (name : string) (w : World) : option StockItem :=
  hd_error (filter (fun it => (si_business_id it =? bid) && String.eqb (si_name it) name)
                   (stock_items w)).

(** Stock item ids are distinct and below the id counter. *)
Definition stock_ids_ok (w : World) : Prop :=
  NoDup (map si_id (stock_items w)) /\ Forall (fun it => si_id it < next_id w) (stock_items w).

(** Names and quantities of the rows that [sync_stock_to_supabase] does
    not skip. *)
Definition parsed_entries (py_float : string -> option Q) (rows : list Row)
  : list (string * Q) :=
  flat_map (fun r => match parse_row py_float r with
                     | Some (name, qty, _, _) => [(name, qty)]
                     | None => []
                     end) rows.

(** The first stock_items row for [name] holds quantity [qty]. *)
Definition agrees (bid : Z) (name : string) (qty : Q) (w : World) : Prop :=
  exists e, first_item bid name w = Some e /\ (si_current_quantity e == qty)%Q.

(** The days-to-stockout estimate in the words of the spec: the negative
    movements of the item recorded in the trailing seven days, their
    total consumption (the negated changes), the daily rate (total / 7),
    and the quantity over that rate rounded to one decimal. *)
Definition spec_days_to_stockout (w : World) (bid : Z) (name : string) (qty : Q) (now : Z)
  : option Q :=
  let recent_negative :=
    filter (fun m => (mv_business_id m =? bid) && String.eqb (mv_item_name m) name
                     && (if Qlt_le_dec (mv_quantity_change m) 0 then true else false)
                     && (now - 604800 <=? mv_recorded_at m))
           (stock_movements w) in
  match recent_negative with
  | [] => None
  | _ =>
      let used := fold_right (fun m acc => (- mv_quantity_change m) + acc)%Q 0%Q recent_negative in
      Some (round1 (qty / (used / 7)))
  end.

(** The days-to-stockout estimate in the words of the amended claim C5:
    the negative movements of the item recorded in the trailing seven
    days; their consumption (the negated changes) added up in that order
    in float arithmetic; the daily rate, that total over 7 in float; when
    the rate is positive, the quantity over the rate in float, given to
    Python's [round(_, 1)]. *)
Definition spec_days_to_stockout_f (w : World) (bid : Z) (name : string) (qty : Q) (now : Z)
  : option PyFloat :=
  let recent_negative :=
    filter (fun m => (mv_business_id m =? bid) && String.eqb (mv_item_name m) name
                     && (if Qlt_le_dec (mv_quantity_change m) 0 then true else false)
                     && (now - 604800 <=? mv_recorded_at m))
           (stock_movements w) in
  match recent_negative with
  | [] => None
  | _ =>
      let used := fold_left (fun acc m => f_add acc (Fin (- mv_quantity_change m)))
                            recent_negative (Fin 0) in
      match f_div used (Fin 7) with
      | Some rate =>
          if f_gt0 rate then option_map py_round1 (f_div (Fin qty) rate) else None
      | None => None
      end
  end.

(** Some stock_alert action of business [bid] for item [x] has
    [created_at >= since]. *)
Definition has_alert_since (bid : Z) (x : string) (since : Z) (w : World) : bool :=
  existsb (fun pa => (pa_business_id pa =? bid)
                     && String.eqb (pa_action_type pa) "stock_alert"
                     && opt_str_eqb (pa_item_name pa) (Some x)
                     && (since <=? pa_created_at pa))
          (pending_actions w).

(** Concrete host functions for evaluating examples: [str] of a float as a
    fraction, and [float] of a string of decimal digits. *)
Definition repr_demo (q : Q) : string := show_Z (Qnum q) ++ "/" ++ show_Z (Zpos (Qden q)).

Fixpoint digits_value (s : string) (acc : Z) : option Z :=
  match s with
  | EmptyString => Some acc
  | String c s' =>
      let n := Z.of_nat (nat_of_ascii c) in
      if (48 <=? n) && (n <=? 57) then digits_value s' (acc * 10 + (n - 48)) else None
  end.

Definition float_demo (s : string) : option Q :=
  if String.eqb s "" then None
  else match digits_value s 0 with Some z => Some (inject_Z z) | None => None end.

Definition demo_business : Business :=
  {| biz_id := 1; biz_name := "Garage"; biz_owner_phone := "+971500000000";
     biz_place_id := Some "P"; biz_google_place_id := None |}.

Definition empty_world (bs : list Business) : World :=
  {| businesses := bs; stock_items := []; stock_movements := []; pending_actions := [];
     seen_reviews := []; next_id := 1; outbox := [] |}.

Definition demo_gateways : Gateways :=
  {| gw_read_stock_sheet := fun _ => []; gw_get_reviews := fun _ => None;
     gw_llm := fun _ => LlmError "timeout" |}.

Definition demo_item : StockItem :=
  {| si_id := 2; si_business_id := 1; si_name := "Oil Filters"; si_current_quantity := 3;
     si_unit := "pcs"; si_reorder_threshold := 5; si_reorder_quantity := 10;
     si_supplier_name := "Ali"; si_supplier_whatsapp := "+971501112222";
     si_last_updated := 0 |}.

Definition demo_po : PendingAction :=
  {| pa_id := 3; pa_business_id := 1; pa_owner_phone := "+971500000000";
     pa_action_type := "purchase_order"; pa_item_name := Some "Oil Filters";
     pa_item_data := Some (ItemRow demo_item); pa_review_id := None;
     pa_draft_reply := Some "Hi Ali"; pa_status := "pending"; pa_created_at := 0 |}.

Definition order_world : World :=
  {| businesses := [demo_business]; stock_items := [demo_item]; stock_movements := [];
     pending_actions := [demo_po]; seen_reviews := []; next_id := 4; outbox := [] |}.

Definition demo_row (qty : string) : Row :=
  [("Item Name", "Oil Filters"); ("Current Quantity", qty); ("Reorder Threshold", "5");
   ("Reorder Quantity", "10"); ("Unit", "pcs"); ("Supplier Name", "Ali");
   ("Supplier WhatsApp", "+971501112222")].

Definition sheet_gateways (rows : list Row) : Gateways :=
  {| gw_read_stock_sheet := fun _ => rows; gw_get_reviews := fun _ => None;
     gw_llm := fun _ => LlmError "timeout" |}.

Definition forecast_movements : list StockMovement :=
  [ {| mv_business_id := 1; mv_item_name := "Oil Filters"; mv_quantity_change := -30;
       mv_new_quantity := 50; mv_type := "sheet_update"; mv_recorded_at := 1000000 - 86400 |};
    {| mv_business_id := 1; mv_item_name := "Oil Filters"; mv_quantity_change := 25;
       mv_new_quantity := 75; mv_type := "sheet_update"; mv_recorded_at := 1000000 - 3 * 86400 |};
    {| mv_business_id := 1; mv_item_name := "Oil Filters"; mv_quantity_change := -40;
       mv_new_quantity := 20; mv_type := "sheet_update"; mv_recorded_at := 1000000 - 100 |};
    {| mv_business_id := 1; mv_item_name := "Oil Filters"; mv_quantity_change := -500;
       mv_new_quantity := 0; mv_type := "sheet_update"; mv_recorded_at := 1000000 - 9 * 86400 |} ].

Definition forecast_world : World :=
  {| businesses := [demo_business]; stock_items := []; stock_movements := forecast_movements;
     pending_actions := []; seen_reviews := []; next_id := 1; outbox := [] |}.

(** One movement of -20 in the window. *)
Definition single_use_world : World :=
  {| businesses := [demo_business]; stock_items := [];
     stock_movements := [ {| mv_business_id := 1; mv_item_name := "Oil Filters";
                             mv_quantity_change := -20; mv_new_quantity := 1;
                             mv_type := "sheet_update"; mv_recorded_at := 1000000 - 100 |} ];
     pending_actions := []; seen_reviews := []; next_id := 1; outbox := [] |}.

(** A Twilio that refuses any address other than [whatsapp:+] and a
    number. *)
Definition twilio_demo_error (to body : string) : option string :=
  if startswith to "whatsapp:+" then None
  else Some "Unable to create record: Invalid 'To' Phone Number".

(** The item and purchase order of the demo, with the supplier's name
    typed into the WhatsApp column of the sheet. *)
Definition demo_item_ali : StockItem :=
  {| si_id := 2; si_business_id := 1; si_name := "Oil Filters"; si_current_quantity := 3;
     si_unit := "pcs"; si_reorder_threshold := 5; si_reorder_quantity := 10;
     si_supplier_name := "Ali"; si_supplier_whatsapp := "Ali";
     si_last_updated := 0 |}.

Definition demo_po_ali : PendingAction :=
  {| pa_id := 3; pa_business_id := 1; pa_owner_phone := "+971500000000";
     pa_action_type := "purchase_order"; pa_item_name := Some "Oil Filters";
     pa_item_data := Some (ItemRow demo_item_ali); pa_review_id := None;
     pa_draft_reply := Some "Hi Ali"; pa_status := "pending"; pa_created_at := 0 |}.

Definition order_world_ali : World :=
  {| businesses := [demo_business]; stock_items := [demo_item_ali]; stock_movements := [];
     pending_actions := [demo_po_ali]; seen_reviews := []; next_id := 4; outbox := [] |}.

Definition demo_review (author : string) (time : Z) : Review :=
  {| rv_author_name := Some author; rv_rating := Some 5; rv_text := Some "Great service";
     rv_time := Some time |}.

Definition review_gateways (reviews : list Review) : Gateways :=
  {| gw_read_stock_sheet := fun _ => [];
     gw_get_reviews := fun _ => Some {| pd_rating := Some 4.5%Q; pd_user_ratings_total := Some 12;
                                        pd_reviews := reviews |};
     gw_llm := fun _ => LlmOk "Thanks!" |}.

Definition demo_mreview (author text : string) : ReviewMonitor.MReview :=
  {| ReviewMonitor.mr_author_display_name := None; ReviewMonitor.mr_author_name := Some author;
     ReviewMonitor.mr_rating := Some 5; ReviewMonitor.mr_text := ReviewMonitor.TextStr (Some text) |}.

Definition monitor_gateways (revs : list ReviewMonitor.MReview) : ReviewMonitor.MonitorGateways :=
  {| ReviewMonitor.mg_resolve := fun place_id _ => place_id;
     ReviewMonitor.mg_get_place_reviews := fun _ => (Some revs, None) |}.

(** Characters with no meaning in a [LIKE] pattern sent through PostgREST. *)
Definition plain_char (c : ascii) : bool :=
  negb (Ascii.eqb c "%"%char || Ascii.eqb c "*"%char)
  && negb (Ascii.eqb c "_"%char) && negb (Ascii.eqb c "\"%char).

Fixpoint plain (s : string) : bool :=
  match s with
  | EmptyString => true
  | String c s' => plain_char c && plain s'
  end.

(** An update that keeps the id, business and name of a row. *)
Definition keeps_key (f : StockItem -> StockItem) : Prop :=
  forall it, si_id (f it) = si_id it /\ si_business_id (f it) = si_business_id it /\
             si_name (f it) = si_name it.

(** Characters of a Google Sheets document id: letters, digits, [-] and [_]. *)
Definition sheet_id_char (c : ascii) : bool :=
  let n := nat_of_ascii c in
  (Nat.leb 48 n && Nat.leb n 57) || (Nat.leb 65 n && Nat.leb n 90)
  || (Nat.leb 97 n && Nat.leb n 122) || Nat.eqb n 45 || Nat.eqb n 95.

(** A Sheets answer: the header line and two item lines, the second short. *)
Definition demo_values : list (list string) :=
  [["Item Name"; " Current Quantity "]; ["Oil Filters"; "3"]; ["Brake Pads"]].

Definition demo_sheet_url : string :=
  "https://docs.google.com/spreadsheets/d/1AbC-x_9/edit".

(** The address [send_whatsapp] sends to. *)
Definition whatsapp_addr (to : string) : string :=
  if startswith to "whatsapp:" then to else "whatsapp:" ++ to.

(** The identity of a pending action: its id, business and type. *)
Definition pa_key (pa : PendingAction) : Z * Z * string :=
  (pa_id pa, pa_business_id pa, pa_action_type pa).

(** [w'] has the businesses and seen reviews of [w], and its pending
    actions are those of [w] (with the same ids, businesses and types,
    in the same order) followed by new ones. *)
Definition keeps_tables (w w' : World) : Prop :=
  businesses w' = businesses w /\ seen_reviews w' = seen_reviews w /\
  exists added, map pa_key (pending_actions w') = (map pa_key (pending_actions w) ++ added)%list.

(** Every message goes to a [whatsapp:] address. *)
Definition whatsapp_addressed (msgs : list (string * string)) : bool :=
  forallb (fun m => startswith (fst m) "whatsapp:") msgs.

(** [w'] keeps the messages of [w] and appends only messages to
    [whatsapp:] addresses. *)
Definition outbox_grows (w w' : World) : Prop :=
  exists sent, outbox w' = (outbox w ++ sent)%list /\ whatsapp_addressed sent = true.

(** [w'] has the businesses and stock tables of [w]; its seen reviews and
    pending actions are those of [w] followed by new ones, the new actions
    being pending review_reply actions that carry, in order, the review
    ids and reply drafts of the new seen reviews. *)
Definition reviews_lockstep (w w' : World) : Prop :=
  businesses w' = businesses w /\ stock_items w' = stock_items w /\
  stock_movements w' = stock_movements w /\
  exists added_seen added_actions,
    seen_reviews w' = (seen_reviews w ++ added_seen)%list /\
    pending_actions w' = (pending_actions w ++ added_actions)%list /\
    map (fun pa => (pa_review_id pa, pa_draft_reply pa)) added_actions
    = map (fun s => (Some (sr_review_id s), sr_reply_draft s)) added_seen /\
    Forall (fun pa => pa_action_type pa = "review_reply" /\ pa_status pa = "pending")
           added_actions.

(** The outcome [r] of a review check from [w]: when it returns, its
    tables are in [reviews_lockstep] with those of [w]; when it raises,
    they are in lockstep but for one more seen review, which has no
    review_reply action. *)
Definition lockstep_or_one_seen (w : World) (r : Raises unit) : Prop :=
  match r with
  | Ret _ w' => reviews_lockstep w w'
  | Exc _ w' => exists w'' mk, reviews_lockstep w w'' /\ w' = insert_seen_review mk w''
  end.

(** [w'] differs from [w] at most by new seen reviews, stored without a
    reply draft and not replied, and by its outbox. *)
Definition seen_only (w w' : World) : Prop :=
  businesses w' = businesses w /\ stock_items w' = stock_items w /\
  stock_movements w' = stock_movements w /\ pending_actions w' = pending_actions w /\
  next_id w' = (next_id w + Z.of_nat (length (seen_reviews w') - length (seen_reviews w)))%Z /\
  exists added,
    seen_reviews w' = (seen_reviews w ++ added)%list /\
    Forall (fun s => sr_reply_draft s = None /\ sr_replied s = false) added.

(** * Properties *)

(** ** Unregistered senders *)

Lemma find_none_forall {A} (f : A -> bool) (l : list A) :
  (forall x, In x l -> f x = false) -> find f l = None.
Proof.
  induction l as [|y l IH]; intros H; simpl; [reflexivity|].
  rewrite (H y (or_introl eq_refl)). apply IH. intros x Hx. apply H. now right.
Qed.

Lemma get_business_unmatched (sender : string) (w : World) :
  (forall b, In b (businesses w) ->
             biz_owner_phone b <> py_strip (remove_all "whatsapp:" sender)) ->
  get_business sender w = None.
Proof.
  intros H. unfold get_business.
  destruct (String.eqb _ "") eqn:E; [reflexivity|].
  apply find_none_forall. intros b Hb. apply String.eqb_neq. now apply H.
Qed.

(** C9: a sender whose normalized address matches no Business gets the
    fixed not-registered notice; the state (tables and sent messages) is
    returned unchanged, and neither the body nor any gateway is consulted. *)
Theorem webhook_unregistered_sender (repr_float : Q -> string)
  (py_float : string -> option Q) (twilio_ready : bool) (gw : Gateways)
  (body sender : string) (now : Z) (w : World) :
  (forall b, In b (businesses w) ->
             biz_owner_phone b <> py_strip (remove_all "whatsapp:" sender)) ->
  webhook repr_float py_float twilio_ready gw body sender now w
  = (["Welcome to Wavy AI! You're not registered yet."], w).
Proof.
  intros H. unfold webhook. now rewrite (get_business_unmatched sender w H).
Qed.

Lemma webhook_unregistered_sender_witness :
  webhook repr_demo float_demo true demo_gateways "send order" "whatsapp:+15550001" 0
          (empty_world [demo_business])
  = (["Welcome to Wavy AI! You're not registered yet."], empty_world [demo_business]).
Proof.
  apply webhook_unregistered_sender.
  intros b [Hb|[]]. subst b. vm_compute. discriminate.
Defined.

(** ** Sending a purchase order *)

Lemma send_whatsapp_prefixed (twilio_ready : bool) (s msg : string) (w : World) :
  startswith s "whatsapp:" = true ->
  send_whatsapp twilio_ready s msg w
  = if twilio_ready then set_outbox w (outbox w ++ [(s, msg)]) else w.
Proof.
  intros H. unfold send_whatsapp. destruct twilio_ready; simpl; [now rewrite H|reflexivity].
Qed.

Lemma startswith_whatsapp_app (s : string) :
  startswith ("whatsapp:" ++ s) "whatsapp:" = true.
Proof. unfold startswith. cbn. now destruct s. Qed.

Lemma send_whatsapp_r_prefixed (twilio_ready : bool) (twilio_error : string -> string -> option string)
  (s msg : string) (w : World) :
  startswith s "whatsapp:" = true ->
  send_whatsapp_r twilio_ready twilio_error s msg w
  = if twilio_ready
    then match twilio_error s msg with
         | Some e => Exc e w
         | None => Ret tt (set_outbox w (outbox w ++ [(s, msg)]))
         end
    else Ret tt w.
Proof.
  intros H. unfold send_whatsapp_r. destruct twilio_ready; simpl; [now rewrite H|reflexivity].
Qed.

(** Past the two early replies, [handle_send_order] is the send to the
    normalized supplier address followed by the status update. *)
Lemma handle_send_order_r_send (twilio_ready : bool)
  (twilio_error : string -> string -> option string) (b : Business) (w : World)
  (a : PendingAction) (rest : list PendingAction) :
  pending_of b "purchase_order" w = a :: rest ->
  item_supplier_whatsapp (pa_item_data a) <> "" ->
  handle_send_order_r twilio_ready twilio_error b w
  = match twilio_ready, twilio_error (whatsapp_addr (item_supplier_whatsapp (pa_item_data a)))
                                     (get_default (pa_draft_reply a) "") with
    | true, Some e => Exc e w
    | true, None =>
        Ret ("✅ Order sent to " ++ show_opt (item_supplier_name (pa_item_data a)) ++ "!")
            (set_status (pa_id a) "completed"
               (set_outbox w (outbox w ++ [(whatsapp_addr (item_supplier_whatsapp (pa_item_data a)),
                                            get_default (pa_draft_reply a) "")])))
    | false, _ =>
        Ret ("✅ Order sent to " ++ show_opt (item_supplier_name (pa_item_data a)) ++ "!")
            (set_status (pa_id a) "completed" w)
    end.
Proof.
  intros H Hwa. unfold handle_send_order_r. rewrite H.
  apply String.eqb_neq in Hwa. rewrite Hwa. unfold whatsapp_addr.
  set (wa := item_supplier_whatsapp (pa_item_data a)).
  destruct (startswith wa "whatsapp:") eqn:Hp.
  - rewrite (send_whatsapp_r_prefixed twilio_ready twilio_error wa _ w Hp).
    destruct twilio_ready; [destruct (twilio_error wa _)|]; reflexivity.
  - rewrite (send_whatsapp_r_prefixed twilio_ready twilio_error ("whatsapp:" ++ wa) _ w
               (startswith_whatsapp_app wa)).
    destruct twilio_ready; [destruct (twilio_error _ _)|]; reflexivity.
Qed.





(** ** The stock-alert cool-down *)

Lemma send_whatsapp_pending (twilio_ready : bool) to msg (w : World) :
  pending_actions (send_whatsapp twilio_ready to msg w) = pending_actions w.
Proof. unfold send_whatsapp. now destruct (negb twilio_ready). Qed.

Lemma sync_row_pending py b now (w : World) r :
  pending_actions (sync_row py b now w r) = pending_actions w.
Proof.
  unfold sync_row. destruct (parse_row py r) as [[[[n q] t] o]|]; [|reflexivity].
  destruct (filter _ _) as [|e es]; [reflexivity|].
  destruct (negb _); reflexivity.
Qed.

Lemma sync_pending py b rows now (w : World) :
  pending_actions (sync_stock_to_supabase py b rows now w) = pending_actions w.
Proof.
  unfold sync_stock_to_supabase. revert w.
  induction rows as [|r rows IH]; intros w; [reflexivity|].
  simpl. rewrite IH. apply sync_row_pending.
Qed.

Lemma existsb_filter {A} (f g : A -> bool) (l : list A) :
  existsb f (filter g l) = existsb (fun a => g a && f a) l.
Proof.
  induction l as [|a l IH]; [reflexivity|]. simpl.
  destruct (g a); simpl; [now rewrite IH|exact IH].
Qed.

Lemma existsb_ext {A} (f g : A -> bool) (l : list A) :
  (forall a, f a = g a) -> existsb f l = existsb g l.
Proof.
  intros H. induction l as [|a l IH]; [reflexivity|]. simpl. now rewrite H, IH.
Qed.

(** The cool-down test of [send_stock_alerts] is [has_alert_since] at
    [now - 4h]. *)
Lemma recent_matches_has_alert_since (b : Business) (now : Z) (w : World) (x : string) :
  existsb (fun r => opt_str_eqb (pa_item_name r) (Some x)) (recent_stock_alerts b now w)
  = has_alert_since (biz_id b) x (now - 4 * 3600) w.
Proof.
  unfold recent_stock_alerts, has_alert_since. rewrite existsb_filter.
  apply existsb_ext. intros pa.
  destruct (pa_business_id pa =? biz_id b), (String.eqb (pa_action_type pa) "stock_alert"),
           (opt_str_eqb (pa_item_name pa) (Some x)), (now - 4 * 3600 <=? pa_created_at pa);
    reflexivity.
Qed.

(** One step of [send_stock_alerts] either leaves the state alone or
    sends one message and appends one stock_alert action for the item,
    created at [now]. *)
Lemma send_stock_alert_pending repr tw (b : Business) now (w : World) (item : Alert) :
  let w' := send_stock_alert repr tw b now w item in
  (has_alert_since (biz_id b) (al_name item) (now - 4 * 3600) w = true /\ w' = w) \/
  (has_alert_since (biz_id b) (al_name item) (now - 4 * 3600) w = false /\
   exists id,
     pending_actions w' = (pending_actions w ++
       [{| pa_id := id; pa_business_id := biz_id b; pa_owner_phone := biz_owner_phone b;
           pa_action_type := "stock_alert"; pa_item_name := Some (al_name item);
           pa_item_data := Some (ItemAlert item); pa_review_id := None;
           pa_draft_reply := None; pa_status := "pending"; pa_created_at := now |}])%list).
Proof.
  cbv zeta. unfold send_stock_alert. rewrite recent_matches_has_alert_since.
  destruct (has_alert_since _ _ _ w) eqn:E; [left; now split|right; split; [reflexivity|]].
  eexists. unfold insert_pending_action. simpl. rewrite send_whatsapp_pending. reflexivity.
Qed.

Lemma count_snoc (bid : Z) (x : string) (w w' : World) (pa : PendingAction) :
  pending_actions w' = (pending_actions w ++ [pa])%list ->
  stock_alert_count bid x w'
  = (stock_alert_count bid x w
     + if Z.eqb (pa_business_id pa) bid && String.eqb (pa_action_type pa) "stock_alert"
          && opt_str_eqb (pa_item_name pa) (Some x) then 1 else 0)%nat.
Proof.
  intros H. unfold stock_alert_count. rewrite H, filter_app, length_app. simpl.
  destruct (_ && _ && _); reflexivity.
Qed.

Lemma has_alert_since_snoc (bid : Z) (x : string) (s : Z) (w w' : World) (pa : PendingAction) :
  pending_actions w' = (pending_actions w ++ [pa])%list ->
  has_alert_since bid x s w = true -> has_alert_since bid x s w' = true.
Proof.
  intros H Hs. unfold has_alert_since in *. rewrite H, existsb_app, Hs. reflexivity.
Qed.

Lemma opt_str_eqb_some (a b : string) : opt_str_eqb (Some a) (Some b) = String.eqb a b.
Proof. reflexivity. Qed.

Lemma send_stock_alert_facts repr tw (b : Business) now (w : World) (item : Alert) (x : string) :
  let w1 := send_stock_alert repr tw b now w item in
  (forall y s, has_alert_since (biz_id b) y s w = true -> has_alert_since (biz_id b) y s w1 = true) /\
  stock_alert_count (biz_id b) x w1
  = (stock_alert_count (biz_id b) x w
     + if negb (has_alert_since (biz_id b) (al_name item) (now - 4 * 3600) w)
          && String.eqb (al_name item) x then 1 else 0)%nat /\
  (has_alert_since (biz_id b) (al_name item) (now - 4 * 3600) w = false ->
   forall s, s <= now -> has_alert_since (biz_id b) (al_name item) s w1 = true).
Proof.
  cbv zeta.
  destruct (send_stock_alert_pending repr tw b now w item) as [[Hh Hw]|[Hh [id Hp]]].
  - rewrite Hw, Hh. simpl. rewrite Nat.add_0_r. split; [auto|split; [reflexivity|discriminate]].
  - rewrite Hh. split; [|split].
    + intros y s Hs. eapply has_alert_since_snoc; eauto.
    + rewrite (count_snoc _ x _ _ _ Hp). simpl. now rewrite Z.eqb_refl.
    + intros _ s Hs. unfold has_alert_since. rewrite Hp, existsb_app. simpl.
      rewrite Z.eqb_refl, String.eqb_refl. apply Z.leb_le in Hs. rewrite Hs.
      now rewrite orb_true_r.
Qed.

Lemma send_stock_alerts_mono repr tw (b : Business) alerts now (w : World) y s :
  has_alert_since (biz_id b) y s w = true ->
  has_alert_since (biz_id b) y s (send_stock_alerts repr tw b alerts now w) = true.
Proof.
  unfold send_stock_alerts. revert w.
  induction alerts as [|item alerts IH]; intros w H; [exact H|].
  simpl. apply IH. destruct (send_stock_alert_facts repr tw b now w item y) as [Hm _].
  now apply Hm.
Qed.

(** One run of [send_stock_alerts] adds at most one stock_alert action
    for an item, none when one was created in the last four hours, and
    when it adds one, that one is created at [now]. *)
Lemma send_stock_alerts_count repr tw (b : Business) alerts now (w : World) (x : string) :
  let w' := send_stock_alerts repr tw b alerts now w in
  (stock_alert_count (biz_id b) x w'
   <= stock_alert_count (biz_id b) x w
      + if has_alert_since (biz_id b) x (now - 4 * 3600) w then 0 else 1)%nat /\
  ((stock_alert_count (biz_id b) x w < stock_alert_count (biz_id b) x w')%nat ->
   has_alert_since (biz_id b) x now w' = true).
Proof.
  cbv zeta. unfold send_stock_alerts. revert w.
  induction alerts as [|item alerts IH]; intros w; cbn [fold_left].
  - split; [lia|]. lia.
  - destruct (send_stock_alert_facts repr tw b now w item x) as [Hm [Hc Hn]].
    set (w1 := send_stock_alert repr tw b now w item) in *.
    destruct (IH w1) as [IH1 IH2].
    destruct (String.eqb (al_name item) x) eqn:Ex.
    + apply String.eqb_eq in Ex. subst x.
      destruct (has_alert_since (biz_id b) (al_name item) (now - 4 * 3600) w) eqn:Eh.
      * simpl in Hc. rewrite Nat.add_0_r in Hc. rewrite (Hm _ _ Eh) in IH1.
        split; [lia|]. intros Hlt. apply IH2. lia.
      * simpl in Hc. assert (H1 : has_alert_since (biz_id b) (al_name item) (now - 4 * 3600) w1 = true)
          by (apply Hn; [reflexivity|lia]).
        rewrite H1 in IH1. split; [lia|].
        intros _. apply (send_stock_alerts_mono repr tw b alerts now w1).
        apply Hn; [reflexivity|lia].
    + rewrite andb_false_r, Nat.add_0_r in Hc.
      split.
      * destruct (has_alert_since (biz_id b) x (now - 4 * 3600) w) eqn:Eh.
        -- rewrite (Hm _ _ Eh) in IH1. lia.
        -- destruct (has_alert_since (biz_id b) x (now - 4 * 3600) w1); lia.
      * intros Hlt. apply IH2. lia.
Qed.

Lemma has_alert_since_le (bid : Z) (x : string) (s s' : Z) (w : World) :
  s' <= s -> has_alert_since bid x s w = true -> has_alert_since bid x s' w = true.
Proof.
  intros Hle. unfold has_alert_since. rewrite !existsb_exists.
  intros [pa [Hin Hp]]. exists pa. split; [exact Hin|].
  apply andb_prop in Hp as [H1 H2]. rewrite H1. simpl.
  apply Z.leb_le in H2. apply Z.leb_le. lia.
Qed.

Lemma reconcile_count repr py tw (gw : Gateways) (b : Business) now (w : World) (x : string) :
  let w' := reconcile_business repr py tw gw now w b in
  (stock_alert_count (biz_id b) x w'
   <= stock_alert_count (biz_id b) x w
      + if has_alert_since (biz_id b) x (now - 4 * 3600) w then 0 else 1)%nat /\
  ((stock_alert_count (biz_id b) x w < stock_alert_count (biz_id b) x w')%nat ->
   has_alert_since (biz_id b) x now w' = true).
Proof.
  cbv zeta. unfold reconcile_business.
  destruct (gw_read_stock_sheet gw b) as [|r rs] eqn:Erows; [split; lia|].
  set (w1 := sync_stock_to_supabase py b (r :: rs) now w).
  assert (Hc : stock_alert_count (biz_id b) x w1 = stock_alert_count (biz_id b) x w)
    by (unfold stock_alert_count, w1; now rewrite sync_pending).
  assert (Hh : has_alert_since (biz_id b) x (now - 4 * 3600) w1
               = has_alert_since (biz_id b) x (now - 4 * 3600) w)
    by (unfold has_alert_since, w1; now rewrite sync_pending).
  destruct (check_stock_levels py b (r :: rs) now w1) as [|a al].
  - rewrite Hc. split; lia.
  - rewrite <- Hc, <- Hh. apply send_stock_alerts_count.
Qed.

(** C2: an alert for an item is suppressed when a stock_alert action for
    that item of the same business has [created_at] within the last four
    hours; hence two reconciliation runs of a business at clock readings
    [t1] and [t2 <= t1 + 4h] (with any sheet contents) add at most one
    stock_alert action for any item. *)
Theorem stock_alert_cooldown (repr_float : Q -> string) (py_float : string -> option Q)
  (twilio_ready : bool) (gw1 gw2 : Gateways) (b : Business) (x : string) (t1 t2 : Z)
  (w : World) :
  (forall now item w0,
     (exists pa, In pa (pending_actions w0) /\ pa_business_id pa = biz_id b /\
                 pa_action_type pa = "stock_alert" /\ pa_item_name pa = Some (al_name item) /\
                 now - 4 * 3600 <= pa_created_at pa) ->
     send_stock_alert repr_float twilio_ready b now w0 item = w0) /\
  (t2 <= t1 + 4 * 3600 ->
   let w1 := reconcile_business repr_float py_float twilio_ready gw1 t1 w b in
   let w2 := reconcile_business repr_float py_float twilio_ready gw2 t2 w1 b in
   (stock_alert_count (biz_id b) x w2 <= stock_alert_count (biz_id b) x w + 1)%nat).
Proof.
  split.
  - intros now item w0 [pa [Hin [Hb [Ht [Hi Hc]]]]].
    destruct (send_stock_alert_pending repr_float twilio_ready b now w0 item)
      as [[_ Hw]|[Hh _]]; [exact Hw|].
    exfalso. revert Hh. apply not_false_iff_true.
    unfold has_alert_since. apply existsb_exists. exists pa. split; [exact Hin|].
    rewrite Hb, Ht, Hi, Z.eqb_refl, String.eqb_refl. simpl.
    rewrite String.eqb_refl. simpl. now apply Z.leb_le.
  - intros Ht. cbv zeta.
    set (w1 := reconcile_business repr_float py_float twilio_ready gw1 t1 w b).
    destruct (reconcile_count repr_float py_float twilio_ready gw1 b t1 w x) as [A1 A2].
    destruct (reconcile_count repr_float py_float twilio_ready gw2 b t2 w1 x) as [B1 _].
    fold w1 in A1, A2.
    destruct (Nat.lt_ge_cases (stock_alert_count (biz_id b) x w)
                              (stock_alert_count (biz_id b) x w1)) as [Hlt|Hge].
    + assert (Hs : has_alert_since (biz_id b) x (t2 - 4 * 3600) w1 = true)
        by (apply (has_alert_since_le _ _ t1); [lia|now apply A2]).
      rewrite Hs in B1.
      destruct (has_alert_since (biz_id b) x (t1 - 4 * 3600) w); lia.
    + destruct (has_alert_since (biz_id b) x (t1 - 4 * 3600) w);
      destruct (has_alert_since (biz_id b) x (t2 - 4 * 3600) w1); lia.
Qed.

Lemma stock_alert_cooldown_witness :
  3600 <= 0 + 4 * 3600 /\
  (stock_alert_count (biz_id demo_business) "Oil Filters"
     (reconcile_business repr_demo float_demo true (sheet_gateways [demo_row "3"]) 3600
        (reconcile_business repr_demo float_demo true (sheet_gateways [demo_row "3"]) 0
           (empty_world [demo_business]) demo_business) demo_business)
   <= stock_alert_count (biz_id demo_business) "Oil Filters" (empty_world [demo_business]) + 1)%nat.
Proof.
  split; [lia|].
  exact (proj2 (stock_alert_cooldown repr_demo float_demo true (sheet_gateways [demo_row "3"])
                  (sheet_gateways [demo_row "3"]) demo_business "Oil Filters" 0 3600
                  (empty_world [demo_business])) ltac:(lia)).
Defined.

(** The first run alerts, the second run an hour later does not. *)
Example cooldown_demo :
  let w1 := reconcile_business repr_demo float_demo true (sheet_gateways [demo_row "3"]) 0
              (empty_world [demo_business]) demo_business in
  let w2 := reconcile_business repr_demo float_demo true (sheet_gateways [demo_row "2"]) 3600
              w1 demo_business in
  stock_alert_count 1 "Oil Filters" w1 = 1%nat /\ stock_alert_count 1 "Oil Filters" w2 = 1%nat
  /\ length (outbox w2) = 1%nat.
Proof. vm_compute. repeat split. Qed.

(** ** The days-to-stockout forecast *)



Lemma neg_test_agrees (c : Q) :
  negb (Qle_bool 0 c) = (if Qlt_le_dec c 0 then true else false).
Proof.
  destruct (Qlt_le_dec c 0) as [H|H].
  - destruct (Qle_bool 0 c) eqn:E; [|reflexivity].
    apply Qle_bool_iff in E. exfalso. now apply (Qlt_not_le _ _ H).
  - apply Qle_bool_iff in H. now rewrite H.
Qed.




Lemma window_movements_negative (w : World) bid name now :
  Forall (fun m => (mv_quantity_change m < 0)%Q) (window_movements w bid name now).
Proof.
  apply Forall_forall. intros m Hm. unfold window_movements in Hm.
  apply filter_In in Hm as [_ Hf].
  apply andb_prop in Hf as [Hf _]. apply andb_prop in Hf as [_ Hf].
  rewrite neg_test_agrees in Hf. now destruct (Qlt_le_dec (mv_quantity_change m) 0).
Qed.

Lemma Qabs_negative (q : Q) : (q < 0)%Q -> Qabs q = (- q)%Q.
Proof.
  destruct q as [n d]. unfold Qlt. simpl. intros H.
  unfold Qabs, Qopp. simpl. f_equal. lia.
Qed.

Lemma float_sum_negated (ms : list StockMovement) (acc : PyFloat) :
  Forall (fun m => (mv_quantity_change m < 0)%Q) ms ->
  fold_left (fun acc m => f_add acc (f_abs (Fin (mv_quantity_change m)))) ms acc
  = fold_left (fun acc m => f_add acc (Fin (- mv_quantity_change m))) ms acc.
Proof.
  revert acc. induction ms as [|m ms IH]; intros acc H; [reflexivity|].
  inversion H as [|? ? Hm Hms]; subst. simpl.
  rewrite (Qabs_negative _ Hm). now apply IH.
Qed.

(** C5, as amended: the forecast of [predict_stockout] in float
    arithmetic is the amended claim's: [None] when no negative movement of
    the item lies in the trailing seven days; otherwise the float sum of
    the consumptions over 7, and, when that rate is positive, Python's
    [round(_, 1)] of the float quotient of the quantity by the rate.  With
    movements of -30 and -40 in the window (and a +25 one, and a -500 one
    ten days old), quantity 20 gives 2.0. *)
Theorem predict_stockout_float_spec (w : World) (bid : Z) (name : string) (qty : Q) (now : Z) :
  predict_stockout_f w bid name qty now = spec_days_to_stockout_f w bid name qty now /\
  exists d, predict_stockout_f forecast_world 1 "Oil Filters" 20 1000000 = Some (Fin d)
            /\ (d == 2)%Q.
Proof.
  split.
  2:{ eexists. split; [vm_compute; reflexivity|vm_compute; reflexivity]. }
  pose proof (window_movements_negative w bid name now) as Hneg.
  unfold predict_stockout_f, spec_days_to_stockout_f.
  assert (Hl : window_movements w bid name now
               = filter (fun m => (mv_business_id m =? bid) && String.eqb (mv_item_name m) name
                                  && (if Qlt_le_dec (mv_quantity_change m) 0 then true else false)
                                  && (now - 604800 <=? mv_recorded_at m))
                        (stock_movements w)).
  { unfold window_movements. apply filter_ext. intros m. now rewrite neg_test_agrees. }
  rewrite <- Hl. clear Hl.
  destruct (window_movements w bid name now) as [|m ms] eqn:E; [reflexivity|].
  rewrite (float_sum_negated (m :: ms) (Fin 0) Hneg).
  destruct (f_div _ (Fin 7)) as [rate|]; [|reflexivity].
  destruct (f_gt0 rate); [|reflexivity].
  now destruct (f_div (Fin qty) rate).
Qed.

(** Counterexample to claim C5 as stated: with one movement of -20 in the
    window and quantity 1, the quantity over the daily rate is 7/20, which
    the claim rounds to one decimal as 0.4; in float arithmetic 1/(20/7)
    is the double just below 0.35, and [predict_stockout] returns the
    double of 0.3. *)
Lemma predict_stockout_float_rounding :
  (exists q, spec_days_to_stockout single_use_world 1 "Oil Filters" 1 1000000 = Some q
             /\ (q == 2 # 5)%Q) /\
  predict_stockout_f single_use_world 1 "Oil Filters" 1 1000000
  = Some (Fin (5404319552844595 # 18014398509481984)) /\
  round_binary64 (3 # 10) = Fin (5404319552844595 # 18014398509481984) /\
  (match f_div (Fin 20) (Fin 7) with
   | Some rate => f_div (Fin 1) rate
   | None => None
   end) = Some (Fin (6305039478318694 # 18014398509481984)) /\
  (6305039478318694 # 18014398509481984 < 7 # 20)%Q.
Proof.
  split; [eexists; split; [vm_compute; reflexivity|vm_compute; reflexivity]|].
  vm_compute. repeat split; reflexivity.
Qed.

(** ** The stockout line of the alert message *)






(** ** Review deduplication *)

(** A state transformer is dedup-safe when it never adds a row for a
    review_id that already has one, and adds at most one row for a
    review_id that has none. *)
Definition dedup_safe (T : World -> World) : Prop :=
  forall rid w,
    ((1 <= seen_count rid w)%nat -> seen_count rid (T w) = seen_count rid w) /\
    (seen_count rid w = 0%nat -> (seen_count rid (T w) <= 1)%nat).

Lemma dedup_safe_fold {A} (step : World -> A -> World) :
  (forall a, dedup_safe (fun w => step w a)) ->
  forall l, dedup_safe (fun w => fold_left step l w).
Proof.
  intros Hs l. induction l as [|a l IH]; intros rid w; simpl; [split; lia|].
  destruct (Hs a rid w) as [A1 A2]. destruct (IH rid (step w a)) as [B1 B2].
  split.
  - intros H. rewrite B1; rewrite A1; lia.
  - intros H. specialize (A2 H).
    destruct (seen_count rid (step w a)) as [|[|k]] eqn:E; [lia| |lia].
    rewrite B1; lia.
Qed.

Lemma dedup_safe_le (T : World -> World) rid w :
  dedup_safe T -> (seen_count rid w <= 1)%nat -> (seen_count rid (T w) <= 1)%nat.
Proof.
  intros Hs H. destruct (Hs rid w) as [A1 A2].
  destruct (seen_count rid w) as [|[|k]] eqn:E; [lia| |lia]. rewrite A1; lia.
Qed.

Lemma seen_count_pos rid w : seen rid w = true <-> (1 <= seen_count rid w)%nat.
Proof.
  unfold seen, seen_count. rewrite existsb_exists. split.
  - intros [s [Hin Hs]]. destruct (filter _ (seen_reviews w)) eqn:E; [|simpl; lia].
    assert (In s (filter (fun s => String.eqb (sr_review_id s) rid) (seen_reviews w)))
      by (apply filter_In; split; [exact Hin|]; apply String.eqb_eq in Hs; subst;
          apply String.eqb_refl).
    rewrite E in H. destruct H.
  - intros H. destruct (filter _ (seen_reviews w)) as [|s l] eqn:E; [simpl in H; lia|].
    assert (Hin : In s (filter (fun s => String.eqb (sr_review_id s) rid) (seen_reviews w)))
      by (rewrite E; now left).
    apply filter_In in Hin as [Hin Hs]. exists s. split; [exact Hin|].
    apply String.eqb_eq in Hs. subst. apply String.eqb_refl.
Qed.

(** A step that, for an unseen id, appends exactly one row with that id
    and otherwise keeps [seen_reviews]. *)
Lemma dedup_step (T : World -> World) (rid0 : string) :
  (forall w, seen rid0 w = true -> seen_reviews (T w) = seen_reviews w) ->
  (forall w, seen rid0 w = false ->
     exists row, sr_review_id row = rid0 /\
                 seen_reviews (T w) = (seen_reviews w ++ [row])%list) ->
  dedup_safe T /\ forall w, (1 <= seen_count rid0 (T w))%nat.
Proof.
  intros Hseen Hnew.
  assert (Hc : forall w rid, seen rid0 w = false -> seen_count rid (T w)
                 = (seen_count rid w + if String.eqb rid0 rid then 1 else 0)%nat).
  { intros w rid Hf. destruct (Hnew w Hf) as [row [Hr Hl]].
    unfold seen_count. rewrite Hl, filter_app, length_app. simpl. rewrite Hr.
    rewrite (String.eqb_sym rid0 rid). destruct (String.eqb rid rid0); reflexivity. }
  split.
  - intros rid w. destruct (seen rid0 w) eqn:Es.
    + unfold seen_count. rewrite (Hseen w Es). split; lia.
    + rewrite (Hc w rid Es). split.
      * intros H. destruct (String.eqb rid0 rid) eqn:E; [|lia].
        apply String.eqb_eq in E. subst. apply seen_count_pos in H. congruence.
      * intros H. rewrite H. destruct (String.eqb rid0 rid); simpl; lia.
  - intros w. destruct (seen rid0 w) eqn:Es.
    + unfold seen_count. rewrite (Hseen w Es). now apply seen_count_pos.
    + rewrite (Hc w rid0 Es), String.eqb_refl. lia.
Qed.

Lemma send_whatsapp_seen tw to msg (w : World) :
  seen_reviews (send_whatsapp tw to msg w) = seen_reviews w.
Proof. unfold send_whatsapp. now destruct (negb tw). Qed.

Lemma review_step_dedup tw gw b place_id now (rev : Review) :
  dedup_safe (fun w => review_step tw gw b place_id now w rev) /\
  forall w, (1 <= seen_count (app_review_id place_id rev) (review_step tw gw b place_id now w rev))%nat.
Proof.
  apply dedup_step.
  - intros w H. unfold review_step. now rewrite H.
  - intros w H. unfold review_step. rewrite H. eexists. split; [|].
    2:{ unfold insert_pending_action, insert_seen_review. simpl.
        rewrite send_whatsapp_seen. reflexivity. }
    reflexivity.
Qed.

Lemma monitor_step_dedup mt biz resolved is_backfill (rev : ReviewMonitor.MReview) :
  dedup_safe (fun w => ReviewMonitor.monitor_step mt biz resolved is_backfill w rev) /\
  forall w, (1 <= seen_count (ReviewMonitor.monitor_review_id resolved rev)
                   (ReviewMonitor.monitor_step mt biz resolved is_backfill w rev))%nat.
Proof.
  apply dedup_step.
  - intros w H. unfold ReviewMonitor.monitor_step. now rewrite H.
  - intros w H. unfold ReviewMonitor.monitor_step. rewrite H. eexists. split.
    2:{ destruct is_backfill; [reflexivity|]. cbv zeta.
        destruct (mt && _); reflexivity. }
    reflexivity.
Qed.

Lemma fold_reaches {A} (step : World -> A -> World) (ridf : A -> string) :
  (forall a, dedup_safe (fun w => step w a)) ->
  (forall a w, (1 <= seen_count (ridf a) (step w a))%nat) ->
  forall l w a, In a l -> (1 <= seen_count (ridf a) (fold_left step l w))%nat.
Proof.
  intros Hs Hr l. induction l as [|x l IH]; intros w a Hin; [destruct Hin|].
  simpl. destruct Hin as [->|Hin]; [|now apply IH].
  destruct (dedup_safe_fold step Hs l (ridf a) (step w a)) as [A1 _].
  rewrite A1; apply Hr.
Qed.

Lemma check_business_reviews_dedup tw gw now (b : Business) :
  dedup_safe (fun w => check_business_reviews tw gw now w b).
Proof.
  intros rid w. unfold check_business_reviews.
  destruct (business_place_id b) as [p|]; [|split; lia].
  destruct (String.eqb p ""); [split; lia|].
  destruct (gw_get_reviews gw p) as [pd|]; [|split; lia].
  apply (dedup_safe_fold (review_step tw gw b p now)).
  intros rev. apply review_step_dedup.
Qed.

Lemma monitor_business_dedup mt mg (b : Business) :
  dedup_safe (fun w => ReviewMonitor.monitor_business mt mg w b).
Proof.
  intros rid w. unfold ReviewMonitor.monitor_business.
  destruct (biz_place_id b) as [p|]; [|split; lia].
  destruct (String.eqb p ""); [split; lia|].
  destruct (ReviewMonitor.mg_get_place_reviews mg _) as [reviews err].
  destruct (truthy_str err); [split; lia|].
  destruct reviews as [[|r rs]|]; try (split; lia).
  apply (dedup_safe_fold (ReviewMonitor.monitor_step mt b _ _)).
  intros rev. apply monitor_step_dedup.
Qed.

(** C3: neither review pipeline ([check_reviews_for_all_businesses] in
    [app.py], [run_review_check] in [review_monitor.py]) inserts a
    SeenReview row whose review_id already has one, and neither creates a
    second row for any review_id; a review fetched for a business that is
    processed leaves exactly one row with its review_id, however often it
    appears in the fetched list or across runs. *)
Theorem review_ingestion_dedup :
  (forall tw gw now w rid,
     ((1 <= seen_count rid w)%nat ->
      seen_count rid (check_reviews_for_all_businesses tw gw now w) = seen_count rid w) /\
     ((seen_count rid w <= 1)%nat ->
      (seen_count rid (check_reviews_for_all_businesses tw gw now w) <= 1)%nat)) /\
  (forall tw gw now w b p pd rev,
     business_place_id b = Some p -> p <> "" -> gw_get_reviews gw p = Some pd ->
     In rev (pd_reviews pd) -> (seen_count (app_review_id p rev) w <= 1)%nat ->
     seen_count (app_review_id p rev) (check_business_reviews tw gw now w b) = 1%nat) /\
  (forall mt mg w rid,
     ((1 <= seen_count rid w)%nat ->
      seen_count rid (ReviewMonitor.run_review_check mt mg w) = seen_count rid w) /\
     ((seen_count rid w <= 1)%nat ->
      (seen_count rid (ReviewMonitor.run_review_check mt mg w) <= 1)%nat)) /\
  (forall mt mg w b p revs err rev,
     biz_place_id b = Some p -> p <> "" ->
     ReviewMonitor.mg_get_place_reviews mg (ReviewMonitor.mg_resolve mg p (biz_name b))
       = (Some revs, err) ->
     truthy_str err = false -> In rev revs ->
     let rid := ReviewMonitor.monitor_review_id (ReviewMonitor.mg_resolve mg p (biz_name b)) rev in
     (seen_count rid w <= 1)%nat ->
     seen_count rid (ReviewMonitor.monitor_business mt mg w b) = 1%nat).
Proof.
  split; [|split; [|split]].
  - intros tw gw now w rid. unfold check_reviews_for_all_businesses.
    pose proof (dedup_safe_fold _ (check_business_reviews_dedup tw gw now) (businesses w)) as Hs.
    split; [apply (Hs rid w)|]. intros H. now apply (dedup_safe_le _ rid w Hs).
  - intros tw gw now w b p pd rev Hp Hne Hg Hin Hle.
    apply (dedup_safe_le _ _ w (check_business_reviews_dedup tw gw now b)) in Hle.
    enough (1 <= seen_count (app_review_id p rev) (check_business_reviews tw gw now w b))%nat
      by lia.
    unfold check_business_reviews. rewrite Hp.
    apply String.eqb_neq in Hne. rewrite Hne, Hg.
    apply (fold_reaches _ (app_review_id p)); [|apply review_step_dedup|exact Hin].
    intros a. apply review_step_dedup.
  - intros mt mg w rid. unfold ReviewMonitor.run_review_check.
    pose proof (dedup_safe_fold _ (monitor_business_dedup mt mg)
                  (filter (fun b => match biz_place_id b with Some _ => true | None => false end)
                          (businesses w))) as Hs.
    split; [apply (Hs rid w)|]. intros H. now apply (dedup_safe_le _ rid w Hs).
  - intros mt mg w b p revs err rev Hp Hne Hg He Hin. cbv zeta. intros Hle.
    apply (dedup_safe_le _ _ w (monitor_business_dedup mt mg b)) in Hle.
    match goal with |- seen_count ?r ?x = _ =>
      enough (1 <= seen_count r x)%nat by lia end.
    unfold ReviewMonitor.monitor_business. rewrite Hp.
    apply String.eqb_neq in Hne. rewrite Hne, Hg, He.
    destruct revs as [|r0 rs]; [destruct Hin|].
    apply (fold_reaches _ (ReviewMonitor.monitor_review_id _));
      [| apply monitor_step_dedup | exact Hin].
    intros a. apply monitor_step_dedup.
Qed.

Lemma review_ingestion_dedup_witness :
  seen_count (app_review_id "P" (demo_review "Sara" 1700000000))
    (check_business_reviews true
       (review_gateways [demo_review "Sara" 1700000000; demo_review "Sara" 1700000000]) 0
       (empty_world [demo_business]) demo_business) = 1%nat.
Proof.
  apply (proj1 (proj2 review_ingestion_dedup) true
           (review_gateways [demo_review "Sara" 1700000000; demo_review "Sara" 1700000000]) 0
           (empty_world [demo_business]) demo_business "P"
           {| pd_rating := Some 4.5%Q; pd_user_ratings_total := Some 12;
              pd_reviews := [demo_review "Sara" 1700000000; demo_review "Sara" 1700000000] |}).
  - reflexivity.
  - discriminate.
  - reflexivity.
  - now left.
  - vm_compute. lia.
Defined.

(** Two runs over the same fetched review keep one row. *)
Example dedup_two_runs :
  let gw := review_gateways [demo_review "Sara" 1700000000] in
  let w1 := check_reviews_for_all_businesses true gw 0 (empty_world [demo_business]) in
  let w2 := check_reviews_for_all_businesses true gw 1800 w1 in
  length (seen_reviews w2) = 1%nat /\ length (outbox w2) = 1%nat.
Proof. vm_compute. split; reflexivity. Qed.

(** ** Stock reconciliation: movements and idempotence *)

Lemma NoDup_map_same {A B} (f : A -> B) (l : list A) (x y : A) :
  NoDup (map f l) -> In x l -> In y l -> f x = f y -> x = y.
Proof.
  induction l as [|a l IH]; intros Hnd Hx Hy Hf; [destruct Hx|].
  simpl in Hnd. inversion Hnd as [|? ? Hnot Hnd']; subst.
  destruct Hx as [->|Hx], Hy as [->|Hy]; auto.
  - exfalso. apply Hnot. rewrite Hf. now apply in_map.
  - exfalso. apply Hnot. rewrite <- Hf. now apply in_map.
Qed.

Lemma filter_map_same {A} (P : A -> bool) (g : A -> A) (l : list A) :
  (forall x, P (g x) = P x) -> filter P (map g l) = map g (filter P l).
Proof.
  intros H. induction l as [|a l IH]; [reflexivity|]. simpl. rewrite H.
  destruct (P a); simpl; now rewrite IH.
Qed.

Lemma first_item_in (bid : Z) (n : string) (w : World) (e : StockItem) :
  first_item bid n w = Some e ->
  In e (stock_items w) /\ si_business_id e = bid /\ si_name e = n.
Proof.
  unfold first_item. destruct (filter _ _) as [|x l] eqn:E; [discriminate|].
  simpl. intros H. inversion H; subst.
  assert (Hin : In e (filter (fun it => (si_business_id it =? bid) && String.eqb (si_name it) n)
                             (stock_items w))) by (rewrite E; now left).
  apply filter_In in Hin as [Hin Hp]. apply andb_prop in Hp as [H1 H2].
  apply Z.eqb_eq in H1. apply String.eqb_eq in H2. auto.
Qed.

Lemma update_first_item (bid : Z) (n : string) (w : World) (e : StockItem)
  (f : StockItem -> StockItem) :
  stock_ids_ok w -> keeps_key f -> first_item bid n w = Some e ->
  first_item bid n (update_stock_item (si_id e) f w) = Some (f e) /\
  forall n', n' <> n -> first_item bid n' (update_stock_item (si_id e) f w) = first_item bid n' w.
Proof.
  intros [Hnd _] Hk He.
  set (g := fun it => if si_id it =? si_id e then f it else it).
  assert (Hg : forall m it, ((si_business_id (g it) =? bid) && String.eqb (si_name (g it)) m)
                          = ((si_business_id it =? bid) && String.eqb (si_name it) m)).
  { intros m it. unfold g. destruct (si_id it =? si_id e); [|reflexivity].
    destruct (Hk it) as [_ [-> ->]]. reflexivity. }
  assert (Hfi : forall m, first_item bid m (update_stock_item (si_id e) f w)
                          = option_map g (first_item bid m w)).
  { intros m. unfold first_item, update_stock_item. simpl.
    rewrite (filter_map_same _ g); [|intros x; apply Hg].
    destruct (filter _ (stock_items w)); reflexivity. }
  destruct (first_item_in _ _ _ _ He) as [Hin [Hb Hn]].
  split.
  - rewrite Hfi, He. simpl. unfold g. now rewrite Z.eqb_refl.
  - intros n' Hne. rewrite Hfi. destruct (first_item bid n' w) as [e'|] eqn:E'; [|reflexivity].
    simpl. f_equal. unfold g. destruct (si_id e' =? si_id e) eqn:Eid; [|reflexivity].
    exfalso. apply Z.eqb_eq in Eid.
    destruct (first_item_in _ _ _ _ E') as [Hin' [_ Hn']].
    assert (e' = e) by (exact (NoDup_map_same si_id _ _ _ Hnd Hin' Hin Eid)). subst.
    congruence.
Qed.

Lemma update_ids_ok (w : World) id f :
  keeps_key f -> stock_ids_ok w -> stock_ids_ok (update_stock_item id f w).
Proof.
  intros Hk [Hnd Hlt]. unfold stock_ids_ok, update_stock_item. simpl.
  rewrite map_map.
  assert (Hm : map (fun x => si_id (if si_id x =? id then f x else x)) (stock_items w)
               = map si_id (stock_items w)).
  { apply map_ext. intros x. destruct (si_id x =? id); [apply Hk|reflexivity]. }
  rewrite Hm. split; [exact Hnd|].
  apply Forall_map. eapply Forall_impl; [|exact Hlt]. intros x Hx. simpl.
  destruct (si_id x =? id); [|exact Hx]. destruct (Hk x) as [-> _]. exact Hx.
Qed.

Lemma insert_ids_ok (w : World) mk :
  (forall id, si_id (mk id) = id) -> stock_ids_ok w -> stock_ids_ok (insert_stock_item mk w).
Proof.
  intros Hmk [Hnd Hlt]. unfold stock_ids_ok, insert_stock_item, bump_id, set_stock_items. simpl.
  rewrite map_app. simpl. rewrite Hmk. split.
  - apply NoDup_app; [exact Hnd|constructor; [intros []|constructor]|].
    intros x Hx [<-|[]]. apply in_map_iff in Hx as [it [Heq Hin]].
    rewrite Forall_forall in Hlt. specialize (Hlt it Hin). lia.
  - apply Forall_app. split.
    + eapply Forall_impl; [|exact Hlt]. intros x Hx. simpl in Hx |- *. lia.
    + constructor; [rewrite Hmk; simpl; lia|constructor].
Qed.

Lemma first_item_filter (bid : Z) (n : string) (w : World) :
  first_item bid n w =
  hd_error (filter (fun it => (si_business_id it =? bid) && String.eqb (si_name it) n)
                   (stock_items w)).
Proof. reflexivity. Qed.

Lemma insert_first_item (bid : Z) (n : string) (w : World) (mk : Z -> StockItem) :
  first_item bid n w = None ->
  si_business_id (mk (next_id w)) = bid -> si_name (mk (next_id w)) = n ->
  first_item bid n (insert_stock_item mk w) = Some (mk (next_id w)) /\
  forall n', n' <> n -> first_item bid n' (insert_stock_item mk w) = first_item bid n' w.
Proof.
  intros Hnone Hb Hn. unfold first_item, insert_stock_item, bump_id, set_stock_items in *.
  simpl. rewrite !filter_app. simpl. split.
  - destruct (filter _ (stock_items w)); [|discriminate]. simpl.
    rewrite Hb, Hn, Z.eqb_refl, String.eqb_refl. reflexivity.
  - intros n' Hne. rewrite filter_app. simpl. rewrite Hn.
    destruct (String.eqb_spec n n'); [congruence|]. rewrite andb_false_r. simpl.
    rewrite app_nil_r. reflexivity.
Qed.

Lemma sync_row_unparsed py b now w r :
  parse_row py r = None -> sync_row py b now w r = w.
Proof. intros H. unfold sync_row. now rewrite H. Qed.

(** The effect of one iteration of [sync_stock_to_supabase] on a row that
    parses: the item of that name afterwards holds the sheet quantity, the
    items of other names are untouched, and a movement is appended exactly
    when a stored row exists whose quantity differs. *)
Lemma sync_row_parsed py b now w r name qty th ro :
  stock_ids_ok w -> parse_row py r = Some (name, qty, th, ro) ->
  stock_ids_ok (sync_row py b now w r) /\
  agrees (biz_id b) name qty (sync_row py b now w r) /\
  (forall n', n' <> name ->
     first_item (biz_id b) n' (sync_row py b now w r) = first_item (biz_id b) n' w) /\
  stock_movements (sync_row py b now w r) =
    (stock_movements w ++
     match first_item (biz_id b) name w with
     | Some e =>
         if Qeq_bool qty (si_current_quantity e) then []
         else [{| mv_business_id := biz_id b; mv_item_name := name;
                  mv_quantity_change := (qty - si_current_quantity e)%Q;
                  mv_new_quantity := qty; mv_type := "sheet_update";
                  mv_recorded_at := now |}]
     | None => []
     end)%list.
Proof.
  intros Hok Hp. unfold sync_row. rewrite Hp.
  destruct (first_item (biz_id b) name w) as [e|] eqn:He.
  - pose proof He as He'. rewrite first_item_filter in He'.
    destruct (filter _ (stock_items w)) as [|e0 l] eqn:Ef; [discriminate|].
    simpl in He'. inversion He'; subst e0. clear He'.
    set (f := fun it : StockItem =>
      {| si_id := si_id it; si_business_id := si_business_id it;
         si_name := si_name it; si_current_quantity := qty;
         si_unit := get_default (row_get r "Unit") "";
         si_reorder_threshold := th; si_reorder_quantity := ro;
         si_supplier_name := si_supplier_name it;
         si_supplier_whatsapp := si_supplier_whatsapp it;
         si_last_updated := now |}).
    assert (Hk : keeps_key f) by (intros it; repeat split).
    destruct (update_first_item (biz_id b) name w e f Hok Hk He) as [Hself Hother].
    pose proof (update_ids_ok w (si_id e) f Hk Hok) as Hok'.
    destruct (Qeq_bool qty (si_current_quantity e)) eqn:Eq; simpl.
    + rewrite app_nil_r. split; [exact Hok'|]. split.
      * exists (f e). split; [exact Hself|]. simpl. apply Qeq_refl.
      * split; [exact Hother|reflexivity].
    + unfold insert_movement. split.
      * destruct Hok' as [H1 H2]. split; exact H1 || exact H2.
      * split; [|split].
        -- exists (f e). split; [exact Hself|]. simpl. apply Qeq_refl.
        -- intros n' Hne. rewrite <- (Hother n' Hne). reflexivity.
        -- reflexivity.
  - rewrite first_item_filter in He.
    destruct (filter _ (stock_items w)) as [|e0 l] eqn:Ef; [|discriminate].
    assert (Hnone : first_item (biz_id b) name w = None) by (now rewrite first_item_filter, Ef).
    set (mk := fun id =>
      {| si_id := id; si_business_id := biz_id b; si_name := name;
         si_current_quantity := qty; si_unit := get_default (row_get r "Unit") "";
         si_reorder_threshold := th; si_reorder_quantity := ro;
         si_supplier_name := get_default (row_get r "Supplier Name") "";
         si_supplier_whatsapp := get_default (row_get r "Supplier WhatsApp") "";
         si_last_updated := now |}).
    destruct (insert_first_item (biz_id b) name w mk Hnone eq_refl eq_refl) as [Hself Hother].
    split; [apply insert_ids_ok; [reflexivity|exact Hok]|].
    split; [|split].
    + exists (mk (next_id w)). split; [exact Hself|]. simpl. apply Qeq_refl.
    + exact Hother.
    + simpl. rewrite app_nil_r. reflexivity.
Qed.

Lemma parsed_entries_cons py r rows :
  parsed_entries py (r :: rows) =
  ((match parse_row py r with Some (name, qty, _, _) => [(name, qty)] | None => [] end)
   ++ parsed_entries py rows)%list.
Proof. reflexivity. Qed.

(** Rows whose names are not [n] leave the item [n] alone. *)
Lemma sync_other py b rows now w n :
  stock_ids_ok w -> ~ In n (map fst (parsed_entries py rows)) ->
  stock_ids_ok (sync_stock_to_supabase py b rows now w) /\
  first_item (biz_id b) n (sync_stock_to_supabase py b rows now w) = first_item (biz_id b) n w.
Proof.
  unfold sync_stock_to_supabase.
  revert w. induction rows as [|r rows IH]; intros w Hok Hn; [split; auto|].
  simpl fold_left. rewrite parsed_entries_cons in Hn.
  destruct (parse_row py r) as [[[[name qty] th] ro]|] eqn:Hp.
  - simpl in Hn.
    destruct (sync_row_parsed py b now w r name qty th ro Hok Hp) as [Hok1 [_ [Hoth _]]].
    destruct (IH _ Hok1 (fun H => Hn (or_intror H))) as [Hok2 Heq].
    split; [exact Hok2|]. rewrite Heq. apply Hoth. intros ->. apply Hn. now left.
  - rewrite (sync_row_unparsed py b now w r Hp). now apply IH.
Qed.

(** After a run over rows with distinct names, every row's item holds its
    sheet quantity. *)
Lemma sync_establishes py b rows now w :
  stock_ids_ok w -> NoDup (map fst (parsed_entries py rows)) ->
  stock_ids_ok (sync_stock_to_supabase py b rows now w) /\
  Forall (fun '(n, q) => agrees (biz_id b) n q (sync_stock_to_supabase py b rows now w))
         (parsed_entries py rows).
Proof.
  unfold sync_stock_to_supabase.
  revert w. induction rows as [|r rows IH]; intros w Hok Hnd; [split; auto|].
  simpl fold_left. rewrite parsed_entries_cons in *.
  destruct (parse_row py r) as [[[[name qty] th] ro]|] eqn:Hp.
  - simpl in Hnd |- *. inversion Hnd as [|? ? Hnin Hnd']; subst.
    destruct (sync_row_parsed py b now w r name qty th ro Hok Hp) as [Hok1 [Hag _]].
    destruct (IH _ Hok1 Hnd') as [Hok2 Hall].
    split; [exact Hok2|]. constructor; [|exact Hall].
    pose proof (sync_other py b rows now (sync_row py b now w r) name Hok1 Hnin) as [_ Heq].
    unfold sync_stock_to_supabase in Heq. destruct Hag as [e [He Hq]].
    exists e. split; [now rewrite Heq|exact Hq].
  - simpl. rewrite (sync_row_unparsed py b now w r Hp). now apply IH.
Qed.

(** A run over rows that all agree with the store appends no movement. *)
Lemma sync_keeps_movements py b rows now w :
  stock_ids_ok w -> NoDup (map fst (parsed_entries py rows)) ->
  Forall (fun '(n, q) => agrees (biz_id b) n q w) (parsed_entries py rows) ->
  stock_movements (sync_stock_to_supabase py b rows now w) = stock_movements w.
Proof.
  unfold sync_stock_to_supabase.
  revert w. induction rows as [|r rows IH]; intros w Hok Hnd Hall; [reflexivity|].
  simpl fold_left. rewrite parsed_entries_cons in *.
  destruct (parse_row py r) as [[[[name qty] th] ro]|] eqn:Hp.
  - simpl in Hnd, Hall. inversion Hnd as [|? ? Hnin Hnd']; subst.
    inversion Hall as [|? ? Hag Hall']; subst.
    destruct (sync_row_parsed py b now w r name qty th ro Hok Hp) as [Hok1 [_ [Hoth Hmv]]].
    rewrite (IH _ Hok1 Hnd').
    + rewrite Hmv. destruct Hag as [e [He Hq]]. rewrite He.
      assert (Qeq_bool qty (si_current_quantity e) = true) as ->
        by (apply Qeq_bool_iff; now apply Qeq_sym).
      apply app_nil_r.
    + rewrite Forall_forall in Hall' |- *. intros [n q] Hin.
      specialize (Hall' (n, q) Hin). destruct Hall' as [e [He Hq]].
      exists e. split; [|exact Hq]. rewrite Hoth; [exact He|].
      intros ->. apply Hnin. now apply (in_map fst _ (name, q)).
  - rewrite (sync_row_unparsed py b now w r Hp). now apply IH.
Qed.

(** The alerts computed by [check_stock_levels] read the store only
    through the stock movements. *)
Lemma check_stock_levels_movements py b rows now w1 w2 :
  stock_movements w1 = stock_movements w2 ->
  check_stock_levels py b rows now w1 = check_stock_levels py b rows now w2.
Proof.
  intros Hm. unfold check_stock_levels. apply flat_map_ext. intros r.
  destruct (parse_row py r) as [[[[name qty] th] ro]|]; [|reflexivity].
  unfold predict_stockout, window_movements. rewrite Hm. reflexivity.
Qed.

(** Claim C4 (amended).  When the names of the rows that
    [sync_stock_to_supabase] processes are pairwise distinct, a second run
    over the same rows (at any later time) appends no stock movement and
    leaves the alerts of [check_stock_levels] unchanged at every clock
    reading.  Within one upsert, a movement is appended exactly when a
    stored row for the business and name exists and its quantity differs
    from the sheet quantity. *)
Theorem sync_idempotent_distinct (py : string -> option Q) (b : Business) (rows : list Row)
  (now now' : Z) (w : World) :
  stock_ids_ok w -> NoDup (map fst (parsed_entries py rows)) ->
  let w1 := sync_stock_to_supabase py b rows now w in
  let w2 := sync_stock_to_supabase py b rows now' w1 in
  stock_movements w2 = stock_movements w1 /\
  (forall t, check_stock_levels py b rows t w2 = check_stock_levels py b rows t w1) /\
  (forall r name qty th ro, parse_row py r = Some (name, qty, th, ro) ->
     (length (stock_movements (sync_row py b now w r)) = length (stock_movements w) + 1)%nat <->
     exists e, first_item (biz_id b) name w = Some e /\ ~ (si_current_quantity e == qty)%Q).
Proof.
  intros Hok Hnd w1 w2.
  destruct (sync_establishes py b rows now w Hok Hnd) as [Hok1 Hall].
  assert (Hm : stock_movements w2 = stock_movements w1)
    by exact (sync_keeps_movements py b rows now' w1 Hok1 Hnd Hall).
  split; [exact Hm|]. split.
  - intros t. now apply check_stock_levels_movements.
  - intros r name qty th ro Hp.
    destruct (sync_row_parsed py b now w r name qty th ro Hok Hp) as [_ [_ [_ Hmv]]].
    rewrite Hmv, length_app.
    destruct (first_item (biz_id b) name w) as [e|].
    + destruct (Qeq_bool qty (si_current_quantity e)) eqn:Eq; simpl.
      * apply Qeq_bool_iff in Eq. split; [lia|].
        intros [e' [He' Hne]]. inversion He'; subst. exfalso. exact (Hne (Qeq_sym _ _ Eq)).
      * split; [|lia]. intros _. exists e. split; [reflexivity|].
        intros Hq. apply Qeq_sym, Qeq_bool_iff in Hq. congruence.
    + simpl. split; [lia|]. intros [e' [He' _]]. discriminate.
Qed.

Lemma sync_idempotent_distinct_witness :
  stock_ids_ok (empty_world [demo_business]) /\
  NoDup (map fst (parsed_entries float_demo [demo_row "3"])) /\
  stock_movements
    (sync_stock_to_supabase float_demo demo_business [demo_row "3"] 2000
       (sync_stock_to_supabase float_demo demo_business [demo_row "3"] 1000
          (empty_world [demo_business]))) =
  stock_movements
    (sync_stock_to_supabase float_demo demo_business [demo_row "3"] 1000
       (empty_world [demo_business])).
Proof.
  assert (Hok : stock_ids_ok (empty_world [demo_business])) by (split; constructor).
  assert (Hnd : NoDup (map fst (parsed_entries float_demo [demo_row "3"])))
    by (vm_compute; constructor; [intros []|constructor]).
  split; [exact Hok|]. split; [exact Hnd|].
  exact (proj1 (sync_idempotent_distinct float_demo demo_business [demo_row "3"] 1000 2000
                  (empty_world [demo_business]) Hok Hnd)).
Defined.

(** Counterexample to claim C4 as stated: a sheet listing the same item
    twice with different quantities is unchanged between two runs, yet the
    second run appends two movements (the stored quantity flips 7 -> 5 -> 7). *)
Lemma sync_duplicate_rows_moves :
  let rows := [demo_row "5"; demo_row "7"] in
  let w1 := sync_stock_to_supabase float_demo demo_business rows 1000
              (empty_world [demo_business]) in
  let w2 := sync_stock_to_supabase float_demo demo_business rows 2000 w1 in
  (length (stock_movements w1) = 1 /\ length (stock_movements w2) = 3)%nat.
Proof. vm_compute. split; reflexivity. Qed.

(** ** Matching the item of an [order] command *)

Lemma plain_char_lower (c : ascii) :
  plain_char c = true -> plain_char (ascii_lower c) = true.
Proof.
  destruct c as [b0 b1 b2 b3 b4 b5 b6 b7].
  destruct b0, b1, b2, b3, b4, b5, b6, b7; vm_compute; congruence.
Qed.

Lemma plain_lower (s : string) : plain s = true -> plain (py_lower s) = true.
Proof.
  induction s as [|c s IH]; [reflexivity|]. simpl. intros H.
  apply andb_prop in H as [Hc Hs]. now rewrite plain_char_lower, IH.
Qed.

Lemma like_match_any (t : string) : like_match "%" t = true.
Proof.
  induction t as [|d t IH]; [reflexivity|].
  change (like_match "" (String d t) || like_match "%" t = true).
  now rewrite IH, orb_true_r.
Qed.

Lemma like_match_prefix (p t : string) :
  plain p = true -> like_match (p ++ "%") t = String.prefix p t.
Proof.
  revert t. induction p as [|c p IH]; intros t Hp.
  - change (EmptyString ++ "%") with "%". rewrite like_match_any. now destruct t.
  - simpl in Hp. apply andb_prop in Hp as [Hc Hp].
    unfold plain_char in Hc. apply andb_prop in Hc as [Hc H3].
    apply andb_prop in Hc as [H1 H2]. apply negb_true_iff in H1, H2, H3.
    simpl. rewrite H1, H2, H3. destruct t as [|d t]; [reflexivity|].
    rewrite IH by exact Hp. simpl.
    destruct (Ascii.eqb_spec c d), (ascii_dec c d); subst; simpl; congruence.
Qed.

Lemma like_match_infix (p t : string) :
  plain p = true -> like_match ("%" ++ p ++ "%") t = py_in p t.
Proof.
  intros Hp. induction t as [|d t IH].
  - change (like_match (p ++ "%") "" || false = py_in p "").
    rewrite like_match_prefix by exact Hp. destruct p; reflexivity.
  - change (like_match (p ++ "%") (String d t) || like_match ("%" ++ p ++ "%") t
            = py_in p (String d t)).
    rewrite IH, like_match_prefix by exact Hp. reflexivity.
Qed.

Lemma py_lower_app (a b : string) : py_lower (a ++ b) = (py_lower a ++ py_lower b)%string.
Proof. induction a as [|c a IH]; [reflexivity|]. simpl. now rewrite IH. Qed.

(** For an item name without [LIKE] metacharacters, the stock query of
    [handle_order_command] selects the business's items whose lowered name
    contains the lowered item name. *)
Lemma order_match_plain (item_name column : string) :
  plain item_name = true ->
  ilike column ("%" ++ item_name ++ "%") = py_in (py_lower item_name) (py_lower column).
Proof.
  intros H. unfold ilike.
  assert (Hl : py_lower ("%" ++ item_name ++ "%") = ("%" ++ py_lower item_name ++ "%")).
  { rewrite !py_lower_app. reflexivity. }
  rewrite Hl. apply like_match_infix, plain_lower, H.
Qed.

(** Claim C8 (code bug).  The item name of [order <item>] is put into an
    [ILIKE] pattern unescaped, so [_], [%] and [*] in it act as wildcards:
    "order oil_filters" and "order %" each create a pending purchase order
    for "Oil Filters", although neither item name is a substring of it. *)
Theorem order_item_wildcard :
  py_in (py_lower "oil_filters") (py_lower (si_name demo_item)) = false /\
  py_in (py_lower "%") (py_lower (si_name demo_item)) = false /\
  map (fun pa => (pa_action_type pa, pa_item_name pa, pa_status pa))
      (pending_actions (snd (webhook repr_demo float_demo true demo_gateways
                               "order oil_filters" "whatsapp:+971500000000" 5 order_world)))
  = [("purchase_order", Some "Oil Filters", "pending");
     ("purchase_order", Some "Oil Filters", "pending")] /\
  map (fun pa => (pa_action_type pa, pa_item_name pa, pa_status pa))
      (pending_actions (snd (webhook repr_demo float_demo true demo_gateways
                               "order %" "whatsapp:+971500000000" 5 order_world)))
  = [("purchase_order", Some "Oil Filters", "pending");
     ("purchase_order", Some "Oil Filters", "pending")].
Proof. vm_compute. repeat split. Qed.

(** ** Replies of the webhook *)

(** For a registered sender, [webhook] of the model without Twilio
    failures answers with an envelope
    holding exactly one text reply, whatever the command and whatever the
    Sheets, Places and LLM gateways return.  When no command handles the
    message, a failed LLM call gives the apology with the error detail
    inlined. *)
Lemma webhook_one_reply (repr_float : Q -> string)
  (py_float : string -> option Q) (twilio_ready : bool) (gw : Gateways)
  (body sender : string) (now : Z) (w : World) (b : Business) :
  get_business sender w = Some b ->
  (exists r w', webhook repr_float py_float twilio_ready gw body sender now w = ([r], w')) /\
  (forall e,
     fst (route repr_float py_float twilio_ready gw b (py_strip body)
                (py_lower (py_strip body)) now w) = None ->
     gw_llm gw (Chat (chat_system b) (py_strip body)) = LlmError e ->
     webhook repr_float py_float twilio_ready gw body sender now w
     = (["Sorry, I couldn't reach the AI: " ++ e],
        snd (route repr_float py_float twilio_ready gw b (py_strip body)
                   (py_lower (py_strip body)) now w))).
Proof.
  intros Hb. unfold webhook. rewrite Hb.
  destruct (route repr_float py_float twilio_ready gw b (py_strip body)
                  (py_lower (py_strip body)) now w) as [reply w1].
  split.
  - eauto.
  - intros e Hnone Hllm. simpl in Hnone. subst reply.
    unfold chat_reply. now rewrite Hllm.
Qed.

Lemma in_strings_send_order (m : string) :
  in_strings m ["send order"; "yes send"; "send it"] = true -> startswith m "order " = false.
Proof.
  unfold in_strings. cbn [existsb]. intros H.
  destruct (String.eqb m "send order") eqn:E1;
    [apply String.eqb_eq in E1; subst m; reflexivity|].
  destruct (String.eqb m "yes send") eqn:E2;
    [apply String.eqb_eq in E2; subst m; reflexivity|].
  destruct (String.eqb m "send it") eqn:E3;
    [apply String.eqb_eq in E3; subst m; reflexivity|].
  discriminate H.
Qed.

Lemma send_whatsapp_r_accepts (twilio_ready : bool)
  (twilio_error : string -> string -> option string) (to msg : string) (w : World) :
  (twilio_ready = false \/ twilio_error (whatsapp_addr to) msg = None) ->
  send_whatsapp_r twilio_ready twilio_error to msg w
  = Ret tt (send_whatsapp twilio_ready to msg w).
Proof.
  unfold send_whatsapp_r, send_whatsapp, whatsapp_addr.
  intros [->|H]; [reflexivity|]. destruct twilio_ready; [|reflexivity].
  cbn [negb]. cbv zeta. now rewrite H.
Qed.

Lemma handle_send_order_r_accepts (twilio_ready : bool)
  (twilio_error : string -> string -> option string) (b : Business) (w : World) :
  (forall to msg, twilio_error to msg = None) ->
  handle_send_order_r twilio_ready twilio_error b w
  = Ret (fst (handle_send_order twilio_ready b w)) (snd (handle_send_order twilio_ready b w)).
Proof.
  intros H. unfold handle_send_order_r, handle_send_order.
  destruct (pending_of b "purchase_order" w) as [|a rest]; [reflexivity|].
  destruct (String.eqb _ ""); [reflexivity|].
  rewrite send_whatsapp_r_accepts by (right; apply H). reflexivity.
Qed.

(** When Twilio raises for no message, [webhook] answers 200 with the
    envelope of the model without failures: one text reply for a
    registered sender. *)
Lemma webhook_r_accepts (repr_float : Q -> string) (py_float : string -> option Q)
  (twilio_ready : bool) (twilio_error : string -> string -> option string) (gw : Gateways)
  (body sender : string) (now : Z) (w : World) :
  (forall to msg, twilio_error to msg = None) ->
  webhook_r repr_float py_float twilio_ready twilio_error gw body sender now w
  = (Http200 (fst (webhook repr_float py_float twilio_ready gw body sender now w)),
     snd (webhook repr_float py_float twilio_ready gw body sender now w)).
Proof.
  intros H. unfold webhook_r, webhook. cbv zeta.
  destruct (get_business sender w) as [b|]; [|reflexivity].
  unfold route_r.
  destruct (negb (startswith (py_lower (py_strip body)) "order ")
            && in_strings (py_lower (py_strip body)) ["send order"; "yes send"; "send it"])
    eqn:Hc.
  - apply andb_prop in Hc as [Ho Hs]. apply negb_true_iff in Ho.
    rewrite (handle_send_order_r_accepts twilio_ready twilio_error b w H).
    unfold route. rewrite Ho, Hs.
    destruct (handle_send_order twilio_ready b w). reflexivity.
  - destruct (route _ _ _ _ _ _ _ _ _). reflexivity.
Qed.

(** Claim C6 fails: for a registered owner whose first pending purchase
    order has a supplier address that Twilio refuses, [send order] makes
    [handle_send_order] raise; [webhook] does not catch it, so Flask
    answers 500 instead of a reply envelope, with the tables unchanged. *)
Theorem webhook_send_order_http500 (repr_float : Q -> string) (py_float : string -> option Q)
  (twilio_error : string -> string -> option string) (gw : Gateways) (body sender : string)
  (now : Z) (w : World) (b : Business) (a : PendingAction) (rest : list PendingAction)
  (e : string) :
  get_business sender w = Some b ->
  in_strings (py_lower (py_strip body)) ["send order"; "yes send"; "send it"] = true ->
  pending_of b "purchase_order" w = a :: rest ->
  item_supplier_whatsapp (pa_item_data a) <> "" ->
  twilio_error (whatsapp_addr (item_supplier_whatsapp (pa_item_data a)))
               (get_default (pa_draft_reply a) "") = Some e ->
  webhook_r repr_float py_float true twilio_error gw body sender now w = (Http500, w).
Proof.
  intros Hb Hs Hp Hwa He. unfold webhook_r. cbv zeta. rewrite Hb. unfold route_r.
  rewrite (in_strings_send_order _ Hs), Hs. simpl.
  rewrite (handle_send_order_r_send true twilio_error b w a rest Hp Hwa), He.
  reflexivity.
Qed.

Lemma webhook_send_order_http500_witness :
  webhook_r repr_demo float_demo true twilio_demo_error demo_gateways "send order"
    "whatsapp:+971500000000" 0 order_world_ali = (Http500, order_world_ali).
Proof.
  apply (webhook_send_order_http500 repr_demo float_demo twilio_demo_error demo_gateways
           "send order" "whatsapp:+971500000000" 0 order_world_ali demo_business demo_po_ali []
           "Unable to create record: Invalid 'To' Phone Number").
  - vm_compute. reflexivity.
  - vm_compute. reflexivity.
  - vm_compute. reflexivity.
  - vm_compute. discriminate.
  - vm_compute. reflexivity.
Defined.

(** The same message when Twilio accepts the supplier's address: the
    order is sent and the owner gets the confirmation. *)
Example webhook_send_order_accepted_demo :
  webhook_r repr_demo float_demo true twilio_demo_error demo_gateways "send order"
    "whatsapp:+971500000000" 0 order_world
  = (Http200 ["✅ Order sent to Ali!"],
     snd (webhook repr_demo float_demo true demo_gateways "send order"
            "whatsapp:+971500000000" 0 order_world)).
Proof. vm_compute. reflexivity. Qed.

(** The free-form chat fallback on a failed LLM call, evaluated. *)
Example webhook_chat_fallback_demo :
  fst (webhook repr_demo float_demo true demo_gateways "hello" "whatsapp:+971500000000"
         0 (empty_world [demo_business]))
  = ["Sorry, I couldn't reach the AI: timeout"].
Proof. vm_compute. reflexivity. Qed.

(** ** First review check of a business *)

Lemma monitor_step_backfill_outbox (mt : bool) biz rid w rev :
  outbox (ReviewMonitor.monitor_step mt biz rid true w rev) = outbox w.
Proof.
  unfold ReviewMonitor.monitor_step. destruct (seen _ w); reflexivity.
Qed.

(** In [review_monitor.py], a business without SeenReview rows gets no
    WhatsApp message from the run that stores its reviews. *)
Lemma monitor_business_backfill_silent (mt : bool) mg w biz :
  existsb (fun s => sr_business_id s =? biz_id biz) (seen_reviews w) = false ->
  outbox (ReviewMonitor.monitor_business mt mg w biz) = outbox w.
Proof.
  intros H. unfold ReviewMonitor.monitor_business.
  destruct (biz_place_id biz) as [place_id|]; [|reflexivity].
  destruct (String.eqb place_id ""); [reflexivity|].
  destruct (ReviewMonitor.mg_get_place_reviews mg _) as [reviews err].
  destruct (truthy_str err); [reflexivity|].
  destruct reviews as [[|r revs]|]; try reflexivity.
  rewrite H. simpl negb. generalize (r :: revs). intros l. clear H. revert w.
  induction l as [|x l IH]; intros w; [reflexivity|]. simpl.
  rewrite IH. apply monitor_step_backfill_outbox.
Qed.

(** Claim C1 (code bug).  [review_monitor.run_review_check] treats the first
    run for a business as a backfill: it stores the reviews and sends no
    WhatsApp message; the next run alerts for the one new review only.  The
    scheduled [check_reviews_for_all_businesses] of [app.py] has no backfill:
    on the same first run it stores the two reviews and sends the owner two
    alerts (and drafts two review_reply actions). *)
Theorem app_review_check_no_backfill :
  let w0 := empty_world [demo_business] in
  let revs := [demo_review "Sara" 100; demo_review "Omar" 200] in
  let revs' := (revs ++ [demo_review "Lina" 300])%list in
  let w1 := check_reviews_for_all_businesses true (review_gateways revs) 1000 w0 in
  let w2 := check_reviews_for_all_businesses true (review_gateways revs') 2000 w1 in
  let mrevs := [demo_mreview "Sara" "Great service"; demo_mreview "Omar" "Quick fix"] in
  let mrevs' := (mrevs ++ [demo_mreview "Lina" "Friendly staff"])%list in
  let m1 := ReviewMonitor.run_review_check true (monitor_gateways mrevs) w0 in
  let m2 := ReviewMonitor.run_review_check true (monitor_gateways mrevs') m1 in
  (length (seen_reviews w1) = 2 /\ length (outbox w1) = 2 /\
   length (pending_actions w1) = 2 /\ length (outbox w2) = 3 /\
   length (seen_reviews m1) = 2 /\ length (outbox m1) = 0 /\
   length (seen_reviews m2) = 3 /\ length (outbox m2) = 1)%nat.
Proof. vm_compute. repeat split. Qed.

(** ** String lemmas *)

Lemma prefix_nil (s : string) : String.prefix "" s = true.
Proof. now destruct s. Qed.

Lemma str_app_nil_r (s : string) : (s ++ "")%string = s.
Proof. induction s as [|c s IH]; [reflexivity|]. simpl. now rewrite IH. Qed.

Lemma str_app_assoc (a b c : string) : ((a ++ b) ++ c)%string = (a ++ (b ++ c))%string.
Proof. induction a as [|x a IH]; [reflexivity|]. simpl. now rewrite IH. Qed.

Lemma str_length_app (a b : string) :
  String.length (a ++ b) = (String.length a + String.length b)%nat.
Proof. induction a as [|x a IH]; [reflexivity|]. simpl. now rewrite IH. Qed.

Lemma substring_0_length (s : string) : substring 0 (String.length s) s = s.
Proof. induction s as [|c s IH]; [reflexivity|]. simpl. now rewrite IH. Qed.

Lemma substring_app_l (a b : string) n m :
  substring (String.length a + n) m (a ++ b) = substring n m b.
Proof. induction a as [|c a IH]; [reflexivity|]. simpl. exact IH. Qed.

Lemma substring_0_app (a b : string) k :
  (String.length a <= k)%nat ->
  substring 0 k (a ++ b) = (a ++ substring 0 (k - String.length a) b)%string.
Proof.
  revert k. induction a as [|c a IH]; intros k Hk.
  - simpl. now rewrite Nat.sub_0_r.
  - destruct k as [|k]; simpl in Hk; [lia|]. simpl. rewrite IH by lia. reflexivity.
Qed.

Lemma drop_app (a b : string) : drop (String.length a) (a ++ b) = b.
Proof.
  unfold drop. rewrite str_length_app, <- (Nat.add_0_r (String.length a)) at 1.
  rewrite substring_app_l.
  replace (String.length a + String.length b - String.length a)%nat with (String.length b) by lia.
  apply substring_0_length.
Qed.

Lemma rev_string_app (a b : string) :
  rev_string (a ++ b) = (rev_string b ++ rev_string a)%string.
Proof.
  induction a as [|c a IH]; simpl.
  - now rewrite str_app_nil_r.
  - now rewrite IH, str_app_assoc.
Qed.

Lemma rev_string_involutive (s : string) : rev_string (rev_string s) = s.
Proof.
  induction s as [|c s IH]; [reflexivity|]. simpl. rewrite rev_string_app, IH. reflexivity.
Qed.

Lemma las_app (a b : string) :
  list_ascii_of_string (a ++ b) = (list_ascii_of_string a ++ list_ascii_of_string b)%list.
Proof. induction a as [|c a IH]; [reflexivity|]. simpl. now rewrite IH. Qed.

Lemma forallb_rev_string (f : ascii -> bool) (s : string) :
  forallb f (list_ascii_of_string (rev_string s)) = forallb f (list_ascii_of_string s).
Proof.
  induction s as [|c s IH]; [reflexivity|]. simpl. rewrite las_app, forallb_app, IH. simpl.
  now rewrite andb_true_r, andb_comm.
Qed.

Lemma lstrip_nospace (s : string) :
  forallb (fun c => negb (is_py_space c)) (list_ascii_of_string s) = true -> lstrip s = s.
Proof.
  destruct s as [|c s]; [reflexivity|]. simpl. intros H. apply andb_prop in H as [H _].
  apply negb_true_iff in H. now rewrite H.
Qed.

Lemma py_strip_nospace (s : string) :
  forallb (fun c => negb (is_py_space c)) (list_ascii_of_string s) = true -> py_strip s = s.
Proof.
  intros H. unfold py_strip. rewrite (lstrip_nospace s H).
  rewrite lstrip_nospace; [apply rev_string_involutive|]. now rewrite forallb_rev_string.
Qed.

Lemma py_in_str_index (p s : string) :
  py_in p s = true <-> exists i, str_index p s = Some i.
Proof.
  induction s as [|c s IH].
  - destruct p as [|x p]; simpl; split; intros H; eauto; try discriminate.
    destruct H as [i Hi]. discriminate.
  - change (py_in p (String c s)) with
      (if String.prefix p (String c s) then true else py_in p s).
    change (str_index p (String c s)) with
      (if String.prefix p (String c s) then Some O else option_map S (str_index p s)).
    destruct (String.prefix p (String c s)); [split; eauto|].
    rewrite IH. split; intros [i Hi].
    + exists (S i). now rewrite Hi.
    + destruct (str_index p s) as [j|]; [eauto|discriminate].
Qed.

Lemma prefix_char_neq (x c : ascii) (s : string) :
  Ascii.eqb c x = false -> String.prefix (String x "") (String c s) = false.
Proof.
  intros H. simpl. destruct (ascii_dec x c) as [->|]; [|reflexivity].
  now rewrite Ascii.eqb_refl in H.
Qed.

Lemma str_index_char_app (x : ascii) (a b : string) :
  forallb (fun c => negb (Ascii.eqb c x)) (list_ascii_of_string a) = true ->
  str_index (String x "") (a ++ b) = option_map (Nat.add (String.length a)) (str_index (String x "") b)
  /\ py_in (String x "") (a ++ b) = py_in (String x "") b.
Proof.
  induction a as [|c a IH]; intros H.
  - change ("" ++ b)%string with b. simpl String.length.
    split; [destruct (str_index _ b); reflexivity|reflexivity].
  - simpl in H. apply andb_prop in H as [Hc Ha]. apply negb_true_iff in Hc.
    change (String c a ++ b)%string with (String c (a ++ b)).
    change (str_index (String x "") (String c (a ++ b))) with
      (if String.prefix (String x "") (String c (a ++ b)) then Some O
       else option_map S (str_index (String x "") (a ++ b))).
    change (py_in (String x "") (String c (a ++ b))) with
      (if String.prefix (String x "") (String c (a ++ b)) then true
       else py_in (String x "") (a ++ b)).
    rewrite (prefix_char_neq x c _ Hc). destruct (IH Ha) as [H1 H2]. rewrite H1, H2.
    split; [|reflexivity]. destruct (str_index _ b); reflexivity.
Qed.

Lemma split_first_app (sep : ascii) (a b : string) :
  forallb (fun c => negb (Ascii.eqb c sep)) (list_ascii_of_string a) = true ->
  split_first sep (a ++ b) = (a ++ split_first sep b)%string.
Proof.
  induction a as [|c a IH]; simpl; intros H; [reflexivity|].
  apply andb_prop in H as [Hc Ha]. apply negb_true_iff in Hc. rewrite Hc, IH; auto.
Qed.

Lemma sheet_id_char_facts (c : ascii) :
  sheet_id_char c = true ->
  negb (Ascii.eqb c "/"%char) = true /\ negb (Ascii.eqb c "?"%char) = true /\
  negb (is_py_space c) = true.
Proof.
  destruct c as [b0 b1 b2 b3 b4 b5 b6 b7].
  destruct b0, b1, b2, b3, b4, b5, b6, b7; vm_compute; intros H;
    solve [discriminate | repeat split].
Qed.

Lemma forallb_weaken (f g : ascii -> bool) (l : list ascii) :
  (forall c, f c = true -> g c = true) -> forallb f l = true -> forallb g l = true.
Proof.
  intros Hfg. rewrite !forallb_forall. intros H c Hc. now apply Hfg, H.
Qed.

Lemma str_index_docs_prefix (x : string) :
  str_index "/d/" ("https://docs.google.com/spreadsheets/d/" ++ x) = Some 36%nat.
Proof. destruct x; reflexivity. Qed.

(** [_sheet_id_from_url] returns [None] exactly for the URLs without
    ["/d/"]; its [except] branch is never reached. *)
Theorem sheet_id_from_url_none (url : string) :
  sheet_id_from_url url = None <-> py_in "/d/" url = false.
Proof.
  unfold sheet_id_from_url. split.
  - destruct (String.eqb_spec url "") as [->|Hne]; [reflexivity|].
    destruct (py_in "/d/" url) eqn:Hin; [|reflexivity]. simpl.
    apply py_in_str_index in Hin as [i Hi]. rewrite Hi. discriminate.
  - intros ->. now rewrite orb_true_r.
Qed.

(** The id of a Google Sheets URL: the document id after
    [https://docs.google.com/spreadsheets/d/], followed by nothing, by a
    path ([/edit...]) or by a query ([?usp=...]), comes back unchanged. *)
Theorem sheet_id_from_url_roundtrip (id tail : string) :
  forallb sheet_id_char (list_ascii_of_string id) = true ->
  (tail = "" \/ exists t, tail = String "/" t \/ tail = String "?" t) ->
  sheet_id_from_url ("https://docs.google.com/spreadsheets/d/" ++ id ++ tail) = Some id.
Proof.
  intros Hid Htail.
  set (P := "https://docs.google.com/spreadsheets/d/").
  assert (Hslash := forallb_weaken _ (fun c => negb (Ascii.eqb c "/"%char)) _
                      (fun c H => proj1 (sheet_id_char_facts c H)) Hid).
  assert (Hq := forallb_weaken _ (fun c => negb (Ascii.eqb c "?"%char)) _
                  (fun c H => proj1 (proj2 (sheet_id_char_facts c H))) Hid).
  assert (Hsp := forallb_weaken _ (fun c => negb (is_py_space c)) _
                   (fun c H => proj2 (proj2 (sheet_id_char_facts c H))) Hid).
  destruct (str_index_char_app "/"%char id tail Hslash) as [Hidx Hin].
  assert (HP : str_index "/d/" (P ++ id ++ tail) = Some 36%nat) by apply str_index_docs_prefix.
  assert (Hd : py_in "/d/" (P ++ id ++ tail) = true) by (apply py_in_str_index; eauto).
  unfold sheet_id_from_url. rewrite Hd, HP.
  replace (String.eqb (P ++ id ++ tail) "") with false by reflexivity. simpl orb. cbv iota.
  replace (36 + 3)%nat with (String.length P + 0)%nat by reflexivity.
  rewrite Nat.add_0_r.
  replace (drop (String.length P) (P ++ id ++ tail)) with (id ++ tail)%string
    by (symmetry; apply drop_app).
  set (url := (P ++ id ++ tail)%string).
  assert (Hcut : forall k, (String.length id <= k)%nat ->
                 substring (String.length P) (k - 0) url
                 = (id ++ substring 0 (k - String.length id) tail)%string).
  { intros k Hk. unfold url. rewrite <- (Nat.add_0_r (String.length P)), substring_app_l.
    rewrite Nat.sub_0_r. now apply substring_0_app. }
  assert (Hlen : String.length url = (String.length P + (String.length id + String.length tail))%nat)
    by (unfold url; now rewrite !str_length_app).
  assert (Hfin : forall y, split_first "?"%char y = "" ->
                 Some (py_strip (split_first "?"%char (id ++ y))) = Some id).
  { intros y Hy. rewrite split_first_app by exact Hq. rewrite Hy, str_app_nil_r.
    f_equal. now apply py_strip_nospace. }
  rewrite Hin, Hidx.
  destruct Htail as [Ht|[t [Ht|Ht]]]; rewrite Ht in Hcut, Hlen; rewrite Ht.
  - change (py_in "/" "") with false. cbv iota. rewrite Hlen.
    change (String.length "") with 0%nat.
    replace (String.length P + (String.length id + 0) - String.length P)%nat
      with (String.length id - 0)%nat by lia.
    rewrite Hcut by lia. apply Hfin. now rewrite Nat.sub_diag.
  - assert (E1 : py_in "/" (String "/" t) = true) by (simpl; now rewrite prefix_nil).
    assert (E2 : str_index "/" (String "/" t) = Some O) by (simpl; now rewrite prefix_nil).
    rewrite E1, E2. cbv iota.
    change (option_map (Nat.add (String.length id)) (Some O)) with
      (Some (String.length id + 0))%nat. cbv iota.
    replace (String.length P + (String.length id + 0) - String.length P)%nat
      with (String.length id - 0)%nat by lia.
    rewrite Hcut by lia. apply Hfin. now rewrite Nat.sub_diag.
  - assert (E1 : py_in "/" (String "?" t) = py_in "/" t).
    { change (py_in "/" (String "?" t)) with
        (if String.prefix "/" (String "?" t) then true else py_in "/" t).
      now rewrite (prefix_char_neq "/"%char "?"%char t eq_refl). }
    assert (E2 : str_index "/" (String "?" t) = option_map S (str_index "/" t)).
    { change (str_index "/" (String "?" t)) with
        (if String.prefix "/" (String "?" t) then Some O else option_map S (str_index "/" t)).
      now rewrite (prefix_char_neq "/"%char "?"%char t eq_refl). }
    rewrite E1, E2.
    assert (Hk : forall k, (String.length id < k)%nat ->
                 Some (py_strip (split_first "?"%char
                        (substring (String.length P) (k - 0) url))) = Some id).
    { intros k Hk. rewrite Hcut by lia. apply Hfin.
      destruct (k - String.length id)%nat as [|m] eqn:E; [lia|]. reflexivity. }
    change (String.length (String "?" t)) with (S (String.length t)) in Hlen.
    destruct (py_in "/" t); cbv iota.
    + destruct (str_index "/" t) as [j|]; cbv iota.
      * change (option_map (Nat.add (String.length id)) (option_map S (Some j)))
          with (Some (String.length id + S j))%nat. cbv iota.
        replace (String.length P + (String.length id + S j) - String.length P)%nat
          with (String.length id + S j - 0)%nat by lia.
        apply Hk. lia.
      * change (option_map (Nat.add (String.length id)) (option_map S None))
          with (@None nat). cbv iota. rewrite Hlen.
        replace (String.length P + (String.length id + S (String.length t))
                 - String.length P)%nat
          with (String.length id + S (String.length t) - 0)%nat by lia.
        apply Hk. lia.
    + rewrite Hlen.
      replace (String.length P + (String.length id + S (String.length t))
               - String.length P)%nat
        with (String.length id + S (String.length t) - 0)%nat by lia.
      apply Hk. lia.
Qed.

Lemma sheet_id_from_url_none_witness :
  py_in "/d/" "https://example.com/sheet" = false /\
  sheet_id_from_url "https://example.com/sheet" = None.
Proof.
  assert (H : py_in "/d/" "https://example.com/sheet" = false) by reflexivity.
  split; [exact H|]. exact (proj2 (sheet_id_from_url_none "https://example.com/sheet") H).
Defined.

Lemma sheet_id_from_url_roundtrip_witness :
  sheet_id_from_url ("https://docs.google.com/spreadsheets/d/" ++ "1AbC-x_9" ++ "/edit#gid=0")
  = Some "1AbC-x_9".
Proof.
  apply sheet_id_from_url_roundtrip; [reflexivity|].
  right. exists "edit#gid=0". left. reflexivity.
Defined.

(** ** The records of [read_stock_sheet] *)

Lemma existsb_key_false (d : Row) (k : string) :
  ~ In k (map fst d) -> existsb (fun kv => String.eqb (fst kv) k) d = false.
Proof.
  intros H. apply not_true_iff_false. intros Hex. apply existsb_exists in Hex as [[k' v] [Hin Heq]].
  apply String.eqb_eq in Heq. simpl in Heq. subst k'. apply H. now apply (in_map fst _ (k, v)).
Qed.

Lemma py_dict_fold (l d : list (string * string)) :
  NoDup (map fst (d ++ l)) ->
  fold_left (fun d kv => dict_set d (fst kv) (snd kv)) l d = (d ++ l)%list.
Proof.
  revert d. induction l as [|[k v] l IH]; intros d Hnd; simpl; [now rewrite app_nil_r|].
  unfold dict_set at 2. simpl.
  rewrite existsb_key_false.
  - rewrite IH; [now rewrite <- app_assoc|now rewrite <- app_assoc].
  - rewrite map_app in Hnd. simpl in Hnd. apply NoDup_remove_2 in Hnd.
    intros Hin. apply Hnd. apply in_or_app. now left.
Qed.

(** With distinct keys, [dict(pairs)] keeps the pairs as they are. *)
Lemma py_dict_nodup (l : list (string * string)) :
  NoDup (map fst l) -> py_dict l = l.
Proof. intros H. exact (py_dict_fold l [] H). Qed.

Lemma row_get_combine (hs cs : list string) (i : nat) :
  NoDup hs -> length cs = length hs -> (i < length hs)%nat ->
  row_get (combine hs cs) (nth i hs "") = Some (nth i cs "").
Proof.
  revert cs i. induction hs as [|h hs IH]; intros cs i Hnd Hlen Hi; [simpl in Hi; lia|].
  destruct cs as [|c cs]; [discriminate|]. simpl in Hlen. injection Hlen as Hlen.
  inversion Hnd as [|? ? Hnin Hnd']; subst.
  unfold row_get. simpl. destruct i as [|i].
  - now rewrite String.eqb_refl.
  - simpl in Hi. destruct (String.eqb_spec h (nth i hs "")) as [E|E].
    + exfalso. apply Hnin. rewrite E. apply nth_In. lia.
    + apply (IH cs i Hnd' Hlen). lia.
Qed.

Lemma map_fst_combine {A B} (l1 : list A) (l2 : list B) :
  length l1 = length l2 -> map fst (combine l1 l2) = l1.
Proof.
  revert l2. induction l1 as [|a l1 IH]; intros [|b l2] H; try discriminate; [reflexivity|].
  simpl. f_equal. apply IH. now injection H.
Qed.

Lemma padded_cells (row : list string) (n i : nat) :
  (i < n)%nat ->
  length (firstn n (row ++ repeat "" (n - length row))) = n /\
  nth i (firstn n (row ++ repeat "" (n - length row))) "" = nth i row "".
Proof.
  intros Hi. split.
  - rewrite length_firstn, length_app, repeat_length. lia.
  - rewrite nth_firstn. destruct (Nat.ltb_spec i n) as [_|]; [|lia]. simpl.
    destruct (Nat.lt_ge_cases i (length row)) as [Hr|Hr].
    + now rewrite app_nth1.
    + rewrite app_nth2 by exact Hr. rewrite (nth_overflow row) by exact Hr.
      destruct (Nat.lt_ge_cases (i - length row) (n - length row)).
      * now rewrite nth_repeat_lt.
      * apply nth_overflow. now rewrite repeat_length.
Qed.

(** [read_stock_sheet] on a sheet whose header cells are distinct (after
    [strip]): one record per line after the header line, in which each
    header maps to the cell below it, or to [""] when the line is shorter. *)
Theorem read_stock_sheet_records (sheets_url : option string) (default_sheet_url : string)
  (fetch : string -> option (list (list string))) (sid : string)
  (values : list (list string)) :
  sheet_id_from_url (get_default (py_or_str sheets_url (Some default_sheet_url)) "") = Some sid ->
  sid <> "" -> fetch sid = Some values -> (2 <= length values)%nat ->
  NoDup (map py_strip (hd [] values)) ->
  let rows := read_stock_sheet sheets_url default_sheet_url true fetch in
  length rows = (length values - 1)%nat /\
  forall j i, (j < length values - 1)%nat -> (i < length (hd [] values))%nat ->
    row_get (nth j rows []) (nth i (map py_strip (hd [] values)) "")
    = Some (nth i (nth (S j) values []) "").
Proof.
  intros Hsid Hne Hf H2 Hnd rows.
  assert (Hrows : rows = sheet_records values).
  { unfold rows, read_stock_sheet. rewrite Hsid.
    destruct (String.eqb_spec sid "") as [E|_]; [contradiction|]. simpl. now rewrite Hf. }
  rewrite Hrows. unfold sheet_records.
  destruct (Nat.ltb_spec (length values) 2) as [|_]; [lia|].
  destruct values as [|hdr data]; [simpl in H2; lia|]. simpl hd in *. simpl tl.
  set (hs := map py_strip hdr) in *.
  split.
  - rewrite length_map. simpl. lia.
  - intros j i Hj Hi. simpl in Hj.
    set (f := fun row : list string =>
                py_dict (combine hs (firstn (length hs)
                           (row ++ repeat "" (length hs - length row))))).
    change (map _ data) with (map f data).
    rewrite (nth_indep (map f data) [] (f [])) by (rewrite length_map; lia).
    rewrite map_nth. simpl nth at 2. unfold f.
    assert (Hhs : (i < length hs)%nat) by (unfold hs; now rewrite length_map).
    destruct (padded_cells (nth j data []) (length hs) i Hhs) as [Hl Hn].
    rewrite py_dict_nodup by (rewrite map_fst_combine; [exact Hnd|now rewrite Hl]).
    rewrite row_get_combine; [now rewrite Hn|exact Hnd|exact Hl|exact Hhs].
Qed.


Lemma read_stock_sheet_records_witness :
  length (read_stock_sheet (Some demo_sheet_url) "" true (fun _ => Some demo_values)) = 2%nat.
Proof.
  refine (proj1 (read_stock_sheet_records (Some demo_sheet_url) "" (fun _ => Some demo_values)
                   "1AbC-x_9" demo_values _ _ _ _ _)).
  - vm_compute. reflexivity.
  - discriminate.
  - reflexivity.
  - simpl. lia.
  - vm_compute. constructor; [intros [H|[]]; discriminate|constructor; [intros []|constructor]].
Defined.


(** ** The Monday summary *)

Lemma world_set_outbox_self (w : World) : w = set_outbox w (outbox w).
Proof. now destruct w. Qed.

Lemma set_outbox_twice (w : World) o o' : set_outbox (set_outbox w o) o' = set_outbox w o'.
Proof. reflexivity. Qed.

Lemma send_whatsapp_effect (twilio_ready : bool) (to msg : string) (w : World) :
  send_whatsapp twilio_ready to msg w
  = set_outbox w (outbox w ++ (if twilio_ready then [(whatsapp_addr to, msg)] else []))%list.
Proof.
  unfold send_whatsapp, whatsapp_addr. destruct twilio_ready; simpl.
  - reflexivity.
  - rewrite app_nil_r. apply world_set_outbox_self.
Qed.

Lemma send_whatsapp_r_effect (twilio_ready : bool)
  (twilio_error : string -> string -> option string) (to msg : string) (w : World) :
  final_world (send_whatsapp_r twilio_ready twilio_error to msg w)
  = set_outbox w
      (outbox w ++ (if twilio_ready
                    then match twilio_error (whatsapp_addr to) msg with
                         | None => [(whatsapp_addr to, msg)]
                         | Some _ => []
                         end
                    else []))%list.
Proof.
  unfold send_whatsapp_r, whatsapp_addr. destruct twilio_ready; simpl.
  - destruct (twilio_error _ msg); simpl; [|reflexivity].
    rewrite app_nil_r. apply world_set_outbox_self.
  - rewrite app_nil_r. apply world_set_outbox_self.
Qed.

(** [monday_stock_summary] changes no table and sends, in the order of the
    businesses table, the [handle_check_stock] report of each business
    whose message Twilio accepts, to the owner's [whatsapp:] address; a
    business whose send raises gets nothing and the loop goes on with the
    next one; without Twilio nothing is sent. *)
Theorem monday_stock_summary_r_effect (repr_float : Q -> string) (twilio_ready : bool)
  (twilio_error : string -> string -> option string) (w : World) :
  monday_stock_summary_r repr_float twilio_ready twilio_error w
  = set_outbox w
      (outbox w ++
       (if twilio_ready
        then flat_map (fun b =>
               let to := whatsapp_addr (biz_owner_phone b) in
               let msg := handle_check_stock repr_float b w in
               match twilio_error to msg with
               | None => [(to, msg)]
               | Some _ => []
               end) (businesses w)
        else []))%list.
Proof.
  unfold monday_stock_summary_r.
  assert (Hgen : forall l o,
    fold_left (fun v b => final_world (send_whatsapp_r twilio_ready twilio_error
                                         (biz_owner_phone b) (handle_check_stock repr_float b v) v))
              l (set_outbox w o)
    = set_outbox w
        (o ++ (if twilio_ready
               then flat_map (fun b =>
                      let to := whatsapp_addr (biz_owner_phone b) in
                      let msg := handle_check_stock repr_float b w in
                      match twilio_error to msg with
                      | None => [(to, msg)]
                      | Some _ => []
                      end) l
               else []))%list).
  { induction l as [|b l IH]; intros o; simpl.
    - destruct twilio_ready; now rewrite app_nil_r.
    - rewrite send_whatsapp_r_effect. rewrite set_outbox_twice.
      change (handle_check_stock repr_float b (set_outbox w o))
        with (handle_check_stock repr_float b w).
      simpl outbox. rewrite IH. f_equal. destruct twilio_ready; simpl; [|now rewrite !app_nil_r].
      now rewrite <- app_assoc. }
  pose proof (Hgen (businesses w) (outbox w)) as H.
  rewrite <- world_set_outbox_self in H. exact H.
Qed.

(** ** The Places calls of [review_monitor.py] *)

(** [get_place_reviews] never answers [(None, None)]: when it reports no
    error, it returns a list of reviews. *)
Theorem get_place_reviews_result (api_key : string) (legacy : string -> MonitorFetch.LegacyResp)
  (new_api : string -> MonitorFetch.NewApiResp) (place_id : string) :
  snd (MonitorFetch.get_place_reviews api_key legacy new_api place_id) = None ->
  exists reviews, fst (MonitorFetch.get_place_reviews api_key legacy new_api place_id)
                  = Some reviews.
Proof.
  unfold MonitorFetch.get_place_reviews, MonitorFetch.fetch_reviews_new_api.
  destruct (String.eqb api_key ""); [discriminate|].
  destruct (legacy place_id) as [code status result|m]; [|discriminate].
  destruct (code =? 200).
  - destruct (opt_str_eqb status (Some "OK")), result as [reviews|];
      try (simpl; eauto; fail);
      destruct (_ && _); try discriminate;
      destruct (new_api _) as [[e|] rv|c m|m]; simpl; eauto; discriminate.
  - destruct (_ && _); [|discriminate].
    destruct (new_api _) as [[e|] rv|c m|m]; simpl; eauto; discriminate.
Qed.

Lemma get_place_reviews_result_witness :
  exists reviews,
    fst (MonitorFetch.get_place_reviews "key"
           (fun _ => MonitorFetch.LegacyHttp 200 (Some "INVALID_REQUEST") None)
           (fun _ => MonitorFetch.NewApiOk None (Some [demo_mreview "Sara" "Great service"]))
           "0x3e5f:0x1a2b") = Some reviews.
Proof.
  apply get_place_reviews_result. vm_compute. reflexivity.
Defined.

(** A place id that is not in the hex form ([0x...:0x...]) never reaches the
    Places API (New): the answer does not depend on it. *)
Theorem get_place_reviews_not_hex (api_key : string) (legacy : string -> MonitorFetch.LegacyResp)
  (new1 new2 : string -> MonitorFetch.NewApiResp) (place_id : string) :
  py_in "0x" place_id && py_in ":" place_id = false ->
  MonitorFetch.get_place_reviews api_key legacy new1 place_id
  = MonitorFetch.get_place_reviews api_key legacy new2 place_id.
Proof.
  intros H. unfold MonitorFetch.get_place_reviews. rewrite H. reflexivity.
Qed.

Lemma get_place_reviews_not_hex_witness :
  MonitorFetch.get_place_reviews "key" (fun _ => MonitorFetch.LegacyHttp 404 None None)
    (fun _ => MonitorFetch.NewApiOk None None) "ChIJabc"
  = MonitorFetch.get_place_reviews "key" (fun _ => MonitorFetch.LegacyHttp 404 None None)
    (fun _ => MonitorFetch.NewApiExc "down") "ChIJabc".
Proof. apply get_place_reviews_not_hex. reflexivity. Defined.

(** When the text search answers with a first place whose id is
    [places/<id>], a non-ChIJ place id resolves to [<id>]. *)
Theorem resolve_to_chij_places_prefix (api_key : string)
  (search : string -> MonitorFetch.SearchResp) (place_id business_name id : string)
  (more : list (option string)) :
  startswith place_id "ChIJ" = false -> api_key <> "" -> business_name <> "" ->
  search business_name = MonitorFetch.SearchOk (Some ("places/" ++ id) :: more) ->
  py_strip ("places/" ++ id) = ("places/" ++ id)%string ->
  MonitorFetch.resolve_to_chij_place_id api_key search place_id business_name = id.
Proof.
  intros Hc Hk Hn Hs Hst. unfold MonitorFetch.resolve_to_chij_place_id.
  rewrite Hc. destruct (String.eqb_spec api_key "") as [|_]; [contradiction|].
  destruct (String.eqb_spec business_name "") as [|_]; [contradiction|]. simpl orb.
  rewrite Hs. cbv beta iota. unfold get_default. rewrite Hst.
  assert (Hp : String.prefix "places/" ("places/" ++ id) = true) by (simpl; apply prefix_nil).
  unfold startswith. rewrite Hp.
  unfold MonitorFetch.py_replace1.
  assert (Hi : str_index "places/" ("places/" ++ id) = Some O).
  { destruct id; reflexivity. }
  rewrite Hi. change (take 0 ("places/" ++ id)) with "".
  change (0 + String.length "places/")%nat with (String.length "places/").
  now rewrite drop_app.
Qed.

Lemma resolve_to_chij_places_prefix_witness :
  MonitorFetch.resolve_to_chij_place_id "key"
    (fun _ => MonitorFetch.SearchOk [Some "places/ChIJxy"]) "0x3e5f:0x1a2b" "Garage" = "ChIJxy".
Proof.
  apply (resolve_to_chij_places_prefix "key" _ "0x3e5f:0x1a2b" "Garage" "ChIJxy" []);
    solve [reflexivity | discriminate].
Defined.

(** ** The webhook keeps the tables it does not own *)

Lemma keeps_tables_refl (w : World) : keeps_tables w w.
Proof. split; [reflexivity|split; [reflexivity|exists []; now rewrite app_nil_r]]. Qed.

Lemma keeps_tables_trans (w1 w2 w3 : World) :
  keeps_tables w1 w2 -> keeps_tables w2 w3 -> keeps_tables w1 w3.
Proof.
  intros [B1 [S1 [a1 P1]]] [B2 [S2 [a2 P2]]].
  split; [congruence|split; [congruence|]].
  exists (a1 ++ a2)%list. now rewrite P2, P1, app_assoc.
Qed.

Lemma keeps_tables_same (w w' : World) :
  businesses w' = businesses w -> seen_reviews w' = seen_reviews w ->
  pending_actions w' = pending_actions w -> keeps_tables w w'.
Proof.
  intros B S P. split; [exact B|split; [exact S|exists []; now rewrite P, app_nil_r]].
Qed.

Lemma keeps_send (tw : bool) to msg (w : World) : keeps_tables w (send_whatsapp tw to msg w).
Proof.
  unfold send_whatsapp. destruct (negb tw); [apply keeps_tables_refl|now apply keeps_tables_same].
Qed.

Lemma keeps_set_status id st (w : World) : keeps_tables w (set_status id st w).
Proof.
  split; [reflexivity|split; [reflexivity|]]. exists []. rewrite app_nil_r. simpl.
  rewrite map_map. apply map_ext. intros pa. now destruct (pa_id pa =? id).
Qed.

Lemma keeps_insert_pa mk (w : World) : keeps_tables w (insert_pending_action mk w).
Proof.
  split; [reflexivity|split; [reflexivity|]]. exists [pa_key (mk (next_id w))].
  simpl. now rewrite map_app.
Qed.

Lemma keeps_sync_row py b now (w : World) r : keeps_tables w (sync_row py b now w r).
Proof.
  unfold sync_row. destruct (parse_row py r) as [[[[n q] t] o]|]; [|apply keeps_tables_refl].
  destruct (filter _ _); [now apply keeps_tables_same|].
  destruct (negb _); now apply keeps_tables_same.
Qed.

Lemma keeps_sync py b rows now (w : World) :
  keeps_tables w (sync_stock_to_supabase py b rows now w).
Proof.
  unfold sync_stock_to_supabase. revert w.
  induction rows as [|r rows IH]; intros w; [apply keeps_tables_refl|].
  simpl. eapply keeps_tables_trans; [apply keeps_sync_row|apply IH].
Qed.

Lemma keeps_handle_order repr b item now (w : World) :
  keeps_tables w (snd (handle_order_command repr b item now w)).
Proof.
  unfold handle_order_command.
  destruct (filter _ _); [apply keeps_tables_refl|apply keeps_insert_pa].
Qed.

Lemma keeps_handle_send_order (tw : bool) b (w : World) :
  keeps_tables w (snd (handle_send_order tw b w)).
Proof.
  unfold handle_send_order.
  destruct (pending_of b "purchase_order" w) as [|a rest]; [apply keeps_tables_refl|].
  destruct (String.eqb _ ""); [apply keeps_tables_refl|]. simpl.
  eapply keeps_tables_trans; [apply keeps_send|apply keeps_set_status].
Qed.

Lemma keeps_route repr py tw gw b inc low now (w : World) :
  keeps_tables w (snd (route repr py tw gw b inc low now w)).
Proof.
  unfold route.
  destruct (startswith low "order ").
  - pose proof (keeps_handle_order repr b (py_strip (drop 6 inc)) now w) as H.
    destruct (handle_order_command repr b _ now w). exact H.
  - destruct (in_strings low _).
    + pose proof (keeps_handle_send_order tw b w) as H.
      destruct (handle_send_order tw b w). exact H.
    + destruct (existsb _ _); [apply keeps_tables_refl|].
      destruct (String.eqb low "sync stock"); [apply keeps_sync|].
      destruct (existsb _ _); [apply keeps_tables_refl|].
      destruct (in_strings low _); [|apply keeps_tables_refl].
      destruct (pending_of b "review_reply" w); [apply keeps_tables_refl|apply keeps_set_status].
Qed.

(** Whatever the message and the sender, [webhook] changes neither the
    businesses nor the seen reviews, and never deletes, reorders or
    re-types a pending action: the existing ones keep their id, business
    and type (only their status may change) and new ones are appended. *)
Theorem webhook_keeps_tables (repr_float : Q -> string) (py_float : string -> option Q)
  (twilio_ready : bool) (gw : Gateways) (body sender : string) (now : Z) (w : World) :
  keeps_tables w (snd (webhook repr_float py_float twilio_ready gw body sender now w)).
Proof.
  unfold webhook. destruct (get_business sender w) as [b|]; [|apply keeps_tables_refl].
  pose proof (keeps_route repr_float py_float twilio_ready gw b (py_strip body)
                (py_lower (py_strip body)) now w) as H.
  destruct (route _ _ _ _ _ _ _ _ _). exact H.
Qed.

(** ** Approval, IGNORE and ORDER messages *)

(** A message that is, stripped and lowered, [yes], [approve] or
    [post it] marks the business's first pending review_reply action
    completed and replies with its draft; with no pending review_reply it
    falls through to the chat model and changes nothing. *)
Theorem webhook_approval (repr_float : Q -> string) (py_float : string -> option Q)
  (twilio_ready : bool) (gw : Gateways) (body sender : string) (now : Z) (w : World)
  (b : Business) :
  get_business sender w = Some b ->
  in_strings (py_lower (py_strip body)) ["yes"; "approve"; "post it"] = true ->
  webhook repr_float py_float twilio_ready gw body sender now w
  = match pending_of b "review_reply" w with
    | action :: _ =>
        (["✅ Reply saved:" ++ nl ++ dq ++ show_opt (pa_draft_reply action) ++ dq
          ++ nl ++ nl ++ "Paste this into Google Reviews."],
         set_status (pa_id action) "completed" w)
    | [] => ([chat_reply gw b (py_strip body)], w)
    end.
Proof.
  intros Hb Hin. unfold webhook. rewrite Hb. cbv zeta.
  unfold in_strings in Hin. cbn [existsb] in Hin. rewrite !orb_true_iff in Hin.
  destruct Hin as [H|[H|[H|H]]]; try discriminate; apply String.eqb_eq in H; rewrite H;
    unfold route; destruct (pending_of b "review_reply" w); reflexivity.
Qed.

Lemma rev_string_length (s : string) : String.length (rev_string s) = String.length s.
Proof.
  induction s as [|c s IH]; [reflexivity|]. simpl. rewrite str_length_app, IH. simpl. lia.
Qed.

Lemma lstrip_length (s : string) : (String.length (lstrip s) <= String.length s)%nat.
Proof.
  induction s as [|c s IH]; [reflexivity|]. simpl. destruct (is_py_space c); simpl; lia.
Qed.

Lemma lstrip_length_eq (s : string) :
  String.length (lstrip s) = String.length s -> lstrip s = s.
Proof.
  destruct s as [|c s]; [reflexivity|]. simpl. destruct (is_py_space c); [|reflexivity].
  intros H. pose proof (lstrip_length s). lia.
Qed.

Lemma lstrip_app (a b : string) : lstrip a <> "" -> lstrip (a ++ b) = (lstrip a ++ b)%string.
Proof.
  induction a as [|c a IH]; intros H; [now destruct H|].
  simpl in *. destruct (is_py_space c); [now apply IH|reflexivity].
Qed.

(** A string that [strip()] leaves alone starts and ends with no
    whitespace. *)
Lemma py_strip_fixed (s : string) :
  py_strip s = s -> lstrip s = s /\ lstrip (rev_string s) = rev_string s.
Proof.
  unfold py_strip. intros H.
  pose proof (lstrip_length s) as H1.
  pose proof (lstrip_length (rev_string (lstrip s))) as H2.
  pose proof (f_equal String.length H) as H3.
  rewrite rev_string_length in H2, H3.
  assert (E1 : lstrip s = s) by (apply lstrip_length_eq; lia).
  split; [exact E1|]. rewrite E1 in H, H2, H3.
  apply lstrip_length_eq. rewrite rev_string_length. lia.
Qed.

Lemma py_strip_app_word (c : ascii) (p n : string) :
  is_py_space c = false -> py_strip n = n -> n <> "" ->
  py_strip (String c p ++ n) = (String c p ++ n)%string.
Proof.
  intros Hc Hn Hne. destruct (py_strip_fixed n Hn) as [_ Hr].
  unfold py_strip.
  assert (E : lstrip (String c p ++ n) = (String c p ++ n)%string)
    by (simpl; now rewrite Hc).
  rewrite E, rev_string_app, lstrip_app, Hr.
  - rewrite rev_string_app, !rev_string_involutive. reflexivity.
  - rewrite Hr. intros E0. apply Hne.
    rewrite <- (rev_string_involutive n), E0. reflexivity.
Qed.

(** The alert's [IGNORE <name>] has no handler: for an item name [n]
    (stripped, not empty) whose message contains none of the stock and
    review keywords, [webhook] answers with the chat model and changes
    nothing. *)
Theorem webhook_ignore_unhandled (repr_float : Q -> string) (py_float : string -> option Q)
  (twilio_ready : bool) (gw : Gateways) (n sender : string) (now : Z) (w : World)
  (b : Business) :
  get_business sender w = Some b -> py_strip n = n -> n <> "" ->
  existsb (fun x => py_in x (py_lower ("IGNORE " ++ n)))
    ["check stock"; "stock levels"; "my stock"; "show stock"; "check reviews"; "my reviews"]
  = false ->
  webhook repr_float py_float twilio_ready gw ("IGNORE " ++ n) sender now w
  = ([chat_reply gw b ("IGNORE " ++ n)], w).
Proof.
  intros Hb Hs Hne Hk. unfold webhook. rewrite Hb. cbv zeta.
  rewrite (py_strip_app_word "I" "GNORE " n) by (reflexivity || assumption).
  change ["check stock"; "stock levels"; "my stock"; "show stock"; "check reviews"; "my reviews"]
    with (["check stock"; "stock levels"; "my stock"; "show stock"] ++ ["check reviews"; "my reviews"])%list
    in Hk.
  rewrite existsb_app in Hk. apply orb_false_iff in Hk as [Hk1 Hk2].
  unfold route. rewrite Hk1, Hk2, py_lower_app. reflexivity.
Qed.

Lemma prefix_app_self (p s : string) : String.prefix p (p ++ s) = true.
Proof.
  induction p as [|c p IH]; [apply prefix_nil|]. simpl.
  destruct (ascii_dec c c) as [_|N]; [exact IH|now destruct N].
Qed.

(** The alert's [ORDER <name>]: for an item name [n] (stripped, not
    empty, with no [LIKE] metacharacter) contained, ignoring case, in the
    name of a stock item of the sender's business, [webhook] appends one
    pending purchase_order action with the next id, for such an item, with
    the supplier message drafted for it. *)
Theorem webhook_order_drafts (repr_float : Q -> string) (py_float : string -> option Q)
  (twilio_ready : bool) (gw : Gateways) (n sender : string) (now : Z) (w : World)
  (b : Business) (it : StockItem) :
  get_business sender w = Some b -> py_strip n = n -> n <> "" -> plain n = true ->
  In it (stock_items w) -> si_business_id it = biz_id b ->
  py_in (py_lower n) (py_lower (si_name it)) = true ->
  exists item,
    In item (stock_items w) /\ si_business_id item = biz_id b /\
    py_in (py_lower n) (py_lower (si_name item)) = true /\
    pending_actions (snd (webhook repr_float py_float twilio_ready gw ("ORDER " ++ n) sender now w))
    = (pending_actions w ++
       [{| pa_id := next_id w; pa_business_id := biz_id b; pa_owner_phone := biz_owner_phone b;
           pa_action_type := "purchase_order"; pa_item_name := Some (si_name item);
           pa_item_data := Some (ItemRow item); pa_review_id := None;
           pa_draft_reply := Some (order_msg repr_float b item); pa_status := "pending";
           pa_created_at := now |}])%list.
Proof.
  intros Hb Hs Hne Hp Hin Hbid Hm. unfold webhook. rewrite Hb. cbv zeta.
  rewrite (py_strip_app_word "O" "RDER " n) by (reflexivity || assumption).
  rewrite py_lower_app. unfold route.
  assert (Hst : startswith (py_lower "ORDER " ++ py_lower n) "order " = true)
    by apply prefix_app_self.
  rewrite Hst. change (drop 6 ("ORDER " ++ n)) with (drop (String.length "ORDER ") ("ORDER " ++ n)).
  rewrite (drop_app "ORDER " n), Hs.
  unfold handle_order_command.
  assert (Hit : In it (filter (fun it => (si_business_id it =? biz_id b)
                                          && ilike (si_name it) ("%" ++ n ++ "%"))
                              (stock_items w))).
  { apply filter_In. split; [exact Hin|].
    rewrite Hbid, Z.eqb_refl, order_match_plain by exact Hp. exact Hm. }
  destruct (filter _ (stock_items w)) as [|item rest] eqn:Ei; [contradiction|].
  assert (Hi : In item (item :: rest)) by now left.
  rewrite <- Ei in Hi. apply filter_In in Hi as [Hi Hc].
  apply andb_prop in Hc as [Hc1 Hc2]. apply Z.eqb_eq in Hc1.
  rewrite order_match_plain in Hc2 by exact Hp.
  exists item. split; [exact Hi|split; [exact Hc1|split; [exact Hc2|]]].
  reflexivity.
Qed.

Lemma webhook_approval_witness :
  get_business "whatsapp:+971500000000" order_world = Some demo_business /\
  in_strings (py_lower (py_strip " Yes ")) ["yes"; "approve"; "post it"] = true /\
  webhook repr_demo float_demo true demo_gateways " Yes " "whatsapp:+971500000000" 0 order_world
  = match pending_of demo_business "review_reply" order_world with
    | action :: _ =>
        (["✅ Reply saved:" ++ nl ++ dq ++ show_opt (pa_draft_reply action) ++ dq
          ++ nl ++ nl ++ "Paste this into Google Reviews."],
         set_status (pa_id action) "completed" order_world)
    | [] => ([chat_reply demo_gateways demo_business (py_strip " Yes ")], order_world)
    end.
Proof.
  assert (H1 : get_business "whatsapp:+971500000000" order_world = Some demo_business)
    by (vm_compute; reflexivity).
  assert (H2 : in_strings (py_lower (py_strip " Yes ")) ["yes"; "approve"; "post it"] = true)
    by (vm_compute; reflexivity).
  split; [exact H1|split; [exact H2|]].
  exact (webhook_approval repr_demo float_demo true demo_gateways " Yes " _ 0 order_world
           demo_business H1 H2).
Defined.

Lemma webhook_ignore_unhandled_witness :
  get_business "whatsapp:+971500000000" order_world = Some demo_business /\
  webhook repr_demo float_demo true demo_gateways ("IGNORE " ++ "Oil Filters")
    "whatsapp:+971500000000" 0 order_world
  = ([chat_reply demo_gateways demo_business ("IGNORE " ++ "Oil Filters")], order_world).
Proof.
  assert (H1 : get_business "whatsapp:+971500000000" order_world = Some demo_business)
    by (vm_compute; reflexivity).
  split; [exact H1|].
  apply (webhook_ignore_unhandled repr_demo float_demo true demo_gateways "Oil Filters"
           _ 0 order_world demo_business H1).
  - vm_compute. reflexivity.
  - discriminate.
  - vm_compute. reflexivity.
Defined.

Lemma webhook_order_drafts_witness :
  exists item,
    In item (stock_items order_world) /\ si_business_id item = biz_id demo_business /\
    py_in (py_lower "oil") (py_lower (si_name item)) = true /\
    pending_actions (snd (webhook repr_demo float_demo true demo_gateways ("ORDER " ++ "oil")
                            "whatsapp:+971500000000" 0 order_world))
    = (pending_actions order_world ++
       [{| pa_id := next_id order_world; pa_business_id := biz_id demo_business;
           pa_owner_phone := biz_owner_phone demo_business;
           pa_action_type := "purchase_order"; pa_item_name := Some (si_name item);
           pa_item_data := Some (ItemRow item); pa_review_id := None;
           pa_draft_reply := Some (order_msg repr_demo demo_business item);
           pa_status := "pending"; pa_created_at := 0 |}])%list.
Proof.
  apply (webhook_order_drafts repr_demo float_demo true demo_gateways "oil" _ 0 order_world
           demo_business demo_item).
  - vm_compute. reflexivity.
  - vm_compute. reflexivity.
  - discriminate.
  - vm_compute. reflexivity.
  - now left.
  - reflexivity.
  - vm_compute. reflexivity.
Defined.

(** ** Review checks *)

Lemma reviews_lockstep_refl (w : World) : reviews_lockstep w w.
Proof.
  split; [reflexivity|split; [reflexivity|split; [reflexivity|]]].
  exists [], []. rewrite !app_nil_r. repeat split; constructor.
Qed.

Lemma reviews_lockstep_trans (w1 w2 w3 : World) :
  reviews_lockstep w1 w2 -> reviews_lockstep w2 w3 -> reviews_lockstep w1 w3.
Proof.
  intros [B1 [I1 [M1 [s1 [a1 [S1 [P1 [E1 F1]]]]]]]] [B2 [I2 [M2 [s2 [a2 [S2 [P2 [E2 F2]]]]]]]].
  split; [congruence|split; [congruence|split; [congruence|]]].
  exists (s1 ++ s2)%list, (a1 ++ a2)%list.
  rewrite S2, S1, P2, P1, !app_assoc, !map_app, E1, E2.
  split; [reflexivity|split; [reflexivity|split; [reflexivity|]]].
  now apply Forall_app.
Qed.

Lemma review_step_lockstep (tw : bool) gw b place_id now (w : World) rev :
  reviews_lockstep w (review_step tw gw b place_id now w rev).
Proof.
  unfold review_step. destruct (seen _ w); [apply reviews_lockstep_refl|].
  rewrite send_whatsapp_effect.
  split; [reflexivity|split; [reflexivity|split; [reflexivity|]]].
  eexists; eexists.
  split; [reflexivity|split; [reflexivity|split; [reflexivity|]]].
  constructor; [split; reflexivity|constructor].
Qed.

Lemma check_business_reviews_lockstep (tw : bool) gw now (w : World) b :
  reviews_lockstep w (check_business_reviews tw gw now w b).
Proof.
  unfold check_business_reviews.
  destruct (business_place_id b) as [place_id|]; [|apply reviews_lockstep_refl].
  destruct (String.eqb place_id ""); [apply reviews_lockstep_refl|].
  destruct (gw_get_reviews gw place_id) as [pd|]; [|apply reviews_lockstep_refl].
  generalize (pd_reviews pd). intros l. revert w.
  induction l as [|rev l IH]; intros w; [apply reviews_lockstep_refl|].
  simpl. eapply reviews_lockstep_trans; [apply review_step_lockstep|apply IH].
Qed.

Lemma send_whatsapp_r_outcome (twilio_ready : bool)
  (twilio_error : string -> string -> option string) (to msg : string) (w : World) :
  match send_whatsapp_r twilio_ready twilio_error to msg w with
  | Ret _ w' => exists o, w' = set_outbox w o
  | Exc _ w' => w' = w
  end.
Proof.
  unfold send_whatsapp_r. destruct twilio_ready; simpl.
  - destruct (twilio_error _ msg); [reflexivity|eexists; reflexivity].
  - exists (outbox w). apply world_set_outbox_self.
Qed.

Lemma fold_raises_lockstep {B : Type} (f : World -> B -> Raises unit) (l : list B) (w : World) :
  (forall v x, lockstep_or_one_seen v (f v x)) -> lockstep_or_one_seen w (fold_raises f l w).
Proof.
  intros Hf. revert w. induction l as [|x l IH]; intros w; [apply reviews_lockstep_refl|].
  simpl. specialize (Hf w x). destruct (f w x) as [u w1|e w1]; [|exact Hf].
  simpl in Hf. specialize (IH w1).
  destruct (fold_raises f l w1) as [u' w2|e w2]; simpl in *.
  - eapply reviews_lockstep_trans; eassumption.
  - destruct IH as [w'' [mk [Hl ->]]]. exists w'', mk. split; [|reflexivity].
    eapply reviews_lockstep_trans; eassumption.
Qed.

Lemma review_step_r_lockstep (tw : bool) (te : string -> string -> option string) gw b place_id
  now (w : World) rev :
  lockstep_or_one_seen w (review_step_r tw te gw b place_id now w rev).
Proof.
  unfold review_step_r. destruct (seen _ w); [apply reviews_lockstep_refl|].
  cbv zeta.
  match goal with
  | |- context [send_whatsapp_r tw te ?to ?msg ?w1] =>
      pose proof (send_whatsapp_r_outcome tw te to msg w1) as Ho;
      destruct (send_whatsapp_r tw te to msg w1) as [u w2|e w2]
  end; simpl.
  - destruct Ho as [o ->].
    split; [reflexivity|split; [reflexivity|split; [reflexivity|]]].
    eexists; eexists.
    split; [reflexivity|split; [reflexivity|split; [reflexivity|]]].
    constructor; [split; reflexivity|constructor].
  - subst w2. eexists; eexists. split; [apply reviews_lockstep_refl|reflexivity].
Qed.

Lemma check_business_reviews_r_lockstep (tw : bool) (te : string -> string -> option string)
  gw now (w : World) b :
  lockstep_or_one_seen w (check_business_reviews_r tw te gw now w b).
Proof.
  unfold check_business_reviews_r.
  destruct (business_place_id b) as [place_id|]; [|apply reviews_lockstep_refl].
  destruct (String.eqb place_id ""); [apply reviews_lockstep_refl|].
  destruct (gw_get_reviews gw place_id) as [pd|]; [|apply reviews_lockstep_refl].
  apply fold_raises_lockstep. intros v x. apply review_step_r_lockstep.
Qed.

(** The scheduled review check of [app.py] changes neither the businesses
    nor the stock tables.  When it completes, it has only appended seen
    reviews and pending actions, in lockstep: the new actions are pending
    review_reply actions, one per new seen review, in the same order, each
    with the review id and the reply draft stored with its review.  When a
    Twilio send raises, the run stops there, and the tables are in that
    lockstep but for one more seen review: the one whose alert failed,
    which has no review_reply action. *)
Theorem check_reviews_r_lockstep (twilio_ready : bool)
  (twilio_error : string -> string -> option string) (gw : Gateways) (now : Z) (w : World) :
  lockstep_or_one_seen w (check_reviews_for_all_businesses_r twilio_ready twilio_error gw now w).
Proof.
  unfold check_reviews_for_all_businesses_r. apply fold_raises_lockstep.
  intros v b. apply check_business_reviews_r_lockstep.
Qed.

(** The alert of the first new review raises; the review is stored, no
    action is drafted, and the second review is not looked at. *)
Example check_reviews_raise_demo :
  match check_reviews_for_all_businesses_r true (fun _ _ => Some "Twilio down")
          (review_gateways [demo_review "Sam" 1; demo_review "Kim" 2]) 0
          (empty_world [demo_business]) with
  | Exc e w' => e = "Twilio down" /\ length (seen_reviews w') = 1%nat
                /\ pending_actions w' = [] /\ outbox w' = []
  | Ret _ _ => False
  end.
Proof. vm_compute. repeat split. Qed.

Lemma seen_only_refl (w : World) : seen_only w w.
Proof.
  repeat (split; [reflexivity|]). split; [lia|].
  exists []. rewrite app_nil_r. split; [reflexivity|constructor].
Qed.

Lemma seen_only_trans (w1 w2 w3 : World) :
  seen_only w1 w2 -> seen_only w2 w3 -> seen_only w1 w3.
Proof.
  intros [B1 [I1 [M1 [P1 [N1 [a1 [S1 F1]]]]]]] [B2 [I2 [M2 [P2 [N2 [a2 [S2 F2]]]]]]].
  repeat (split; [congruence|]).
  split.
  - rewrite N2, N1, S2, S1, !length_app. lia.
  - exists (a1 ++ a2)%list. rewrite S2, S1, app_assoc. split; [reflexivity|].
    now apply Forall_app.
Qed.

Lemma seen_only_outbox (w : World) o : seen_only w (set_outbox w o).
Proof.
  destruct w. unfold seen_only. simpl. repeat (split; [reflexivity|]). split; [lia|].
  exists []. rewrite app_nil_r. split; [reflexivity|constructor].
Qed.

Lemma monitor_step_seen_only (mt : bool) biz rid bf (w : World) rev :
  seen_only w (ReviewMonitor.monitor_step mt biz rid bf w rev).
Proof.
  unfold ReviewMonitor.monitor_step. destruct (seen _ w); [apply seen_only_refl|].
  match goal with |- context[insert_seen_review ?mk w] =>
    assert (H : seen_only w (insert_seen_review mk w)) end.
  { unfold seen_only. simpl. repeat (split; [reflexivity|]).
    split; [rewrite length_app; simpl; lia|].
    eexists. split; [reflexivity|]. constructor; [split; reflexivity|constructor]. }
  destruct bf; [exact H|].
  destruct (mt && _); [|exact H].
  eapply seen_only_trans; [exact H|apply seen_only_outbox].
Qed.

Lemma monitor_business_seen_only (mt : bool) mg (w : World) biz :
  seen_only w (ReviewMonitor.monitor_business mt mg w biz).
Proof.
  unfold ReviewMonitor.monitor_business.
  destruct (biz_place_id biz) as [place_id|]; [|apply seen_only_refl].
  destruct (String.eqb place_id ""); [apply seen_only_refl|].
  destruct (ReviewMonitor.mg_get_place_reviews mg _) as [reviews err].
  destruct (truthy_str err); [apply seen_only_refl|].
  destruct reviews as [[|r revs]|]; try apply seen_only_refl.
  generalize (r :: revs). intros l.
  generalize (negb (existsb (fun s => sr_business_id s =? biz_id biz) (seen_reviews w))).
  intros bf. revert w.
  induction l as [|x l IH]; intros w; [apply seen_only_refl|].
  simpl. eapply seen_only_trans; [apply monitor_step_seen_only|apply IH].
Qed.

(** [review_monitor.run_review_check] creates no pending action and no
    reply draft and leaves the businesses and stock tables alone: it only
    appends seen reviews, stored without a reply draft and not replied,
    one id per review, and sends messages. *)
Theorem run_review_check_seen_only (monitor_twilio : bool) (mg : ReviewMonitor.MonitorGateways)
  (w : World) :
  seen_only w (ReviewMonitor.run_review_check monitor_twilio mg w).
Proof.
  unfold ReviewMonitor.run_review_check.
  generalize (filter (fun b => match biz_place_id b with Some _ => true | None => false end)
                     (businesses w)). intros bs.
  revert w. induction bs as [|b bs IH]; intros w; [apply seen_only_refl|].
  simpl. eapply seen_only_trans; [apply monitor_business_seen_only|apply IH].
Qed.

(** ** WhatsApp addresses *)

Lemma outbox_grows_refl (w : World) : outbox_grows w w.
Proof. exists []. now rewrite app_nil_r. Qed.

Lemma outbox_grows_trans (w1 w2 w3 : World) :
  outbox_grows w1 w2 -> outbox_grows w2 w3 -> outbox_grows w1 w3.
Proof.
  intros [s1 [O1 A1]] [s2 [O2 A2]]. exists (s1 ++ s2)%list.
  rewrite O2, O1, app_assoc. split; [reflexivity|].
  unfold whatsapp_addressed in *. now rewrite forallb_app, A1, A2.
Qed.

Lemma outbox_grows_same (w w' : World) : outbox w' = outbox w -> outbox_grows w w'.
Proof. intros H. exists []. now rewrite H, app_nil_r. Qed.

Lemma whatsapp_addr_prefixed (to : string) : startswith (whatsapp_addr to) "whatsapp:" = true.
Proof.
  unfold whatsapp_addr. destruct (startswith to "whatsapp:") eqn:E;
    [exact E|apply startswith_whatsapp_app].
Qed.

Lemma outbox_send (tw : bool) to msg (w : World) : outbox_grows w (send_whatsapp tw to msg w).
Proof.
  rewrite send_whatsapp_effect. eexists. split; [reflexivity|].
  destruct tw; [|reflexivity]. unfold whatsapp_addressed. simpl.
  now rewrite whatsapp_addr_prefixed.
Qed.

Lemma outbox_sync py b rows now (w : World) :
  outbox_grows w (sync_stock_to_supabase py b rows now w).
Proof.
  unfold sync_stock_to_supabase. revert w.
  induction rows as [|r rows IH]; intros w; [apply outbox_grows_refl|].
  simpl. eapply outbox_grows_trans; [|apply IH]. apply outbox_grows_same.
  unfold sync_row. destruct (parse_row py r) as [[[[n q] t] o]|]; [|reflexivity].
  destruct (filter _ _); [reflexivity|]. destruct (negb _); reflexivity.
Qed.

Lemma outbox_route repr py tw gw b inc low now (w : World) :
  outbox_grows w (snd (route repr py tw gw b inc low now w)).
Proof.
  unfold route.
  destruct (startswith low "order ").
  - assert (H : outbox_grows w (snd (handle_order_command repr b (py_strip (drop 6 inc)) now w))).
    { unfold handle_order_command. apply outbox_grows_same.
      destruct (filter _ _); reflexivity. }
    destruct (handle_order_command repr b _ now w). exact H.
  - destruct (in_strings low _).
    + assert (H : outbox_grows w (snd (handle_send_order tw b w))).
      { unfold handle_send_order.
        destruct (pending_of b "purchase_order" w) as [|a rest]; [apply outbox_grows_refl|].
        destruct (String.eqb _ ""); [apply outbox_grows_refl|]. simpl.
        eapply outbox_grows_trans; [apply outbox_send|]. now apply outbox_grows_same. }
      destruct (handle_send_order tw b w). exact H.
    + destruct (existsb _ _); [apply outbox_grows_refl|].
      destruct (String.eqb low "sync stock"); [apply outbox_sync|].
      destruct (existsb _ _); [apply outbox_grows_refl|].
      destruct (in_strings low _); [|apply outbox_grows_refl].
      destruct (pending_of b "review_reply" w); [apply outbox_grows_refl|].
      now apply outbox_grows_same.
Qed.

Lemma outbox_send_stock_alerts repr tw b alerts now (w : World) :
  outbox_grows w (send_stock_alerts repr tw b alerts now w).
Proof.
  unfold send_stock_alerts. revert w.
  induction alerts as [|a alerts IH]; intros w; [apply outbox_grows_refl|].
  simpl. eapply outbox_grows_trans; [|apply IH].
  unfold send_stock_alert. destruct (existsb _ _); [apply outbox_grows_refl|].
  eapply outbox_grows_trans; [apply outbox_send|]. now apply outbox_grows_same.
Qed.

Lemma outbox_reconcile repr py tw gw now (w : World) b :
  outbox_grows w (reconcile_business repr py tw gw now w b).
Proof.
  unfold reconcile_business. cbv zeta.
  destruct (gw_read_stock_sheet gw b) as [|r rs]; [apply outbox_grows_refl|].
  eapply outbox_grows_trans; [apply outbox_sync|].
  destruct (check_stock_levels _ _ _ _ _); [apply outbox_grows_refl|].
  apply outbox_send_stock_alerts.
Qed.

Lemma outbox_check_business_reviews (tw : bool) gw now (w : World) b :
  outbox_grows w (check_business_reviews tw gw now w b).
Proof.
  unfold check_business_reviews.
  destruct (business_place_id b) as [place_id|]; [|apply outbox_grows_refl].
  destruct (String.eqb place_id ""); [apply outbox_grows_refl|].
  destruct (gw_get_reviews gw place_id) as [pd|]; [|apply outbox_grows_refl].
  generalize (pd_reviews pd). intros l. revert w.
  induction l as [|rev l IH]; intros w; [apply outbox_grows_refl|].
  simpl. eapply outbox_grows_trans; [|apply IH].
  unfold review_step. cbv zeta. destruct (seen _ w); [apply outbox_grows_refl|].
  match goal with
  | |- outbox_grows w (insert_pending_action ?mk (send_whatsapp ?t ?to ?m ?w1)) =>
      apply (outbox_grows_trans w (send_whatsapp t to m w1));
        [apply (outbox_grows_trans w w1); [now apply outbox_grows_same|apply outbox_send]
        |now apply outbox_grows_same]
  end.
Qed.

Lemma outbox_monitor_step (mt : bool) biz rid bf (w : World) rev :
  outbox_grows w (ReviewMonitor.monitor_step mt biz rid bf w rev).
Proof.
  unfold ReviewMonitor.monitor_step. cbv zeta.
  destruct (seen _ w); [apply outbox_grows_refl|].
  destruct bf; [now apply outbox_grows_same|].
  destruct (negb (String.eqb (biz_owner_phone biz) "")
            && negb (startswith (biz_owner_phone biz) "whatsapp:")) eqn:E.
  - destruct (mt && _); [|now apply outbox_grows_same].
    eexists. split; [reflexivity|]. unfold whatsapp_addressed. cbn [forallb fst].
    now rewrite startswith_whatsapp_app.
  - destruct (mt && negb (String.eqb (biz_owner_phone biz) "")) eqn:E2;
      [|now apply outbox_grows_same].
    apply andb_prop in E2 as [_ E2]. rewrite E2 in E. simpl in E.
    apply negb_false_iff in E.
    eexists. split; [reflexivity|]. unfold whatsapp_addressed. cbn [forallb fst].
    now rewrite E.
Qed.

Lemma outbox_monitor_business (mt : bool) mg (w : World) biz :
  outbox_grows w (ReviewMonitor.monitor_business mt mg w biz).
Proof.
  unfold ReviewMonitor.monitor_business.
  destruct (biz_place_id biz) as [place_id|]; [|apply outbox_grows_refl].
  destruct (String.eqb place_id ""); [apply outbox_grows_refl|].
  destruct (ReviewMonitor.mg_get_place_reviews mg _) as [reviews err].
  destruct (truthy_str err); [apply outbox_grows_refl|].
  destruct reviews as [[|r revs]|]; try apply outbox_grows_refl.
  generalize (r :: revs). intros l.
  generalize (negb (existsb (fun s => sr_business_id s =? biz_id biz) (seen_reviews w))).
  intros bf. revert w.
  induction l as [|x l IH]; intros w; [apply outbox_grows_refl|].
  simpl. eapply outbox_grows_trans; [apply outbox_monitor_step|apply IH].
Qed.

(** No entry point of the bot ever sends a WhatsApp message to an address
    without the [whatsapp:] prefix: [webhook], [run_stock_monitor],
    [check_reviews_for_all_businesses], [monday_stock_summary] and
    [review_monitor.run_review_check] keep the messages already sent and
    only append messages to [whatsapp:] addresses. *)
Theorem whatsapp_addressed_everywhere :
  (forall (repr_float : Q -> string) (py_float : string -> option Q) (twilio_ready : bool)
          (gw : Gateways) (body sender : string) (now : Z) (w : World),
     outbox_grows w (snd (webhook repr_float py_float twilio_ready gw body sender now w))) /\
  (forall (repr_float : Q -> string) (py_float : string -> option Q) (twilio_ready : bool)
          (gw : Gateways) (now : Z) (w : World),
     outbox_grows w (run_stock_monitor repr_float py_float twilio_ready gw now w)) /\
  (forall (twilio_ready : bool) (gw : Gateways) (now : Z) (w : World),
     outbox_grows w (check_reviews_for_all_businesses twilio_ready gw now w)) /\
  (forall (repr_float : Q -> string) (twilio_ready : bool) (w : World),
     outbox_grows w (monday_stock_summary repr_float twilio_ready w)) /\
  (forall (monitor_twilio : bool) (mg : ReviewMonitor.MonitorGateways) (w : World),
     outbox_grows w (ReviewMonitor.run_review_check monitor_twilio mg w)).
Proof.
  split; [|split; [|split; [|split]]].
  - intros repr py tw gw body sender now w. unfold webhook.
    destruct (get_business sender w) as [b|]; [|apply outbox_grows_refl].
    pose proof (outbox_route repr py tw gw b (py_strip body) (py_lower (py_strip body)) now w) as H.
    destruct (route _ _ _ _ _ _ _ _ _). exact H.
  - intros repr py tw gw now w. unfold run_stock_monitor.
    generalize (businesses w). intros bs. revert w.
    induction bs as [|b bs IH]; intros w; [apply outbox_grows_refl|].
    simpl. eapply outbox_grows_trans; [apply outbox_reconcile|apply IH].
  - intros tw gw now w. unfold check_reviews_for_all_businesses.
    generalize (businesses w). intros bs. revert w.
    induction bs as [|b bs IH]; intros w; [apply outbox_grows_refl|].
    simpl. eapply outbox_grows_trans; [apply outbox_check_business_reviews|apply IH].
  - intros repr tw w. unfold monday_stock_summary.
    generalize (businesses w). intros bs. revert w.
    induction bs as [|b bs IH]; intros w; [apply outbox_grows_refl|].
    simpl. eapply outbox_grows_trans; [apply outbox_send|apply IH].
  - intros mt mg w. unfold ReviewMonitor.run_review_check.
    generalize (filter (fun b => match biz_place_id b with Some _ => true | None => false end)
                       (businesses w)). intros bs. revert w.
    induction bs as [|b bs IH]; intros w; [apply outbox_grows_refl|].
    simpl. eapply outbox_grows_trans; [apply outbox_monitor_business|apply IH].
Qed.

(** ** Stock alerts after a reconciliation *)

Lemma send_stock_alerts_covers repr tw b alerts now (w : World) item :
  In item alerts ->
  has_alert_since (biz_id b) (al_name item) (now - 4 * 3600)
    (send_stock_alerts repr tw b alerts now w) = true.
Proof.
  revert w. induction alerts as [|a alerts IH]; intros w Hin; [contradiction|].
  destruct Hin as [<-|Hin]; [|apply IH; exact Hin].
  change (send_stock_alerts repr tw b (a :: alerts) now w)
    with (send_stock_alerts repr tw b alerts now (send_stock_alert repr tw b now w a)).
  apply send_stock_alerts_mono.
  destruct (send_stock_alert_facts repr tw b now w a "") as [Hm [_ Hn]].
  destruct (has_alert_since (biz_id b) (al_name a) (now - 4 * 3600) w) eqn:E.
  - now apply Hm.
  - apply Hn; [reflexivity|lia].
Qed.

(** In the model without Twilio failures: after a stock reconciliation
    of a business whose sheet reads, every
    sheet row that parses and is at or below its reorder point has a
    stock_alert action of that business for that item created in the last
    four hours: either it was alerted earlier (the cool-down) or the run
    alerted it now. *)
Lemma reconcile_business_alerts_low_rows (repr_float : Q -> string) (py_float : string -> option Q)
  (twilio_ready : bool) (gw : Gateways) (now : Z) (w : World) (b : Business) (r : Row)
  (name : string) (qty threshold reorder : Q) :
  In r (gw_read_stock_sheet gw b) ->
  parse_row py_float r = Some (name, qty, threshold, reorder) ->
  Qle_bool qty threshold = true ->
  has_alert_since (biz_id b) name (now - 4 * 3600)
    (reconcile_business repr_float py_float twilio_ready gw now w b) = true.
Proof.
  intros Hin Hp Hq. unfold reconcile_business. cbv zeta.
  destruct (gw_read_stock_sheet gw b) as [|r0 rs] eqn:Erows; [contradiction|].
  set (w1 := sync_stock_to_supabase py_float b (r0 :: rs) now w).
  assert (Ha : exists a, In a (check_stock_levels py_float b (r0 :: rs) now w1)
                         /\ al_name a = name).
  { unfold check_stock_levels. eexists. split.
    - apply in_flat_map. exists r. split; [exact Hin|]. cbv beta.
      rewrite Hp, Hq. left. reflexivity.
    - reflexivity. }
  destruct Ha as [a [Ha Hn]].
  destruct (check_stock_levels py_float b (r0 :: rs) now w1) as [|a0 al] eqn:Ec;
    [contradiction|].
  rewrite <- Hn. apply send_stock_alerts_covers. exact Ha.
Qed.

Lemma send_stock_alerts_r_accepts (repr_float : Q -> string) (tw : bool)
  (te : string -> string -> option string) (b : Business) (alerts : list Alert) (now : Z)
  (w : World) :
  (tw = false \/ forall msg, te (whatsapp_addr (biz_owner_phone b)) msg = None) ->
  send_stock_alerts_r repr_float tw te b alerts now w
  = Ret tt (send_stock_alerts repr_float tw b alerts now w).
Proof.
  intros H. unfold send_stock_alerts_r, send_stock_alerts. revert w.
  induction alerts as [|a alerts IH]; intros w; [reflexivity|].
  simpl. unfold send_stock_alert_r at 1.
  change (send_stock_alert repr_float tw b now w a) with
    (let recent := recent_stock_alerts b now w in
     if existsb (fun r => opt_str_eqb (pa_item_name r) (Some (al_name a))) recent then w
     else insert_pending_action
            (fun id => {| pa_id := id; pa_business_id := biz_id b;
                          pa_owner_phone := biz_owner_phone b;
                          pa_action_type := "stock_alert"; pa_item_name := Some (al_name a);
                          pa_item_data := Some (ItemAlert a); pa_review_id := None;
                          pa_draft_reply := None; pa_status := "pending";
                          pa_created_at := now |})
            (send_whatsapp tw (biz_owner_phone b) (stock_alert_msg repr_float a) w)).
  cbv zeta. destruct (existsb _ _); [apply IH|].
  rewrite send_whatsapp_r_accepts by (destruct H as [H|H]; [left; exact H|right; apply H]).
  apply IH.
Qed.

Lemma reconcile_business_r_accepts (repr_float : Q -> string) (py_float : string -> option Q)
  (tw : bool) (te : string -> string -> option string) (gw : Gateways) (now : Z) (w : World)
  (b : Business) :
  (tw = false \/ forall msg, te (whatsapp_addr (biz_owner_phone b)) msg = None) ->
  reconcile_business_r repr_float py_float tw te gw now w b
  = Ret tt (reconcile_business repr_float py_float tw gw now w b).
Proof.
  intros H. unfold reconcile_business_r, reconcile_business. cbv zeta.
  destruct (gw_read_stock_sheet gw b) as [|r rs]; [reflexivity|].
  destruct (check_stock_levels _ _ _ _ _) as [|a al]; [reflexivity|].
  now apply send_stock_alerts_r_accepts.
Qed.

(** After a stock reconciliation of a business whose sheet reads, when
    Twilio accepts the messages to the owner (or is not configured), the
    reconciliation returns normally and every sheet row that parses and is
    at or below its reorder point has a stock_alert action of that
    business for that item created in the last four hours. *)
Theorem reconcile_alerts_low_rows_r (repr_float : Q -> string) (py_float : string -> option Q)
  (twilio_ready : bool) (twilio_error : string -> string -> option string) (gw : Gateways)
  (now : Z) (w : World) (b : Business) (r : Row) (name : string) (qty threshold reorder : Q) :
  (twilio_ready = false \/
   forall msg, twilio_error (whatsapp_addr (biz_owner_phone b)) msg = None) ->
  In r (gw_read_stock_sheet gw b) ->
  parse_row py_float r = Some (name, qty, threshold, reorder) ->
  Qle_bool qty threshold = true ->
  exists w', reconcile_business_r repr_float py_float twilio_ready twilio_error gw now w b
             = Ret tt w' /\
             has_alert_since (biz_id b) name (now - 4 * 3600) w' = true.
Proof.
  intros Htw Hin Hp Hq.
  rewrite (reconcile_business_r_accepts repr_float py_float twilio_ready twilio_error gw now w b Htw).
  eexists. split; [reflexivity|].
  eapply reconcile_business_alerts_low_rows; eassumption.
Qed.

Lemma reconcile_alerts_low_rows_r_witness :
  exists w', reconcile_business_r repr_demo float_demo true twilio_demo_error
               (sheet_gateways [demo_row "3"]) 0 (empty_world [demo_business]) demo_business
             = Ret tt w' /\
             has_alert_since 1 "Oil Filters" (0 - 4 * 3600) w' = true.
Proof.
  apply (reconcile_alerts_low_rows_r repr_demo float_demo true twilio_demo_error
           (sheet_gateways [demo_row "3"]) 0 (empty_world [demo_business]) demo_business
           (demo_row "3") "Oil Filters" (inject_Z 3) (inject_Z 5) (inject_Z 10)).
  - right. intros msg. reflexivity.
  - now left.
  - vm_compute. reflexivity.
  - reflexivity.
Defined.

(** ** The sender's [whatsapp:] prefix *)

Lemma substring_length_le (n m : nat) (s : string) :
  (String.length (substring n m s) <= String.length s - n)%nat.
Proof.
  revert n m. induction s as [|c s IH]; intros n m.
  - destruct n, m; simpl; lia.
  - destruct n as [|n], m as [|m]; simpl.
    + lia.
    + specialize (IH 0%nat m). simpl in IH. lia.
    + specialize (IH n 0%nat). lia.
    + specialize (IH n (S m)). lia.
Qed.

Lemma substring_0_long (m : nat) (s : string) :
  (String.length s <= m)%nat -> substring 0 m s = s.
Proof.
  revert m. induction s as [|c s IH]; intros m Hm.
  - destruct m; reflexivity.
  - destruct m as [|m]; simpl in Hm; [lia|]. simpl. rewrite IH by lia. reflexivity.
Qed.

(** With enough fuel, [replace_go] does not depend on the fuel. *)
Lemma replace_go_fuel (pat : string) :
  pat <> "" -> forall n m s, (String.length s < n)%nat -> (String.length s < m)%nat ->
  replace_go n pat s = replace_go m pat s.
Proof.
  intros Hp. induction n as [|n IH]; intros m s Hn Hm; [lia|].
  destruct m as [|m]; [lia|]. destruct s as [|c s]; [reflexivity|].
  assert (Hs : forall k, replace_go (S k) pat (String c s)
    = if String.prefix pat (String c s)
      then replace_go k pat (substring (String.length pat) (String.length (String c s))
                                       (String c s))
      else String c (replace_go k pat s)) by reflexivity.
  rewrite !Hs. assert (Hc : String.length (String c s) = S (String.length s)) by reflexivity.
  destruct (String.prefix pat (String c s)).
  - assert (Hl : (0 < String.length pat)%nat) by (destruct pat; [now destruct Hp|simpl; lia]).
    pose proof (substring_length_le (String.length pat) (String.length (String c s))
                  (String c s)) as H.
    apply IH; lia.
  - f_equal. apply IH; lia.
Qed.

Lemma remove_all_prefix (pat p : string) :
  pat <> "" -> remove_all pat (pat ++ p) = remove_all pat p.
Proof.
  intros Hp. unfold remove_all.
  destruct pat as [|c pat']; [now destruct Hp|].
  change (String c pat' ++ p)%string with (String c (pat' ++ p)).
  change (replace_go (S (String.length (String c (pat' ++ p)))) (String c pat') (String c (pat' ++ p)))
    with (if String.prefix (String c pat') (String c (pat' ++ p))
          then replace_go (String.length (String c (pat' ++ p))) (String c pat')
                 (substring (String.length (String c pat')) (String.length (String c (pat' ++ p)))
                            (String c (pat' ++ p)))
          else String c (replace_go (String.length (String c (pat' ++ p))) (String c pat') (pat' ++ p))).
  change (String c (pat' ++ p)) with (String c pat' ++ p)%string.
  rewrite prefix_app_self.
  rewrite <- (Nat.add_0_r (String.length (String c pat'))) at 1.
  rewrite substring_app_l, substring_0_long by (rewrite str_length_app; lia).
  apply replace_go_fuel; [discriminate| |lia].
  rewrite str_length_app. simpl. lia.
Qed.

(** Twilio's sender [whatsapp:+971...] and the bare number [+971...]
    resolve to the same business: [get_business] drops the prefix. *)
Theorem get_business_whatsapp_prefix (p : string) (w : World) :
  get_business ("whatsapp:" ++ p) w = get_business p w.
Proof.
  unfold get_business. rewrite remove_all_prefix by discriminate. reflexivity.
Qed.

(** ** Stock-out forecast *)

Lemma round_half_even_nonneg (y : Q) : (0 <= y)%Q -> 0 <= round_half_even y.
Proof.
  intros H. unfold round_half_even.
  assert (Hf : 0 <= Qfloor y).
  { change 0 with (Qfloor 0). apply Qfloor_resp_le. exact H. }
  destruct (Qlt_le_dec _ _); [exact Hf|].
  destruct (Qeq_bool _ _); [destruct (Z.even _)|]; lia.
Qed.

(** A forecast, when there is one, is never negative for a non-negative
    current quantity. *)
Theorem predict_stockout_nonneg (w : World) (business_id : Z) (item_name : string)
  (current_qty : Q) (now : Z) (d : Q) :
  predict_stockout w business_id item_name current_qty now = Some d ->
  (0 <= current_qty)%Q -> (0 <= d)%Q.
Proof.
  unfold predict_stockout. intros H Hq.
  destruct (window_movements w business_id item_name now) as [|m ms]; [discriminate|].
  cbv zeta in H.
  destruct (Qle_bool _ 0) eqn:E; [discriminate|]. simpl in H. injection H as <-.
  apply not_true_iff_false in E. rewrite Qle_bool_iff in E. apply Qnot_le_lt in E.
  unfold round1. unfold Qdiv. apply Qmult_le_0_compat; [|discriminate].
  unfold Qle. simpl. rewrite Z.mul_1_r. apply round_half_even_nonneg.
  apply Qmult_le_0_compat; [|discriminate].
  unfold Qdiv. apply Qmult_le_0_compat; [exact Hq|].
  apply Qlt_le_weak, Qinv_lt_0_compat, E.
Qed.

Lemma predict_stockout_nonneg_witness :
  exists d, predict_stockout forecast_world 1 "Oil Filters" 20 1000000 = Some d /\ (0 <= d)%Q.
Proof.
  assert (H : predict_stockout forecast_world 1 "Oil Filters" 20 1000000
              = Some (round1 (20 / (qsum (map (fun m => Qabs (mv_quantity_change m))
                                  (window_movements forecast_world 1 "Oil Filters" 1000000)) / 7)))).
  { vm_compute. reflexivity. }
  eexists. split; [exact H|].
  apply (predict_stockout_nonneg forecast_world 1 "Oil Filters" 20 1000000 _ H).
  discriminate.
Defined.

(** ** Repeated SEND ORDER *)

Lemma filter_first_removed {A} (P : A -> bool) (g : A -> A) (key : A -> Z) (l : list A)
  (a : A) (rest : list A) :
  NoDup (map key l) -> filter P l = a :: rest ->
  (forall x, key x = key a -> P (g x) = false) -> (forall x, key x <> key a -> g x = x) ->
  filter P (map g l) = rest.
Proof.
  intros Hnd Hf H1 H2. induction l as [|x l IH]; [discriminate|].
  simpl in Hnd. inversion Hnd as [|? ? Hx Hnd']; subst.
  simpl in Hf |- *. destruct (P x) eqn:Px.
  - injection Hf as <- <-. rewrite (H1 x eq_refl).
    rewrite (map_ext_in g (fun y => y)); [now rewrite map_id|].
    intros y Hy. apply H2. intros E. apply Hx. rewrite <- E. now apply in_map.
  - destruct (Z.eq_dec (key x) (key a)) as [E|E].
    + rewrite (H1 x E). now apply IH.
    + rewrite (H2 x E), Px. now apply IH.
Qed.

(** With distinct action ids, a [send order] that sends the first pending
    purchase order of the business leaves exactly the other pending ones:
    the next [send order] moves on to the next order and never sends the
    same one twice. *)
Theorem handle_send_order_advances (twilio_ready : bool) (b : Business) (w : World)
  (a : PendingAction) (rest : list PendingAction) :
  NoDup (map pa_id (pending_actions w)) ->
  pending_of b "purchase_order" w = a :: rest ->
  item_supplier_whatsapp (pa_item_data a) <> "" ->
  pending_of b "purchase_order" (snd (handle_send_order twilio_ready b w)) = rest.
Proof.
  intros Hnd Hp Hwa. unfold handle_send_order. rewrite Hp.
  destruct (String.eqb (item_supplier_whatsapp (pa_item_data a)) "") eqn:E;
    [apply String.eqb_eq in E; contradiction|].
  cbn [snd]. unfold pending_of, set_status. cbn [pending_actions set_pending_actions].
  rewrite send_whatsapp_pending. unfold pending_of in Hp.
  eapply filter_first_removed; [exact Hnd|exact Hp| |].
  - intros x Ex. rewrite Ex, Z.eqb_refl. cbn. now rewrite andb_false_r.
  - intros x Ex. apply Z.eqb_neq in Ex. now rewrite Ex.
Qed.

Lemma handle_send_order_advances_witness :
  pending_of demo_business "purchase_order" order_world = [demo_po] /\
  pending_of demo_business "purchase_order" (snd (handle_send_order true demo_business order_world))
  = [].
Proof.
  assert (H : pending_of demo_business "purchase_order" order_world = [demo_po])
    by (vm_compute; reflexivity).
  split; [exact H|].
  apply (handle_send_order_advances true demo_business order_world demo_po [] ).
  - vm_compute. repeat constructor. intros [].
  - exact H.
  - discriminate.
Defined.

(** ** A sync touches only its own business *)

Lemma filter_map_fixed {A} (P : A -> bool) (g : A -> A) (l : list A) :
  (forall x, In x l -> P (g x) = P x) -> (forall x, In x l -> P x = true -> g x = x) ->
  filter P (map g l) = filter P l.
Proof.
  intros H1 H2. induction l as [|x l IH]; [reflexivity|]. simpl.
  rewrite H1 by now left. destruct (P x) eqn:Px.
  - rewrite H2 by (now left || exact Px). f_equal. apply IH; intros y Hy; [apply H1|apply H2]; now right.
  - apply IH; intros y Hy; [apply H1|apply H2]; now right.
Qed.

Lemma sync_row_ids_ok py b now (w : World) r :
  stock_ids_ok w -> stock_ids_ok (sync_row py b now w r).
Proof.
  intros H. unfold sync_row. destruct (parse_row py r) as [[[[n q] t] o]|]; [|exact H].
  destruct (filter _ _) as [|e es].
  - apply insert_ids_ok; [reflexivity|exact H].
  - match goal with |- context[update_stock_item ?id ?f w] =>
      assert (H1 : stock_ids_ok (update_stock_item id f w))
        by (apply update_ids_ok; [intros it; split; [reflexivity|split; reflexivity]|exact H])
    end.
    destruct (negb _); exact H1.
Qed.

Lemma sync_row_isolated py b now (w : World) r (bid : Z) :
  bid <> biz_id b -> stock_ids_ok w ->
  filter (fun it => si_business_id it =? bid) (stock_items (sync_row py b now w r))
  = filter (fun it => si_business_id it =? bid) (stock_items w) /\
  filter (fun m => mv_business_id m =? bid) (stock_movements (sync_row py b now w r))
  = filter (fun m => mv_business_id m =? bid) (stock_movements w).
Proof.
  intros Hb [Hnd _].
  assert (Hn : (biz_id b =? bid) = false) by (apply Z.eqb_neq; congruence).
  unfold sync_row. destruct (parse_row py r) as [[[[n q] t] o]|]; [|split; reflexivity].
  destruct (filter _ (stock_items w)) as [|e es] eqn:Ef.
  - split; [|reflexivity]. simpl. rewrite filter_app. simpl. rewrite Hn. apply app_nil_r.
  - assert (He : In e (stock_items w) /\ si_business_id e = biz_id b).
    { assert (Hi : In e (e :: es)) by now left. rewrite <- Ef in Hi.
      apply filter_In in Hi as [Hi Hc]. apply andb_prop in Hc as [Hc _].
      split; [exact Hi|]. now apply Z.eqb_eq. }
    destruct He as [Hin Hbe].
    assert (Hitems : forall w1, stock_items w1 = stock_items (update_stock_item (si_id e)
      (fun it => {| si_id := si_id it; si_business_id := si_business_id it;
                    si_name := si_name it; si_current_quantity := q;
                    si_unit := get_default (row_get r "Unit") "";
                    si_reorder_threshold := t; si_reorder_quantity := o;
                    si_supplier_name := si_supplier_name it;
                    si_supplier_whatsapp := si_supplier_whatsapp it;
                    si_last_updated := now |}) w) ->
      filter (fun it => si_business_id it =? bid) (stock_items w1)
      = filter (fun it => si_business_id it =? bid) (stock_items w)).
    { intros w1 ->. unfold update_stock_item. simpl. apply filter_map_fixed.
      - intros x _. now destruct (si_id x =? si_id e).
      - intros x Hx Px. destruct (si_id x =? si_id e) eqn:Ex; [|reflexivity].
        apply Z.eqb_eq in Ex. rewrite (NoDup_map_same si_id _ x e Hnd Hx Hin Ex) in Px.
        rewrite Hbe, Hn in Px. discriminate. }
    destruct (negb _).
    + split; [now apply Hitems|]. simpl. rewrite filter_app. simpl. rewrite Hn. apply app_nil_r.
    + split; [now apply Hitems|reflexivity].
Qed.

(** With distinct stock item ids below the id counter, syncing the sheet
    of one business changes neither the stock items nor the stock
    movements of any other business. *)
Theorem sync_isolated (py_float : string -> option Q) (b : Business) (rows : list Row)
  (now : Z) (w : World) (bid : Z) :
  bid <> biz_id b -> stock_ids_ok w ->
  filter (fun it => si_business_id it =? bid)
    (stock_items (sync_stock_to_supabase py_float b rows now w))
  = filter (fun it => si_business_id it =? bid) (stock_items w) /\
  filter (fun m => mv_business_id m =? bid)
    (stock_movements (sync_stock_to_supabase py_float b rows now w))
  = filter (fun m => mv_business_id m =? bid) (stock_movements w).
Proof.
  intros Hb. unfold sync_stock_to_supabase. revert w.
  induction rows as [|r rows IH]; intros w Hok; [split; reflexivity|].
  simpl. destruct (IH (sync_row py_float b now w r) (sync_row_ids_ok py_float b now w r Hok))
    as [I1 M1].
  destruct (sync_row_isolated py_float b now w r bid Hb Hok) as [I2 M2].
  split; congruence.
Qed.

Lemma sync_isolated_witness :
  filter (fun it => si_business_id it =? 2)
    (stock_items (sync_stock_to_supabase float_demo demo_business [demo_row "3"] 0 order_world))
  = filter (fun it => si_business_id it =? 2) (stock_items order_world) /\
  filter (fun m => mv_business_id m =? 2)
    (stock_movements (sync_stock_to_supabase float_demo demo_business [demo_row "3"] 0 order_world))
  = filter (fun m => mv_business_id m =? 2) (stock_movements order_world).
Proof.
  apply (sync_isolated float_demo demo_business [demo_row "3"] 0 order_world 2).
  - discriminate.
  - split; vm_compute; repeat constructor; intros [].
Defined.
